(** * LiFX node server: device-state mirror and command translation

    A shallow embedding of [lifx-poly.py].  The node classes ([Controller],
    [Light], [MultiZone], [Tile]) become modules; every handler is a
    computation in a small monad that threads the node's attributes,
    records the observable effects (device calls, driver updates, reported
    commands, log lines) in a trace, and can raise a Python exception.
    Attribute changes made before an exception is raised are kept, as in
    Python. *)

From Stdlib Require Import ZArith Lia String Ascii List Bool.
From stdpp Require Import base option list gmap strings pretty fin_maps.

Local Open Scope string_scope.
Local Open Scope Z_scope.

(** ** Module-level constants *)

Definition BR_INCREMENT : Z := 2620.
Definition BR_MIN : Z := 1310.
Definition BR_MAX : Z := 65535.
Definition FADE_INTERVAL : Z := 5000.
Definition BRTDIM_INTERVAL : Z := 400.

(** [COLORS]: preset id -> (name, HSBK). *)
Definition COLORS (i : Z) : option (string * list Z) :=
  match i with
  | 0 => Some ("RED", [62978; 65535; 65535; 3500])
  | 1 => Some ("ORANGE", [5525; 65535; 65535; 3500])
  | 2 => Some ("YELLOW", [7615; 65535; 65535; 3500])
  | 3 => Some ("GREEN", [16173; 65535; 65535; 3500])
  | 4 => Some ("CYAN", [29814; 65535; 65535; 3500])
  | 5 => Some ("BLUE", [43634; 65535; 65535; 3500])
  | 6 => Some ("PURPLE", [50486; 65535; 65535; 3500])
  | 7 => Some ("PINK", [58275; 65535; 47142; 3500])
  | 8 => Some ("WHITE", [58275; 0; 65535; 5500])
  | 9 => Some ("COLD_WHTE", [58275; 0; 65535; 9000])
  | 10 => Some ("WARM_WHITE", [58275; 0; 65535; 3200])
  | 11 => Some ("GOLD", [58275; 0; 65535; 2500])
  | _ => None
  end.

(** ** Exceptions, effects and the handler monad *)

Inductive exn :=
| WorkflowException   (* lifxlan's transport failure *)
| OSError             (* IOError is an alias of OSError *)
| TypeError
| IndexError
| KeyError
| AttributeError
| UnboundLocalError.

#[global] Instance exn_eq_dec : EqDecision exn.
Proof. solve_decision. Defined.

(** Per-tile colours of a tile chain: tiles, 64 HSBK tuples each. *)
Abbreviation tile_colors := (list (list (list Z))).

(** Calls on the lifxlan device object.  Keyword flags that are constant at
    every call site ([rapid]) are left out.  [setHSBKDZ] hands [set_color]
    and [set_zone_color] the whole pending zone array where the other
    handlers hand them one HSBK list (and passes [apply=0]): these calls
    are [set_color_array] and [set_zone_color_array]. *)
Inductive dev_call :=
| get_color
| get_power
| get_color_zones
| get_tile_effect
| get_tilechain_colors
| set_color (color : list Z) (duration : Z)
| set_zone_color (start_index end_index : Z) (color : list Z) (duration : Z)
| set_power (on : bool)
| set_infrared (v : Z)
| set_waveform (transient : Z) (color : list Z) (period cycles duty_cycle form : Z)
| set_tile_effect (effect_type speed duration : Z) (palette : list (list Z))
| set_tilechain_colors (colors : tile_colors) (duration : Z)
| set_color_array (colors : list (list Z)) (duration : Z)
| set_zone_color_array (start_index end_index : Z) (colors : list (list Z)) (duration : Z).

(** Does the call change the device (as opposed to reading from it)? *)
Definition is_write (c : dev_call) : bool :=
  match c with
  | get_color | get_power | get_color_zones | get_tile_effect
  | get_tilechain_colors => false
  | _ => true
  end.

(** Calls on the [lifxlan.LifxLAN] client and on the device objects it
    enumerates (named by their MAC address). *)
Inductive lan_call :=
| get_lights
| get_label (mac : string)
| supports_multizone (mac : string)
| get_group_tuple (mac : string)
| get_devices_by_group (label : string).

Inductive level := DEBUG | INFO | ERROR.

(** Driver values.  [_bri_to_percent] is floating point; the value sent to
    the [ST] driver is kept symbolic: the brightness it was computed from. *)
Inductive drv :=
| DInt (v : Z)
| DPercent (bri : Z)                 (* _bri_to_percent(bri) *)
| DPercentAvg (total : Z) (n : Z).   (* _bri_to_percent(total / n) *)

Inductive event :=
| Call (c : dev_call)
| Lan (c : lan_call)
| Log (l : level) (msg : string)
| SetDriver (d : string) (v : drv)
| ReportCmd (c : string).

(** What the device answers during one handler run: the value each read
    returns (or the exception it raises) and, for each write, whether it
    returns normally ([None]) or raises. *)
Record device := {
  read_color : exn + list Z;
  read_power : exn + Z;
  read_zones : exn + list (list Z);
  read_tile_effect : exn + option Z;   (* effect['type'], or None *)
  read_tilechain : exn + tile_colors;
  write : dev_call -> option exn
}.

Record outcome (S A : Type) := Outcome {
  result : exn + A;
  final : S;
  trace : list event
}.
Arguments Outcome {S A} _ _ _.
Arguments result {S A} _.
Arguments final {S A} _.
Arguments trace {S A} _.

Definition M (S A : Type) : Type := S -> outcome S A.

Definition ret {S A} (a : A) : M S A := fun s => Outcome (inr a) s [].

(** Sequencing: an exception ends the computation, keeping the state and
    the trace reached so far. *)
Definition after {S A} (tr : list event) (o : outcome S A) : outcome S A :=
  match o with
  | Outcome r s' tr' => Outcome r s' (tr ++ tr')
  end.

Definition bind {S A B} (m : M S A) (k : A -> M S B) : M S B :=
  fun s =>
    match m s with
    | Outcome (inl e) s' tr => Outcome (inl e) s' tr
    | Outcome (inr a) s' tr => after tr (k a s')
    end.

Notation "x <- m ;; k" := (bind m (fun x => k))
  (at level 100, m at next level, right associativity).
Notation "m ;; k" := (bind m (fun _ => k))
  (at level 100, right associativity).

Definition raise {S A} (e : exn) : M S A := fun s => Outcome (inl e) s [].
Definition get {S} : M S S := fun s => Outcome (inr s) s [].
Definition modify {S} (f : S -> S) : M S unit := fun s => Outcome (inr tt) (f s) [].
Definition emit {S} (e : event) : M S unit := fun s => Outcome (inr tt) s [e].
Definition lift {S A} (r : exn + A) : M S A :=
  match r with inl e => raise e | inr a => ret a end.

(** [try: body / except <catches>: handler / else: orelse].  Exceptions
    raised by [handler] or [orelse] are not caught. *)
Definition try_else {S A B} (body : M S A) (catches : exn -> bool)
    (handler : exn -> M S B) (orelse : A -> M S B) : M S B :=
  fun s =>
    match body s with
    | Outcome (inl e) s' tr =>
        if catches e then after tr (handler e s') else Outcome (inl e) s' tr
    | Outcome (inr a) s' tr => after tr (orelse a s')
    end.

Definition try_ {S A} (body : M S A) (catches : exn -> bool)
    (handler : exn -> M S A) : M S A :=
  try_else body catches handler ret.

Definition any_exception (e : exn) : bool := true.
Definition only (l : list exn) (e : exn) : bool :=
  existsb (fun x => bool_decide (x = e)) l.

Definition log {S} (l : level) (msg : string) : M S unit := emit (Log l msg).
Definition setDriver {S} (d : string) (v : drv) : M S unit := emit (SetDriver d v).
Definition reportCmd {S} (c : string) : M S unit := emit (ReportCmd c).

(** A device read: the call is recorded, then the answer is returned or
    the exception raised. *)
Definition dev_read {S A} (c : dev_call) (r : exn + A) : M S A :=
  emit (Call c) ;; lift r.

(** A device write. *)
Definition dev_write {S} (dev : device) (c : dev_call) : M S unit :=
  emit (Call c) ;;
  match write dev c with
  | Some e => raise e
  | None => ret tt
  end.

(** ** Python list indexing, negative indices included *)

Definition py_index (len : nat) (i : Z) : option nat :=
  if 0 <=? i then (if i <? Z.of_nat len then Some (Z.to_nat i) else None)
  else (if 0 <=? Z.of_nat len + i then Some (Z.to_nat (Z.of_nat len + i)) else None).

Definition getitem {A} (l : list A) (i : Z) : exn + A :=
  match py_index (length l) i with
  | Some n => match l !! n with Some x => inr x | None => inl IndexError end
  | None => inl IndexError
  end.

Definition setitem {A} (l : list A) (i : Z) (x : A) : exn + list A :=
  match py_index (length l) i with
  | Some n => inr (<[n:=x]> l)
  | None => inl IndexError
  end.

(** [for x in l: body x] *)
Fixpoint for_each {S A} (l : list A) (body : A -> M S unit) : M S unit :=
  match l with
  | [] => ret tt
  | x :: l' => body x ;; for_each l' body
  end.

(** [for ind, driver in enumerate(('GV1','GV2','GV3','CLITEMP')):
       self.setDriver(driver, c[ind])] *)
Definition report_color {S} (c : list Z) : M S unit :=
  for_each [(0, "GV1"); (1, "GV2"); (2, "GV3"); (3, "CLITEMP")]
    (fun p => v <- lift (getitem c (fst p)) ;; setDriver (snd p) (DInt v)).

(** [int(round(n / d))] for integers [n] and [d > 0]: true division then
    rounding half to even.  Python computes the quotient in floating point;
    at the one call site ([val * 65535 / 255]) the quotient is the integer
    [val * 257], which a float holds exactly below 2^53; above, the float
    keeps its sign and stays beyond both clamp bounds, so the clamped
    value is the same, as long as the quotient is within the range of a
    float (below 2^1024 in absolute value).  Beyond that range Python
    raises [OverflowError], which [round_div] does not model. *)
Definition round_div (n d : Z) : Z :=
  let q := n / d in
  let r := n mod d in
  if 2 * r <? d then q
  else if d <? 2 * r then q + 1
  else if Z.even q then q else q + 1.

(** Controller policy flags read by the device nodes. *)
Record policy := {
  change_pon : bool;
  ignore_second_on : bool
}.

(** The command dictionary handed to a handler: [command.get('cmd')],
    [command.get('value')] and [command.get('query').get(key)], each [None]
    when absent.  The ['query'] mapping itself is taken to be there, empty
    when the command has no fields; a command without the ['query'] key,
    on which [query.get] raises [AttributeError], is a [request] whose
    [r_query] is [None] (see [setHSBKD_request]). *)
Record command := {
  cmd : string;
  value : option Z;
  query : string -> option Z
}.

(** [int(x)] for [x] an integer or [None]. *)
Definition int {S} (x : option Z) : M S Z :=
  match x with
  | Some v => ret v
  | None => raise TypeError
  end.

(** [if x > BR_MAX: x = BR_MAX elif x < BR_MIN: x = BR_MIN] *)
Definition clamp (x : Z) : Z :=
  if BR_MAX <? x then BR_MAX else if x <? BR_MIN then BR_MIN else x.

Definition WAVEFORM : list string := ["Saw"; "Sine"; "HalfSine"; "Triangle"; "Pulse"].

(** ** class Light

    The attributes the handlers below read or write.  [lastupdate] (wall
    clock) and [long_update] are left out; [long_update] reads
    diagnostics (uptime, infrared, signal strength) and sets [connected]
    and [ir_support] from them. *)

Module Light.

Record t := {
  power : bool;
  connected : Z;
  color : list Z;
  duration : Z;
  ir_support : bool
}.

(** [Light.__init__] *)
Definition init : t :=
  {| power := false; connected := 1; color := []; duration := 0; ir_support := false |}.

Definition with_power (b : bool) (s : t) : t :=
  {| power := b; connected := connected s; color := color s;
     duration := duration s; ir_support := ir_support s |}.
Definition with_connected (c : Z) (s : t) : t :=
  {| power := power s; connected := c; color := color s;
     duration := duration s; ir_support := ir_support s |}.
Definition with_color (c : list Z) (s : t) : t :=
  {| power := power s; connected := connected s; color := c;
     duration := duration s; ir_support := ir_support s |}.
Definition with_duration (d : Z) (s : t) : t :=
  {| power := power s; connected := connected s; color := color s;
     duration := d; ir_support := ir_support s |}.

(** [self.color[i]] and [self.color[i] = v] *)
Definition color_at (i : Z) : M t Z :=
  s <- get ;; lift (getitem (color s) i).
Definition set_color_at (i : Z) (v : Z) : M t unit :=
  s <- get ;; c <- lift (setitem (color s) i v) ;; modify (with_color c).

(** [self.setDriver('ST', self._bri_to_percent(self.color[2]))] *)
Definition report_st : M t unit :=
  b <- color_at 2 ;; setDriver "ST" (DPercent b).

Definition update (dev : device) : M t unit :=
  modify (with_connected 0) ;;
  try_else
    (c <- dev_read get_color (read_color dev) ;; modify (with_color c))
    any_exception
    (fun _ =>
       log ERROR "Connection Error on getting bulb color" ;;
       s <- get ;;
       setDriver "GV5" (DInt (connected s)))
    (fun _ =>
       modify (with_connected 1) ;;
       (s <- get ;; report_color (color s)) ;;
       try_else
         (p <- dev_read get_power (read_power dev) ;;
          let power_now := p =? 65535 in
          s <- get ;;
          (if negb (Bool.eqb (power s) power_now) then
             if power_now then reportCmd "DON" else reportCmd "DOF"
           else ret tt) ;;
          modify (with_power power_now))
         any_exception
         (fun _ => log ERROR "Connection Error on getting bulb power")
         (fun _ =>
            modify (with_connected 1) ;;
            s <- get ;;
            if power s then report_st else setDriver "ST" (DInt 0)) ;;
       s <- get ;;
       setDriver "GV5" (DInt (connected s)) ;;
       setDriver "RR" (DInt (duration s))).

Definition _power_on_change (pol : policy) (dev : device) : M t unit :=
  s <- get ;;
  if negb (change_pon pol) || power s then ret tt
  else
    try_else (dev_write dev (set_power true))
      (only [WorkflowException])
      (fun _ => log ERROR "Connection Error on setting bulb power")
      (fun _ => modify (with_power true) ;; report_st).

(** The [if]/[elif] chain of [setOn] that picks the brightness to write:
    [None] is the early return, [Some None] leaves [new_bri] at [None],
    [Some (Some (new_bri, trans))] otherwise. *)
Definition setOn_target (pol : policy) (command : command) : M t (option (option (Z * Z))) :=
  s <- get ;;
  dfon <- (if String.eqb (cmd command) "DFON"
           then b <- color_at 2 ;; ret (negb (b =? BR_MAX))
           else ret false) ;;
  if dfon then ret (Some (Some (BR_MAX, 0)))
  else
    match String.eqb (cmd command) "DON", value command with
    | true, Some val =>
        ret (Some (Some (clamp (round_div (val * 65535) 255), duration s)))
    | _, _ =>
        if power s && ignore_second_on pol then
          log INFO "is already On, ignoring DON" ;; ret None
        else
          below <- (if power s then b <- color_at 2 ;; ret (negb (b =? BR_MAX))
                    else ret false) ;;
          if below then ret (Some (Some (BR_MAX, duration s)))
          else ret (Some None)
    end.

Definition setOn (pol : policy) (dev : device) (command : command) : M t unit :=
  target <- setOn_target pol command ;;
  match target with
  | None => ret tt
  | Some new_bri =>
      match new_bri with
      | Some (new_bri, trans) =>
          set_color_at 2 new_bri ;;
          s <- get ;;
          try_else (dev_write dev (set_color (color s) trans))
            (only [WorkflowException])
            (fun _ => log ERROR "Connection Error DON bulb")
            (fun _ => b <- color_at 2 ;; setDriver "GV3" (DInt b))
      | None => ret tt
      end ;;
      try_else (dev_write dev (set_power true))
        (only [WorkflowException])
        (fun _ => log ERROR "Connection Error on setting bulb power")
        (fun _ => modify (with_power true) ;; report_st)
  end.

Definition setOff (dev : device) : M t unit :=
  try_else (dev_write dev (set_power false))
    (only [WorkflowException])
    (fun _ => log ERROR "Connection Error on setting bulb power")
    (fun _ => modify (with_power false) ;; setDriver "ST" (DInt 0)).

Definition dim (dev : device) : M t unit :=
  s <- get ;;
  (if negb (power s) then log INFO "is off, ignoring DIM" else ret tt) ;;
  b <- color_at 2 ;;
  let new_bri := b - BR_INCREMENT in
  let new_bri := if new_bri <? BR_MIN then BR_MIN else new_bri in
  set_color_at 2 new_bri ;;
  s <- get ;;
  try_else (dev_write dev (set_color (color s) BRTDIM_INTERVAL))
    (only [WorkflowException])
    (fun _ => log ERROR "Connection Error on dimming bulb")
    (fun _ => report_st ;; b <- color_at 2 ;; setDriver "GV3" (DInt b)).

(** The shared first branch of [brighten] and [fade_up]: the bulb is off,
    turn it on at minimum brightness. *)
Definition turn_on_at_minimum (dev : device) : M t unit :=
  set_color_at 2 BR_MIN ;;
  s <- get ;;
  try_else
    (dev_write dev (set_color (color s) 0) ;; dev_write dev (set_power true))
    (only [WorkflowException])
    (fun _ => log ERROR "Connection Error on brightnening bulb")
    (fun _ => modify (with_power true) ;; report_st).

Definition brighten (dev : device) : M t unit :=
  s <- get ;;
  if negb (power s) then turn_on_at_minimum dev
  else
    b <- color_at 2 ;;
    let new_bri := b + BR_INCREMENT in
    let new_bri := if BR_MAX <? new_bri then BR_MAX else new_bri in
    set_color_at 2 new_bri ;;
    s <- get ;;
    try_else (dev_write dev (set_color (color s) BRTDIM_INTERVAL))
      (only [WorkflowException])
      (fun _ => log ERROR "Connection Error on dimming bulb")
      (fun _ => report_st ;; b <- color_at 2 ;; setDriver "GV3" (DInt b)).

Definition fade_up (dev : device) : M t unit :=
  s <- get ;;
  (if negb (power s) then turn_on_at_minimum dev else ret tt) ;;
  b <- color_at 2 ;;
  if b =? BR_MAX then log INFO "Can not FadeUp, already at maximum"
  else
    set_color_at 2 BR_MAX ;;
    s <- get ;;
    try_ (dev_write dev (set_color (color s) FADE_INTERVAL))
      (only [WorkflowException])
      (fun _ => log ERROR "Connection Error bulb Fade Up").

Definition fade_down (dev : device) : M t unit :=
  s <- get ;;
  if negb (power s) then log ERROR "can not FadeDown as it is currently off"
  else
    b <- color_at 2 ;;
    if b <=? BR_MIN then log ERROR "can not FadeDown as it is currently at minimum"
    else
      set_color_at 2 BR_MIN ;;
      s <- get ;;
      try_ (dev_write dev (set_color (color s) FADE_INTERVAL))
        (only [WorkflowException])
        (fun _ => log ERROR "Connection Error bulb Fade Down").

Definition fade_stop (dev : device) : M t unit :=
  s <- get ;;
  if negb (power s) then log ERROR "can not FadeStop as it is currently off"
  else
    try_else
      (c <- dev_read get_color (read_color dev) ;; modify (with_color c))
      any_exception
      (fun _ => log ERROR "Connection Error on getting bulb color")
      (fun _ => s <- get ;; report_color (color s)) ;;
    b <- color_at 2 ;;
    if (b =? BR_MIN) || (b =? BR_MAX) then
      log ERROR "can not FadeStop as it is currently at limit"
    else
      s <- get ;;
      try_ (dev_write dev (set_color (color s) 0))
        (only [WorkflowException])
        (fun _ => log ERROR "Connection Error bulb Fade Stop").

(** [COLORS[_color]]: a missing key raises [KeyError]. *)
Definition preset {S} (i : Z) : M S (string * list Z) :=
  match COLORS i with
  | Some p => ret p
  | None => raise KeyError
  end.

Definition setColor (pol : policy) (dev : device) (command : command) : M t unit :=
  s <- get ;;
  if negb (connected s =? 0) then
    _color <- int (value command) ;;
    try_
      (p <- preset _color ;; dev_write dev (set_color (snd p) (duration s)))
      (only [WorkflowException])
      (fun _ => log ERROR "Connection Error on setting bulb color") ;;
    p <- preset _color ;;
    log INFO ("Received SetColor command from ISY. Changing color to: " +:+ fst p) ;;
    report_color (snd p) ;;
    _power_on_change pol dev
  else
    log ERROR "Received SetColor, however the bulb is in a disconnected state... ignoring".

(** The [if]/[elif] chain of [setManual]; [driver] stays unbound ([None])
    when no branch matches. *)
Definition setManual_field (_cmd : string) (_val : Z) : M t (option (string * Z)) :=
  if String.eqb _cmd "SETH" then set_color_at 0 _val ;; ret (Some ("GV1", _val))
  else if String.eqb _cmd "SETS" then set_color_at 1 _val ;; ret (Some ("GV2", _val))
  else if String.eqb _cmd "SETB" then set_color_at 2 _val ;; ret (Some ("GV3", _val))
  else if String.eqb _cmd "CLITEMP" then set_color_at 3 _val ;; ret (Some ("CLITEMP", _val))
  else if String.eqb _cmd "RR" then modify (with_duration _val) ;; ret (Some ("RR", _val))
  else ret None.

Definition setManual (pol : policy) (dev : device) (command : command) : M t unit :=
  s <- get ;;
  if negb (connected s =? 0) then
    _val <- int (value command) ;;
    driver <- setManual_field (cmd command) _val ;;
    s <- get ;;
    try_ (dev_write dev (set_color (color s) (duration s)))
      (only [WorkflowException])
      (fun _ => log ERROR "Connection Error on setting bulb") ;;
    log INFO "Received manual change, updating the bulb" ;;
    match driver with
    | Some d => setDriver (fst d) (DInt (snd d))
    | None => raise UnboundLocalError
    end ;;
    _power_on_change pol dev
  else
    log INFO "Received manual change, however the bulb is in a disconnected state... ignoring".

Definition setHSBKD (pol : policy) (dev : device) (command : command) : M t unit :=
  try_
    (h <- int (query command "H.uom56") ;;
     s_ <- int (query command "S.uom56") ;;
     b <- int (query command "B.uom56") ;;
     k <- int (query command "K.uom26") ;;
     modify (with_color [h; s_; b; k]) ;;
     d <- int (query command "D.uom42") ;;
     modify (with_duration d) ;;
     log INFO "Received manual change, updating the bulb")
    (only [TypeError])
    (fun _ => modify (with_duration 0)) ;;
  s <- get ;;
  try_ (dev_write dev (set_color (color s) (duration s)))
    (only [WorkflowException])
    (fun _ => log ERROR "Connection Error on setting bulb color") ;;
  report_color (color s) ;;
  _power_on_change pol dev ;;
  s <- get ;;
  setDriver "RR" (DInt (duration s)).

Definition set_ir_brightness (dev : device) (command : command) : M t unit :=
  _val <- int (value command) ;;
  s <- get ;;
  if negb (ir_support s) then log ERROR "is not IR capable"
  else
    try_else (dev_write dev (set_infrared _val))
      (only [WorkflowException])
      (fun _ => log ERROR "Connection Error on setting bulb IR Brightness")
      (fun _ => setDriver "GV7" (DInt _val)).

Definition set_wf (dev : device) (command : command) : M t unit :=
  s <- get ;;
  if negb (power s) then log ERROR "can not run Waveform as it is currently off"
  else
    h <- int (query command "H.uom56") ;;
    s_ <- int (query command "S.uom56") ;;
    b <- int (query command "B.uom56") ;;
    k <- int (query command "K.uom26") ;;
    wf_period <- int (query command "PE.uom42") ;;
    wf_cycles <- int (query command "CY.uom56") ;;
    wf_duty_cycle <- int (query command "DC.uom56") ;;
    wf_form <- int (query command "WF.uom25") ;;
    let wf_transient := if 5 <=? wf_form then 1 else 0 in
    let wf_form := if 5 <=? wf_form then wf_form - 5 else wf_form in
    form_name <- lift (getitem WAVEFORM wf_form) ;;
    log DEBUG ("Color tuple, Period, Cycles, Duty cycle, Form: " +:+ form_name) ;;
    try_ (dev_write dev (set_waveform wf_transient [h; s_; b; k] wf_period wf_cycles wf_duty_cycle wf_form))
      (only [WorkflowException])
      (fun _ => log ERROR "Connection Error on setting bulb Waveform").

End Light.

(** ** class MultiZone(Light)

    [update], [start], the brightness commands, [setColor], [setManual]
    and [setHSBKDZ].  [apply] and [set_effect] are left out; the pending
    zone array [new_color], which only [setHSBKDZ] and [apply] use, is
    kept beside the node's other attributes in [batch]. *)

Module MultiZone.

Record t := {
  power : bool;
  connected : Z;
  color : list (list Z);      (* one HSBK list per zone *)
  duration : Z;
  num_zones : Z;
  current_zone : Z;
  pending : bool
}.

(** [MultiZone.__init__] *)
Definition init : t :=
  {| power := false; connected := 1; color := []; duration := 0;
     num_zones := 0; current_zone := 0; pending := false |}.

Definition with_power (b : bool) (s : t) : t :=
  {| power := b; connected := connected s; color := color s; duration := duration s;
     num_zones := num_zones s; current_zone := current_zone s; pending := pending s |}.
Definition with_connected (c : Z) (s : t) : t :=
  {| power := power s; connected := c; color := color s; duration := duration s;
     num_zones := num_zones s; current_zone := current_zone s; pending := pending s |}.
Definition with_color (c : list (list Z)) (s : t) : t :=
  {| power := power s; connected := connected s; color := c; duration := duration s;
     num_zones := num_zones s; current_zone := current_zone s; pending := pending s |}.
Definition with_duration (d : Z) (s : t) : t :=
  {| power := power s; connected := connected s; color := color s; duration := d;
     num_zones := num_zones s; current_zone := current_zone s; pending := pending s |}.
Definition with_num_zones (n : Z) (s : t) : t :=
  {| power := power s; connected := connected s; color := color s; duration := duration s;
     num_zones := n; current_zone := current_zone s; pending := pending s |}.
Definition with_current_zone (z : Z) (s : t) : t :=
  {| power := power s; connected := connected s; color := color s; duration := duration s;
     num_zones := num_zones s; current_zone := z; pending := pending s |}.

(** [zone = deepcopy(self.current_zone)
     if self.current_zone != 0: zone -= 1] *)
Definition zone_of (current_zone : Z) : Z :=
  if negb (current_zone =? 0) then current_zone - 1 else current_zone.

(** [if self.current_zone == 0:
       self.device.set_color(c, d, rapid=False)
     else:
       self.device.set_zone_color(zone, zone, c, d, rapid=False)] *)
Definition zone_call (current_zone zone : Z) (c : list Z) (d : Z) : dev_call :=
  if current_zone =? 0 then set_color c d else set_zone_color zone zone c d.

(** [self.color[zone]] and [self.color[zone][i]] *)
Definition zone_color (zone : Z) : M t (list Z) :=
  s <- get ;; lift (getitem (color s) zone).
Definition zone_color_at (zone i : Z) : M t Z :=
  c <- zone_color zone ;; lift (getitem c i).

(** [for z in self.color: avg_brightness += z[2]] *)
Fixpoint total_brightness (zones : list (list Z)) (acc : Z) : exn + Z :=
  match zones with
  | [] => inr acc
  | z :: zones' =>
      match getitem z 2 with
      | inl e => inl e
      | inr b => total_brightness zones' (acc + b)
      end
  end.

Definition _set_st : M t unit :=
  s <- get ;;
  if num_zones s =? 0 then ret tt
  else if power s then
    total <- lift (total_brightness (color s) 0) ;;
    setDriver "ST" (DPercentAvg total (num_zones s))
  else setDriver "ST" (DInt 0).

(** The [if not self.pending:] block of [update]: read the zone array and
    report the cursor zone's colour. *)
Definition refresh_zones (dev : device) (zone : Z) : M t unit :=
  s <- get ;;
  if negb (pending s) then
    try_else
      (c <- dev_read get_color_zones (read_zones dev) ;; modify (with_color c))
      any_exception
      (fun _ => log ERROR "Connection Error on getting multizone color")
      (fun _ =>
         modify (with_connected 1) ;;
         (s <- get ;; modify (with_num_zones (Z.of_nat (length (color s))))) ;;
         for_each [(0, "GV1"); (1, "GV2"); (2, "GV3"); (3, "CLITEMP")]
           (fun p =>
              try_ (v <- zone_color_at zone (fst p) ;; setDriver (snd p) (DInt v))
                (only [TypeError])
                (fun _ => log DEBUG "setDriver for color caught an error")) ;;
         s <- get ;;
         setDriver "GV4" (DInt (current_zone s)))
  else ret tt.

(** The power block of [update]: read the power, report a change, update
    the mirror. *)
Definition refresh_power (dev : device) : M t unit :=
  try_else
    (p <- dev_read get_power (read_power dev) ;;
     let power_now := p =? 65535 in
     s <- get ;;
     (if negb (Bool.eqb (power s) power_now) then
        if power_now then reportCmd "DON" else reportCmd "DOF"
      else ret tt) ;;
     modify (with_power power_now))
    any_exception
    (fun _ => log ERROR "Connection Error on getting multizone power")
    (fun _ => modify (with_connected 1) ;; _set_st).

Definition update (dev : device) : M t unit :=
  modify (with_connected 0) ;;
  s <- get ;;
  let zone := zone_of (current_zone s) in
  refresh_zones dev zone ;;
  refresh_power dev ;;
  s <- get ;;
  setDriver "GV5" (DInt (connected s)) ;;
  setDriver "RR" (DInt (duration s)).

(** [start], up to its last statement: the persisted [RR] and [GV4]
    driver values ([None] when [int(self.getDriver(..))] raises) restore
    duration and zone cursor, then [update] runs.  The [long_update] that
    [start] calls last is left out; it sets [connected] and [ir_support]
    from diagnostic reads and touches neither cursor, zone count, colour
    nor power. *)
Definition start (rr gv4 : option Z) (dev : device) : M t unit :=
  modify (with_duration (default 0 rr)) ;;
  modify (with_current_zone (default 0 gv4)) ;;
  update dev.

Definition setOn_target (command : command) (zone : Z) : M t (option (Z * Z)) :=
  s <- get ;;
  dfon <- (if String.eqb (cmd command) "DFON"
           then b <- zone_color_at zone 2 ;; ret (negb (b =? BR_MAX))
           else ret false) ;;
  if dfon then ret (Some (BR_MAX, 0))
  else
    match String.eqb (cmd command) "DON", value command with
    | true, Some val =>
        ret (Some (clamp (round_div (val * 65535) 255), duration s))
    | _, _ =>
        below <- (if power s then b <- zone_color_at zone 2 ;; ret (negb (b =? BR_MAX))
                  else ret false) ;;
        if below then ret (Some (BR_MAX, duration s)) else ret None
    end.

Definition setOn (dev : device) (command : command) : M t unit :=
  s <- get ;;
  let zone := zone_of (current_zone s) in
  target <- setOn_target command zone ;;
  match target with
  | Some (new_bri, trans) =>
      c <- zone_color zone ;;
      new_color <- lift (setitem c 2 new_bri) ;;
      try_else (dev_write dev (zone_call (current_zone s) zone new_color trans))
        (only [WorkflowException])
        (fun _ => log ERROR "Connection Error DON bulb")
        (fun _ => b <- lift (getitem new_color 2) ;; setDriver "GV3" (DInt b))
  | None => ret tt
  end ;;
  try_else (dev_write dev (set_power true))
    (only [WorkflowException])
    (fun _ => log ERROR "Connection Error on setting bulb power")
    (fun _ => modify (with_power true) ;; _set_st).

Definition dim (dev : device) : M t unit :=
  s <- get ;;
  let zone := zone_of (current_zone s) in
  (if negb (power s) then log INFO "is off, ignoring DIM" else ret tt) ;;
  b <- zone_color_at zone 2 ;;
  let new_bri := b - BR_INCREMENT in
  let new_bri := if new_bri <? BR_MIN then BR_MIN else new_bri in
  c <- zone_color zone ;;
  new_color <- lift (setitem c 2 new_bri) ;;
  try_else (dev_write dev (zone_call (current_zone s) zone new_color BRTDIM_INTERVAL))
    (only [WorkflowException])
    (fun _ => log ERROR "Connection Error on dimming bulb")
    (fun _ => _set_st ;; b <- lift (getitem new_color 2) ;; setDriver "GV3" (DInt b)).

Definition turn_on_at_minimum (dev : device) (zone : Z) (c : list Z) : M t unit :=
  s <- get ;;
  new_color <- lift (setitem c 2 BR_MIN) ;;
  try_else
    (dev_write dev (zone_call (current_zone s) zone new_color 0) ;;
     dev_write dev (set_power true))
    (only [WorkflowException])
    (fun _ => log ERROR "Connection Error on brightnening bulb")
    (fun _ => modify (with_power true) ;; _set_st).

Definition brighten (dev : device) : M t unit :=
  s <- get ;;
  let zone := zone_of (current_zone s) in
  c <- zone_color zone ;;
  if negb (power s) then turn_on_at_minimum dev zone c
  else
    b <- zone_color_at zone 2 ;;
    let new_bri := b + BR_INCREMENT in
    let new_bri := if BR_MAX <? new_bri then BR_MAX else new_bri in
    new_color <- lift (setitem c 2 new_bri) ;;
    try_else (dev_write dev (zone_call (current_zone s) zone new_color BRTDIM_INTERVAL))
      (only [WorkflowException])
      (fun _ => log ERROR "Connection Error on dimming bulb")
      (fun _ => _set_st ;; b <- lift (getitem new_color 2) ;; setDriver "GV3" (DInt b)).

Definition fade_up (dev : device) : M t unit :=
  s <- get ;;
  let zone := zone_of (current_zone s) in
  c <- zone_color zone ;;
  (if negb (power s) then turn_on_at_minimum dev zone c else ret tt) ;;
  b <- zone_color_at zone 2 ;;
  if b =? BR_MAX then log INFO "Can not FadeUp, already at maximum"
  else
    new_color <- lift (setitem c 2 BR_MAX) ;;
    try_ (dev_write dev (zone_call (current_zone s) zone new_color FADE_INTERVAL))
      (only [WorkflowException])
      (fun _ => log ERROR "Connection Error bulb Fade Up").

Definition fade_down (dev : device) : M t unit :=
  s <- get ;;
  let zone := zone_of (current_zone s) in
  c <- zone_color zone ;;
  if negb (power s) then log ERROR "can not FadeDown as it is currently off"
  else
    b <- zone_color_at zone 2 ;;
    if b <=? BR_MIN then log ERROR "can not FadeDown as it is currently at minimum"
    else
      new_color <- lift (setitem c 2 BR_MIN) ;;
      try_ (dev_write dev (zone_call (current_zone s) zone new_color FADE_INTERVAL))
        (only [WorkflowException])
        (fun _ => log ERROR "Connection Error bulb Fade Down").

Definition fade_stop (dev : device) : M t unit :=
  s <- get ;;
  let zone := zone_of (current_zone s) in
  if negb (power s) then log ERROR "can not FadeStop as it is currently off"
  else
    try_else
      (c <- dev_read get_color_zones (read_zones dev) ;; modify (with_color c))
      any_exception
      (fun _ => log ERROR "Connection Error on getting multizone color")
      (fun _ => c <- zone_color zone ;; report_color c) ;;
    b <- zone_color_at zone 2 ;;
    if (b =? BR_MIN) || (b =? BR_MAX) then
      log ERROR "can not FadeStop as it is currently at limit"
    else
      c <- zone_color zone ;;
      try_ (dev_write dev (zone_call (current_zone s) zone c 0))
        (only [WorkflowException])
        (fun _ => log ERROR "Connection Error bulb Fade Stop").

(** [_color = int(command.get('value'))] is the first statement of the
    [try] block; the [TypeError] it can raise is not among the caught
    exceptions, so it is sequenced before the block. *)
Definition setColor (dev : device) (command : command) : M t unit :=
  s <- get ;;
  if negb (connected s =? 0) then
    _color <- int (value command) ;;
    try_
      (let zone := zone_of (current_zone s) in
       p <- Light.preset _color ;;
       dev_write dev (zone_call (current_zone s) zone (snd p) (duration s)) ;;
       log INFO ("Received SetColor command from ISY. Changing color to: " +:+ fst p))
      (only [WorkflowException; OSError])
      (fun _ => log ERROR "mz setcolor error") ;;
    p <- Light.preset _color ;;
    report_color (snd p)
  else
    log INFO "Received SetColor, however the bulb is in a disconnected state... ignoring".

(** The field [if]/[elif] chain of [setManual], on the copy [new_color]
    of the cursor zone's colour: the edited copy and the driver to report
    ([None]: the chain leaves [driver] as it was). *)
Definition setManual_field (_cmd : string) (_val : Z) (new_color : list Z)
  : M t (list Z * option (string * Z)) :=
  if String.eqb _cmd "SETH" then
    c <- lift (setitem new_color 0 _val) ;; ret (c, Some ("GV1", _val))
  else if String.eqb _cmd "SETS" then
    c <- lift (setitem new_color 1 _val) ;; ret (c, Some ("GV2", _val))
  else if String.eqb _cmd "SETB" then
    c <- lift (setitem new_color 2 _val) ;; ret (c, Some ("GV3", _val))
  else if String.eqb _cmd "CLITEMP" then
    c <- lift (setitem new_color 3 _val) ;; ret (c, Some ("CLITEMP", _val))
  else if String.eqb _cmd "RR" then
    modify (with_duration _val) ;; ret (new_color, Some ("RR", _val))
  else ret (new_color, None).

(** The statements of the [try] block of [setManual] up to the device
    call; they return [zone], [new_color] and [driver] ([None]: unbound).
    Here they raise [IndexError] only, which
    [except (WorkflowException, TypeError)] does not catch, so they are
    sequenced before the guarded call. *)
Definition setManual_edit (_cmd : string) (_val : Z)
  : M t (Z * list Z * option (string * Z)) :=
  driver <- (if String.eqb _cmd "SETZ" then
               modify (with_current_zone _val) ;;
               s <- get ;;
               (if num_zones s <? current_zone s then modify (with_current_zone 0)
                else ret tt) ;;
               s <- get ;;
               ret (Some ("GV4", current_zone s))
             else ret None) ;;
  s <- get ;;
  let zone := zone_of (current_zone s) in
  new_color <- zone_color zone ;;
  r <- setManual_field _cmd _val new_color ;;
  let new_color := fst r in
  let driver := match snd r with Some d => Some d | None => driver end in
  s <- get ;;
  c <- lift (setitem (color s) zone new_color) ;;
  modify (with_color c) ;;
  ret (zone, new_color, driver).

Definition setManual (dev : device) (command : command) : M t unit :=
  s <- get ;;
  if negb (connected s =? 0) then
    _val <- int (value command) ;;
    e <- setManual_edit (cmd command) _val ;;
    let '(zone, new_color, driver) := e in
    s <- get ;;
    try_ (dev_write dev (zone_call (current_zone s) zone new_color (duration s)))
      (only [WorkflowException; TypeError])
      (fun _ => log ERROR "setmanual mz error") ;;
    log INFO "Received manual change, updating the mz bulb zone" ;;
    match driver with
    | Some d => setDriver (fst d) (DInt (snd d))
    | None => raise UnboundLocalError
    end
  else
    log INFO "Received manual change, however the mz bulb is in a disconnected state... ignoring".

(** The node together with the pending zone array [self.new_color]
    ([None] until [setHSBKDZ] opens a batch). *)
Record batch := {
  node : t;
  new_color : option (list (list Z))
}.

Definition with_pending (p : bool) (s : t) : t :=
  {| power := power s; connected := connected s; color := color s; duration := duration s;
     num_zones := num_zones s; current_zone := current_zone s; pending := p |}.
Definition with_node (n : t) (b : batch) : batch :=
  {| node := n; new_color := new_color b |}.
Definition with_new_color (c : option (list (list Z))) (b : batch) : batch :=
  {| node := node b; new_color := c |}.

(** [setHSBKDZ].  The zone comes from the command ([Z.uom56]), not from
    the cursor.  In [self.new_color[zone] = [int(..), ..]] the four
    fields are converted first, then the item is stored; storing into
    [None] raises [TypeError]. *)
Definition setHSBKDZ (dev : device) (command : command) : M batch unit :=
  b <- get ;;
  (if negb (pending (node b)) then
     modify (with_new_color (Some (color (node b)))) ;;
     modify (fun b => with_node (with_pending true (node b)) b)
   else ret tt) ;;
  current_zone <- int (query command "Z.uom56") ;;
  let zone := zone_of current_zone in
  h <- int (query command "H.uom56") ;;
  s_ <- int (query command "S.uom56") ;;
  b_ <- int (query command "B.uom56") ;;
  k <- int (query command "K.uom26") ;;
  b <- get ;;
  arr <- match new_color b with
         | Some arr => lift (setitem arr zone [h; s_; b_; k])
         | None => raise TypeError
         end ;;
  modify (with_new_color (Some arr)) ;;
  try_ (d <- int (query command "D.uom42") ;;
        modify (fun b => with_node (with_duration d (node b)) b))
    (only [TypeError])
    (fun _ => modify (fun b => with_node (with_duration 0 (node b)) b)) ;;
  b <- get ;;
  try_ (dev_write dev
          (if current_zone =? 0 then set_color_array arr (duration (node b))
           else set_zone_color_array zone zone arr (duration (node b))))
    (only [WorkflowException; OSError])
    (fun _ => log ERROR "set mz hsbkdz error").

End MultiZone.

(** Run a computation on a component of a larger state. *)
Definition zoom {S T A} (proj : T -> S) (upd : S -> T -> T) (m : M S A) : M T A :=
  fun w =>
    match m (proj w) with
    | Outcome r s' tr => Outcome r (upd s' w) tr
    end.

(** [str(command.get('value'))] *)
Definition str (v : option Z) : string :=
  match v with
  | Some z => pretty z
  | None => "None"
  end.

(** [d[k]] on a dictionary: [KeyError] when the key is missing. *)
Definition dict_get {V} (d : gmap string V) (k : string) : exn + V :=
  match d !! k with
  | Some v => inr v
  | None => inl KeyError
  end.

(** ** class Tile(Light) *)

Module Tile.

Record t := {
  base : Light.t;          (* the attributes inherited from [Light] *)
  address : string;
  tile_count : Z;
  effect : Z
}.

(** A tile node together with the controller's custom data it writes to:
    [cust_data['saved_tile_colors'][address][mem_index]].  [cust_data] is
    udi_interface's [Custom] object; it is taken to behave as the
    dictionary the handlers use it as ([in], [[]], nested [update]). *)
Record world := {
  cust_data : gmap string (gmap string (gmap string tile_colors));
  self : t
}.

Definition with_base (l : Light.t) (s : t) : t :=
  {| base := l; address := address s; tile_count := tile_count s; effect := effect s |}.
Definition with_effect (e : Z) (s : t) : t :=
  {| base := base s; address := address s; tile_count := tile_count s; effect := e |}.
Definition with_self (s : t) (w : world) : world :=
  {| cust_data := cust_data w; self := s |}.
Definition with_cust_data (d : gmap string (gmap string (gmap string tile_colors)))
    (w : world) : world :=
  {| cust_data := d; self := self w |}.

(** Inherited [Light] handlers run on the [base] attributes. *)
Definition super {A} (m : M Light.t A) : M world A :=
  zoom (fun w => base (self w)) (fun l w => with_self (with_base l (self w)) w) m.

Definition update (dev : device) : M world unit :=
  effect_ <- try_ (dev_read get_tile_effect (read_tile_effect dev))
               any_exception
               (fun _ => log ERROR "Failed to get effect" ;; ret None) ;;
  match effect_ with
  | Some ty =>
      if 0 <? ty then modify (fun w => with_self (with_effect (ty - 1) (self w)) w)
      else modify (fun w => with_self (with_effect 0 (self w)) w)
  | None => ret tt
  end ;;
  w <- get ;;
  setDriver "GV9" (DInt (effect (self w))) ;;
  super (Light.update dev).

Definition save_state (dev : device) (command : command) : M world unit :=
  let mem_index := str (value command) in
  try_else (dev_read get_tilechain_colors (read_tilechain dev))
    any_exception
    (fun _ => log ERROR "Failed to retrieve colors")
    (fun color_array =>
       w <- get ;;
       (if bool_decide (cust_data w !! "saved_tile_colors" = None) then
          modify (with_cust_data (<["saved_tile_colors" := ∅]> (cust_data w)))
        else ret tt) ;;
       w <- get ;;
       saved <- lift (dict_get (cust_data w) "saved_tile_colors") ;;
       (if bool_decide (saved !! address (self w) = None) then
          modify (with_cust_data
                    (<["saved_tile_colors" := <[address (self w) := ∅]> saved]> (cust_data w)))
        else ret tt) ;;
       w <- get ;;
       saved <- lift (dict_get (cust_data w) "saved_tile_colors") ;;
       slots <- lift (dict_get saved (address (self w))) ;;
       modify (with_cust_data
                 (<["saved_tile_colors" :=
                      <[address (self w) := <[mem_index := color_array]> slots]> saved]>
                    (cust_data w))) ;;
       log INFO "saved_tile_colors").

Definition recall_state (dev : device) (command : command) : M world unit :=
  w <- get ;;
  (if 0 <? effect (self w) then
     log INFO "is running effect, stopping effect before recall_state()" ;;
     try_ (dev_write dev (set_tile_effect 0 3000 0 []))
       any_exception
       (fun _ => log ERROR "Failed to stop effect") ;;
     modify (fun w => with_self (with_effect 0 (self w)) w) ;;
     setDriver "GV9" (DInt 0)
   else ret tt) ;;
  let mem_index := str (value command) in
  w <- get ;;
  try_else
    (saved <- lift (dict_get (cust_data w) "saved_tile_colors") ;;
     slots <- lift (dict_get saved (address (self w))) ;;
     lift (dict_get slots mem_index))
    any_exception
    (fun _ => log ERROR "Failed to retrieve saved tile colors")
    (fun color_array =>
       try_ (dev_write dev (set_tilechain_colors color_array (Light.duration (base (self w)))))
         any_exception
         (fun _ => log ERROR "Failed to set tile colors")).

(** The palette of the Morph effect at a given brightness. *)
Definition morph_palette (brightness : Z) : list (list Z) :=
  [[0; 65535; brightness; 3500]; [7281; 65535; brightness; 3500];
   [10922; 65535; brightness; 3500]; [22209; 65535; brightness; 3500];
   [43507; 65535; brightness; 3500]; [49333; 65535; brightness; 3500];
   [53520; 65535; brightness; 3500]].

(** The [EFFECT] command.  The NodeDef numbers the effects 0, 1, 2; the
    device numbers them 0, 2, 3. *)
Definition set_tile_effect (dev : device) (command : command) : M world unit :=
  effect_type <- int (query command "EF.uom25") ;;
  if (effect_type <? 0) || (2 <? effect_type) then
    log ERROR "Invalid effect type requested"
  else
    setDriver "GV9" (DInt effect_type) ;;
    let effect_type := if 0 <? effect_type then effect_type + 1 else effect_type in
    palette <- (if effect_type =? 2 then
                  brightness <- int (query command "B.uom56") ;;
                  ret (morph_palette brightness)
                else ret []) ;;
    effect_speed <- int (query command "ES.uom42") ;;
    ed <- int (query command "ED.uom42") ;;
    let effect_duration := ed * 1000000 in
    try_ (dev_write dev (set_tile_effect effect_type effect_speed effect_duration palette))
      (only [WorkflowException; TypeError])
      (fun _ => log ERROR "set_tile_effect error").

End Tile.

(** ** String helpers: [s.replace(c, '')], [s.lower()] and [s[:n]]

    Strings are sequences of bytes here.  [lower] changes the letters A-Z
    only and [prefix] counts bytes; both are what Python's [str.lower()]
    and [s[:n]] do on a string whose characters are all ASCII, and differ
    from them on other strings.  [remove_char] is used with ASCII
    characters only. *)

Fixpoint remove_char (c : ascii) (s : string) : string :=
  match s with
  | EmptyString => EmptyString
  | String a s' =>
      if Ascii.eqb a c then remove_char c s' else String a (remove_char c s')
  end.

Definition lower_ascii (a : ascii) : ascii :=
  let n := nat_of_ascii a in
  if ((65 <=? n) && (n <=? 90))%nat then ascii_of_nat (n + 32) else a.

Fixpoint lower (s : string) : string :=
  match s with
  | EmptyString => EmptyString
  | String a s' => String (lower_ascii a) (lower s')
  end.

Fixpoint prefix (n : nat) (s : string) : string :=
  match n, s with
  | S n', String a s' => String a (prefix n' s')
  | _, _ => EmptyString
  end.

(** ** class Controller *)

Module Controller.

Inductive node :=
| LightNode (name : string)
| MultiZoneNode (name : string)
| TileNode (name : string)
| GroupNode (label : string) (members : nat).

Record t := {
  nodes : gmap string node;     (* the registry: [self.poly.getNodes()] *)
  bulbs_found : Z;
  GV0 : option Z;               (* the stored value of driver GV0 *)
  update_nodes : bool
}.

Definition with_nodes (n : gmap string node) (s : t) : t :=
  {| nodes := n; bulbs_found := bulbs_found s; GV0 := GV0 s; update_nodes := update_nodes s |}.
Definition with_bulbs_found (b : Z) (s : t) : t :=
  {| nodes := nodes s; bulbs_found := b; GV0 := GV0 s; update_nodes := update_nodes s |}.
Definition with_GV0 (v : option Z) (s : t) : t :=
  {| nodes := nodes s; bulbs_found := bulbs_found s; GV0 := v; update_nodes := update_nodes s |}.
Definition with_update_nodes (b : bool) (s : t) : t :=
  {| nodes := nodes s; bulbs_found := bulbs_found s; GV0 := GV0 s; update_nodes := b |}.

(** [self.poly.getNode(address)] (truthiness) and [self.poly.addNode(n)] *)
Definition getNode (address : string) : M t bool :=
  s <- get ;; ret (bool_decide (is_Some (nodes s !! address))).
Definition addNode (address : string) (n : node) : M t unit :=
  modify (fun s => with_nodes (<[address := n]> (nodes s)) s).

(** [self.setDriver('GV0', self.bulbs_found)] *)
Definition report_bulbs_found : M t unit :=
  s <- get ;;
  modify (with_GV0 (Some (bulbs_found s))) ;;
  setDriver "GV0" (DInt (bulbs_found s)).

(** The manual device list. *)
Record bulb_entry := {
  b_name : string;
  b_mac : string;
  b_ip : string;
  b_type : string
}.

Record group_entry := {
  g_name : string;
  g_address : string;
  g_members : list string
}.

(** What [yaml.safe_load] returns: [None] for an empty document, or a
    mapping with optional [bulbs] and [groups] sections. *)
Inductive document :=
| YNull
| YMap (bulbs : option (list bulb_entry)) (groups : option (list group_entry)).

(** What the file system answers: [open] fails, or the file opens and
    [yaml.safe_load(f.read())] fails or yields a document. *)
Inductive devlist_file :=
| OpenFails
| ParseFails
| Parsed (data : document).

(** What the network answers during one discovery run. *)
Record net_device := {
  mac_addr : string;
  label : exn + string;
  multizone : exn + bool;
  group_label : exn + string
}.

Record lan := {
  lights : exn + list net_device;
  group_size : string -> exn + nat    (* len(get_devices_by_group(label).devices) *)
}.

Definition lan_read {A} (c : lan_call) (r : exn + A) : M t A :=
  emit (Lan c) ;; lift r.

(** The [for b in data['bulbs']] loop.  It returns, per entry, the name and
    whether [b['object']] was set. *)
Fixpoint manual_bulbs (bulbs : list bulb_entry) : M t (list (string * bool)) :=
  match bulbs with
  | [] => ret []
  | b :: rest =>
      let name := b_name b in
      let address := lower (remove_char ":" (b_mac b)) in
      known <- getNode address ;;
      has_object <-
        (if negb known then
           modify (fun s => with_bulbs_found (bulbs_found s + 1) s) ;;
           if String.eqb (b_type b) "multizone" then
             log INFO ("Found MultiZone Bulb: " +:+ name) ;;
             addNode address (MultiZoneNode name) ;; ret true
           else if String.eqb (b_type b) "bulb" then
             log INFO ("Found Bulb: " +:+ name) ;;
             addNode address (LightNode name) ;; ret true
           else if String.eqb (b_type b) "tile" then
             log INFO ("Found Tile: " +:+ name) ;;
             addNode address (TileNode name) ;; ret true
           else
             log ERROR ("Unknown type: " +:+ b_type b) ;; ret false
         else ret false) ;;
      objs <- manual_bulbs rest ;;
      ret ((name, has_object) :: objs)
  end.

(** The inner [for b in data['bulbs']] search for one member: [Some true]
    if the first entry of that name carries an object, [Some false] if it
    does not ([b['object']] raises [KeyError]), [None] if no entry has
    that name. *)
Fixpoint find_bulb (objs : list (string * bool)) (member_light : string) : option bool :=
  match objs with
  | [] => None
  | (name, has_object) :: rest =>
      if String.eqb name member_light then Some has_object
      else find_bulb rest member_light
  end.

(** [for member_light in grp['members']]: the number of members found. *)
Fixpoint resolve_members (objs : list (string * bool)) (grp_name : string)
    (members : list string) (found : nat) : M t nat :=
  match members with
  | [] => ret found
  | member_light :: rest =>
      match find_bulb objs member_light with
      | Some true => resolve_members objs grp_name rest (S found)
      | Some false => raise KeyError
      | None =>
          log ERROR ("Group " +:+ grp_name +:+ " light " +:+ member_light +:+ " is not found") ;;
          resolve_members objs grp_name rest found
      end
  end.

Definition manual_groups (objs : list (string * bool)) (groups : list group_entry) : M t unit :=
  for_each groups (fun grp =>
    members <- resolve_members objs (g_name grp) (g_members grp) 0 ;;
    log INFO ("Group " +:+ g_name grp) ;;
    if (0 <? members)%nat then
      known <- getNode (g_address grp) ;;
      if negb known then
        log INFO ("Found LiFX Group: " +:+ g_name grp) ;;
        addNode (g_address grp) (GroupNode (g_name grp) members)
      else ret tt
    else ret tt).

Definition _manual_discovery (file : devlist_file) : M t bool :=
  match file with
  | OpenFails =>
      (* the handler formats its message with [self.paramaters] *)
      raise AttributeError
  | ParseFails =>
      log ERROR "Failed to parse devlist content" ;; ret false
  | Parsed YNull =>
      (* ['bulbs' not in None] *)
      raise TypeError
  | Parsed (YMap None _) =>
      log ERROR "Manual discovery file is missing bulbs section" ;; ret false
  | Parsed (YMap (Some bulbs) groups) =>
      objs <- manual_bulbs bulbs ;;
      report_bulbs_found ;;
      match groups with
      | None =>
          log INFO "Manual discovery file is missing groups section" ;; ret true
      | Some groups => manual_groups objs groups ;; ret true
      end
  end.

(** The body of [for d in devices]. *)
Definition discover_device (net : lan) (d : net_device) : M t unit :=
  label <- lan_read (get_label (mac_addr d)) (label d) ;;
  let name := "LIFX " +:+ label in
  let address := lower (remove_char ":" (mac_addr d)) in
  known <- getNode address ;;
  (if negb known then
     modify (fun s => with_bulbs_found (bulbs_found s + 1) s) ;;
     mz <- lan_read (supports_multizone (mac_addr d)) (multizone d) ;;
     if mz : bool then
       log INFO ("Found MultiZone Bulb: " +:+ name) ;;
       addNode address (MultiZoneNode name)
     else
       log INFO ("Found Bulb: " +:+ name) ;;
       addNode address (LightNode name)
   else ret tt) ;;
  glabel <- lan_read (get_group_tuple (mac_addr d)) (group_label d) ;;
  let gaddress := prefix 12 (lower (remove_char " " (remove_char "'" glabel))) in
  known <- getNode gaddress ;;
  if negb known then
    log INFO ("Found LiFX Group: " +:+ glabel) ;;
    (* [Group.__init__] without [grp] asks the client for the members *)
    n <- lan_read (get_devices_by_group glabel) (group_size net glabel) ;;
    addNode gaddress (GroupNode glabel n)
  else ret tt.

(** The part of [_discovery_process] after the manual attempt. *)
Definition automatic_discovery (net : lan) : M t unit :=
  try_
    (devices <- lan_read get_lights (lights net) ;;
     log INFO "bulbs found. Checking status and adding to ISY if necessary." ;;
     for_each devices (discover_device net))
    (only [WorkflowException; OSError; TypeError])
    (fun _ => log ERROR "discovery Error") ;;
  modify (with_update_nodes false) ;;
  s <- get ;;
  match GV0 s with
  | None => ret tt
  | Some old_bulbs_found =>
      if negb (bulbs_found s =? old_bulbs_found) then
        log INFO "NOTICE: Bulb count is different"
      else ret tt
  end ;;
  report_bulbs_found ;;
  log INFO "LiFX Discovery thread is complete.".

(** [if self.parameters['devlist']:] *)
Definition truthy (devlist : option string) : bool :=
  match devlist with
  | Some p => negb (String.eqb p "")
  | None => false
  end.

Definition _discovery_process (devlist : option string) (file : devlist_file)
    (net : lan) : M t unit :=
  log INFO "Starting LiFX Discovery thread..." ;;
  manual_done <-
    (if truthy devlist then
       log INFO "Attempting manual discovery..." ;;
       ok <- _manual_discovery file ;;
       if ok : bool then log INFO "Manual discovery is complete" ;; ret true
       else log ERROR "Manual discovery failed" ;; ret false
     else ret false) ;;
  if manual_done : bool then ret tt else automatic_discovery net.

(** [parameter_handler], the part that sets the policy flags: each flag is
    written only when its parameter is truthy.  ([self.discover()], which
    the handler calls last, starts [_discovery_process].) *)
Definition parameter_handler (params : string -> option string) (pol : policy) : policy :=
  let pol := if truthy (params "change_no_pon")
             then {| change_pon := false; ignore_second_on := ignore_second_on pol |}
             else pol in
  if truthy (params "ignore_second_on")
  then {| change_pon := change_pon pol; ignore_second_on := true |}
  else pol.

End Controller.

(** ** Observations on traces *)

Definition calls (tr : list event) : list dev_call :=
  omap (fun e => match e with Call c => Some c | _ => None end) tr.

Definition writes (tr : list event) : list dev_call :=
  filter (fun c => is_write c = true) (calls tr).

Definition reports (tr : list event) : list string :=
  omap (fun e => match e with ReportCmd c => Some c | _ => None end) tr.

Definition lan_calls (tr : list event) : list lan_call :=
  omap (fun e => match e with Lan c => Some c | _ => None end) tr.

(** A handler refused to act: it returned normally, left the node's
    attributes as they were, and its whole trace is one log line. *)
Definition refused {S} (s : S) (o : outcome S unit) : Prop :=
  result o = inr tt /\ final o = s /\ exists l msg, trace o = [Log l msg].

(** ** Concrete inputs used by examples *)

(** A command carrying a value and an empty query, as for [SETB], [SETZ],
    [DON]. *)
Definition value_command (c : string) (v : Z) : command :=
  {| cmd := c; value := Some v; query := fun _ => None |}.

(** A command carrying no value and an empty query, as for [DOF], [DIM]. *)
Definition plain_command (c : string) : command :=
  {| cmd := c; value := None; query := fun _ => None |}.

(** A device on which every write succeeds and every read fails. *)
Definition quiet_device : device :=
  {| read_color := inl WorkflowException;
     read_power := inl WorkflowException;
     read_zones := inl WorkflowException;
     read_tile_effect := inl WorkflowException;
     read_tilechain := inl WorkflowException;
     write := fun _ => None |}.

(** A connected four-zone strip, cursor on the whole device. *)
Definition four_zone_strip : MultiZone.t :=
  {| MultiZone.power := true; MultiZone.connected := 1;
     MultiZone.color := [[0; 0; 100; 3500]; [0; 0; 200; 3500];
                         [0; 0; 300; 3500]; [0; 0; 400; 3500]];
     MultiZone.duration := 0; MultiZone.num_zones := 4;
     MultiZone.current_zone := 0; MultiZone.pending := false |}.

(** Apply a change to the final state of an outcome. *)
Definition map_final {S A} (f : S -> S) (o : outcome S A) : outcome S A :=
  match o with
  | Outcome r s tr => Outcome r (f s) tr
  end.

(** A handler that never looks at the connectivity flag: running it with
    the flag set to any [c] gives the same result and trace, and the same
    attributes apart from the flag. *)
Definition ignores_connected (h : M Light.t unit) : Prop :=
  forall s c, h (Light.with_connected c s) = map_final (Light.with_connected c) (h s).

(** A bulb that is on at full brightness while its last colour read
    failed. *)
Definition disconnected_bulb : Light.t :=
  {| Light.power := true; Light.connected := 0; Light.color := [0; 0; 65535; 3500];
     Light.duration := 0; Light.ir_support := false |}.

Definition default_policy : policy :=
  {| change_pon := true; ignore_second_on := false |}.

(** The brightness carried by a colour write lies in [BR_MIN, BR_MAX]. *)
Definition brightness_in_range (c : dev_call) : Prop :=
  match c with
  | set_color col _ | set_zone_color _ _ col _ =>
      exists b, getitem col 2 = inr b /\ BR_MIN <= b <= BR_MAX
  | _ => True
  end.

(** A connected bulb, on at full brightness. *)
Definition connected_bulb : Light.t :=
  {| Light.power := true; Light.connected := 1; Light.color := [0; 0; 65535; 3500];
     Light.duration := 0; Light.ir_support := false |}.

(** A bulb that is off while its mirror holds full brightness. *)
Definition dark_bulb : Light.t :=
  {| Light.power := false; Light.connected := 1; Light.color := [0; 0; 65535; 3500];
     Light.duration := 0; Light.ir_support := false |}.

(** A bulb that is on at half brightness. *)
Definition half_bulb : Light.t :=
  {| Light.power := true; Light.connected := 1; Light.color := [0; 0; 32768; 3500];
     Light.duration := 0; Light.ir_support := false |}.

(** The colour mirror after the re-read of [fade_stop]: the device's
    answer, or the old mirror when the read raised. *)
Definition reread_color (dev : device) (s : Light.t) : list Z :=
  match read_color dev with
  | inr c => c
  | inl _ => Light.color s
  end.

(** ** Polling *)

(** The short poll of one node over successive ticks, with the device's
    answers at each tick.  An exception raised by [update] leaves
    [Controller.poll]; the next tick polls again from the attributes
    reached. *)
Fixpoint polls {S} (update : device -> M S unit) (devs : list device) (s : S)
  : list (device * outcome S unit) :=
  match devs with
  | [] => []
  | dev :: devs' =>
      let o := update dev s in
      (dev, o) :: polls update devs' (final o)
  end.

Definition poll_reports {S} (run : list (device * outcome S unit)) : list string :=
  concat (map (fun p => reports (trace (snd p))) run).

(** Did the refresh get as far as calling [get_power]? *)
Definition reads_power (tr : list event) : bool :=
  existsb (fun e => match e with Call get_power => true | _ => false end) tr.

(** The power value a refresh read afresh: [power_now], when [get_power]
    was called and answered. *)
Definition observed_power {S} (p : device * outcome S unit) : option bool :=
  if reads_power (trace (snd p)) then
    match read_power (fst p) with
    | inr v => Some (v =? 65535)
    | inl _ => None
    end
  else None.

(** The notifications called for by a sequence of observations, starting
    from a mirror value: one per observation that differs from the value
    before it, naming the new state. *)
Fixpoint notifications (mirror : bool) (obs : list (option bool)) : list string :=
  match obs with
  | [] => []
  | None :: obs' => notifications mirror obs'
  | Some v :: obs' =>
      (if Bool.eqb mirror v then [] else [if v then "DON" else "DOF"])
      ++ notifications v obs'
  end.

(** The number of changes of value along a sequence of observations. *)
Fixpoint transitions (mirror : bool) (obs : list (option bool)) : nat :=
  match obs with
  | [] => 0
  | None :: obs' => transitions mirror obs'
  | Some v :: obs' => (if Bool.eqb mirror v then 0 else 1) + transitions v obs'
  end.

(** A device that answers the colour read and reports power [p]. *)
Definition lit_device (p : Z) : device :=
  {| read_color := inr [0; 0; 65535; 3500];
     read_power := inr p;
     read_zones := inl WorkflowException;
     read_tile_effect := inl WorkflowException;
     read_tilechain := inl WorkflowException;
     write := fun _ => None |}.

(** ** Saved tile palettes *)

(** [cust_data['saved_tile_colors'][address][slot]], when all three keys
    are present. *)
Definition saved_colors (cd : gmap string (gmap string (gmap string tile_colors)))
    (address slot : string) : option tile_colors :=
  match cd !! "saved_tile_colors" with
  | Some saved =>
      match saved !! address with
      | Some slots => slots !! slot
      | None => None
      end
  | None => None
  end.

(** A run of TILESV commands, each by some tile node with its own device
    answers, on the shared custom data. *)
Fixpoint saves (l : list (Tile.t * device * command))
    (cd : gmap string (gmap string (gmap string tile_colors)))
  : gmap string (gmap string (gmap string tile_colors)) :=
  match l with
  | [] => cd
  | (tile, dev, command) :: l' =>
      saves l' (Tile.cust_data
                  (final (Tile.save_state dev command
                            {| Tile.cust_data := cd; Tile.self := tile |})))
  end.

(** Device calls that set colours. *)
Definition is_color_write (c : dev_call) : bool :=
  match c with
  | set_color _ _ | set_zone_color _ _ _ _ | set_tilechain_colors _ _ => true
  | _ => false
  end.

Definition color_writes (tr : list event) : list dev_call :=
  filter (fun c => is_color_write c = true) (calls tr).

(** A tile chain of one tile with two pixels, and a device that answers the
    colour read-back with it. *)
Definition sample_tiles : tile_colors := [[[0; 65535; 65535; 3500]; [7281; 65535; 65535; 3500]]].

Definition tile_device : device :=
  {| read_color := inl WorkflowException;
     read_power := inl WorkflowException;
     read_zones := inl WorkflowException;
     read_tile_effect := inl WorkflowException;
     read_tilechain := inr sample_tiles;
     write := fun _ => None |}.

Definition sample_tile (address : string) : Tile.t :=
  {| Tile.base := connected_bulb; Tile.address := address;
     Tile.tile_count := 1; Tile.effect := 0 |}.

(** ** Discovery: concrete inputs *)

(** The controller before any discovery. *)
Definition fresh_controller : Controller.t :=
  {| Controller.nodes := ∅; Controller.bulbs_found := 0;
     Controller.GV0 := Some 0; Controller.update_nodes := false |}.

(** A LAN on which one single-zone bulb in group "Den" answers. *)
Definition one_bulb_lan : Controller.lan :=
  {| Controller.lights :=
       inr [{| Controller.mac_addr := "D0:73:D5:00:00:01";
               Controller.label := inr "Lamp";
               Controller.multizone := inr false;
               Controller.group_label := inr "Den" |}];
     Controller.group_size := fun _ => inr 1%nat |}.

(** A device list that parses to a mapping without a [bulbs] section. *)
Definition no_bulbs_file : Controller.devlist_file :=
  Controller.Parsed (Controller.YMap None None).

(** Manual discovery reports failure by returning [False]: the content
    does not parse, or it is a mapping without a [bulbs] section. *)
Definition manual_returns_false (file : Controller.devlist_file) : Prop :=
  file = Controller.ParseFails
  \/ exists groups, file = Controller.Parsed (Controller.YMap None groups).

(** ** Properties of whole computations *)

(** Every state reached by [m] is related to the state it started from,
    whether or not [m] raises. *)
Definition keeps {S A} (R : S -> S -> Prop) (m : M S A) : Prop :=
  forall s, R s (final (m s)).

(** Every event [m] emits satisfies [P]. *)
Definition emits {S A} (P : event -> Prop) (m : M S A) : Prop :=
  forall s, Forall P (trace (m s)).

Definition not_lan (e : event) : Prop :=
  match e with
  | Lan _ => False
  | _ => True
  end.

(** ** Discovery: addresses and registry growth *)

(** [mac.replace(':', '').lower()] *)
Definition mac_address (mac : string) : string :=
  lower (remove_char ":" mac).

(** [glabel.replace("'", "").replace(' ', '').lower()[:12]] *)
Definition group_address (glabel : string) : string :=
  prefix 12 (lower (remove_char " " (remove_char "'" glabel))).

(** The registry only gained entries and the bulb counter did not go
    down. *)
Definition grows (s s' : Controller.t) : Prop :=
  Controller.nodes s ⊆ Controller.nodes s'
  /\ Controller.bulbs_found s <= Controller.bulbs_found s'.

(** The registry and the bulb counter are the same. *)
Definition same_registry (s s' : Controller.t) : Prop :=
  Controller.nodes s' = Controller.nodes s
  /\ Controller.bulbs_found s' = Controller.bulbs_found s.

(** Every device of the list, and the group of every device that tells
    its group, has its address in the registry. *)
Definition all_known (devices : list Controller.net_device) (s : Controller.t) : Prop :=
  Forall (fun d =>
    is_Some (Controller.nodes s !! mac_address (Controller.mac_addr d))
    /\ forall g, Controller.group_label d = inr g ->
         is_Some (Controller.nodes s !! group_address g)) devices.

(** The bulb of [one_bulb_lan] as a device list names it. *)
Definition one_bulb_list : list Controller.bulb_entry :=
  [{| Controller.b_name := "Lamp"; Controller.b_mac := "D0:73:D5:00:00:01";
      Controller.b_ip := "192.168.1.20"; Controller.b_type := "bulb" |}].

(** The controller after a first automatic discovery of [one_bulb_lan]. *)
Definition seasoned_controller : Controller.t :=
  final (Controller.automatic_discovery one_bulb_lan fresh_controller).

(** The GV0 driver and the bulb counter are the same as before. *)
Definition same_count (s s' : Controller.t) : Prop :=
  Controller.GV0 s' = Controller.GV0 s
  /\ Controller.bulbs_found s' = Controller.bulbs_found s.

(** Every entry of the device list has its address in the registry. *)
Definition all_listed_known (bulbs : list Controller.bulb_entry) (s : Controller.t) : Prop :=
  Forall (fun b => is_Some (Controller.nodes s !! mac_address (Controller.b_mac b))) bulbs.

(** The group names a member that the device list has an entry for. *)
Definition names_listed_bulb (bulbs : list Controller.bulb_entry)
    (grp : Controller.group_entry) : Prop :=
  Exists (fun m => m ∈ (Controller.b_name <$> bulbs)) (Controller.g_members grp).

(** A device list of one bulb and one group with that bulb in it. *)
Definition one_group_list : list Controller.group_entry :=
  [{| Controller.g_name := "Room"; Controller.g_address := "room";
      Controller.g_members := ["Lamp"] |}].

(** ** Properties of a run: start state, final state and trace *)

(** A property of runs that holds of the empty run and of two runs in
    sequence when it holds of each. *)
Class Sequential {S} (Q : S -> S -> list event -> Prop) : Prop := {
  seq_nil : forall s, Q s s [];
  seq_app : forall s s1 s2 t1 t2, Q s s1 t1 -> Q s1 s2 t2 -> Q s s2 (t1 ++ t2)%list
}.

(** Every run of [m] has the property, whether or not it raises. *)
Definition obeys {S A} (Q : S -> S -> list event -> Prop) (m : M S A) : Prop :=
  forall s, Q s (final (m s)) (trace (m s)).

(** ** Light: the power mirror and the device *)

(** The command handlers of [Light.commands], [QUERY] apart. *)
Definition Light_handlers (pol : policy) (dev : device) (command : command)
  : list (M Light.t unit) :=
  [Light.setOn pol dev command; Light.setOff dev; Light.setColor pol dev command;
   Light.setManual pol dev command; Light.setHSBKD pol dev command;
   Light.brighten dev; Light.dim dev; Light.fade_up dev; Light.fade_down dev;
   Light.fade_stop dev; Light.set_ir_brightness dev command; Light.set_wf dev command].

(** The power mirror is what it was, or the device was sent, and took,
    a [set_power] with the mirror's new value. *)
Definition power_followed (dev : device) (s s' : Light.t) (t : list event) : Prop :=
  Light.power s' = Light.power s
  \/ (write dev (set_power (Light.power s')) = None
      /\ In (Call (set_power (Light.power s'))) t).

Definition is_power_call (e : event) : Prop :=
  match e with
  | Call (set_power _) => True
  | _ => False
  end.

(** Under a policy that leaves the power alone, or on a bulb believed on,
    the run keeps the power mirror and sends no [set_power]. *)
Definition power_left_alone (pol : policy) (s s' : Light.t) (t : list event) : Prop :=
  change_pon pol = false \/ Light.power s = true ->
  Light.power s' = Light.power s /\ Forall (fun e => ~ is_power_call e) t.

(** ** Commands in a row *)

(** The attributes after one command per device answer, each handler
    run starting from the attributes the one before left, whether or not
    that one raised. *)
Definition presses {S} (h : device -> M S unit) (devs : list device) (s : S) : S :=
  fold_left (fun s dev => final (h dev s)) devs s.

(** A device that raises [OSError] on every call. *)
Definition broken_device : device :=
  {| read_color := inl OSError;
     read_power := inl OSError;
     read_zones := inl OSError;
     read_tile_effect := inl OSError;
     read_tilechain := inl OSError;
     write := fun _ => Some OSError |}.

(** ** MultiZone: what the brightness commands leave alone *)

(** Only the power mirror differs. *)
Definition only_power (s s' : MultiZone.t) : Prop :=
  s' = MultiZone.with_power (MultiZone.power s') s.

(** ** MultiZone: polling *)

(** Did the read return? *)
Definition returned {A} (r : exn + A) : bool :=
  match r with
  | inr _ => true
  | inl _ => false
  end.

(** The attributes [update] leaves after its zone block: the zone array
    read, its length and the flag, when the block ran and the read
    returned. *)
Definition zones_refreshed (dev : device) (s : MultiZone.t) : MultiZone.t :=
  if MultiZone.pending s then s
  else match read_zones dev with
       | inr zones =>
           MultiZone.with_num_zones (Z.of_nat (length zones))
             (MultiZone.with_connected 1 (MultiZone.with_color zones s))
       | inl _ => s
       end.

(** The attributes [update] leaves after its power block. *)
Definition power_refreshed (dev : device) (s : MultiZone.t) : MultiZone.t :=
  match read_power dev with
  | inr p => MultiZone.with_connected 1 (MultiZone.with_power (p =? 65535) s)
  | inl _ => s
  end.

(** A strip with a batch of zone changes pending. *)
Definition pending_strip : MultiZone.t :=
  {| MultiZone.power := true; MultiZone.connected := 1;
     MultiZone.color := [[0; 0; 100; 3500]; [0; 0; 200; 3500]];
     MultiZone.duration := 0; MultiZone.num_zones := 2;
     MultiZone.current_zone := 0; MultiZone.pending := true |}.

(** ** Tile: effects *)

Definition is_effect_call (c : dev_call) : Prop :=
  match c with
  | set_tile_effect _ _ _ _ => True
  | _ => False
  end.

(** An [EFFECT] command asking for effect [e] at brightness 30000, speed
    3000 and duration 0. *)
Definition effect_command (e : Z) : command :=
  {| cmd := "EFFECT"; value := None;
     query := fun k =>
       if String.eqb k "EF.uom25" then Some e
       else if String.eqb k "B.uom56" then Some 30000
       else if String.eqb k "ES.uom42" then Some 3000
       else if String.eqb k "ED.uom42" then Some 0
       else None |}.

(** A tile node on which an effect runs. *)
Definition busy_tile : Tile.world :=
  {| Tile.cust_data := ∅;
     Tile.self := {| Tile.base := connected_bulb; Tile.address := "d073d5000001";
                     Tile.tile_count := 5; Tile.effect := 2 |} |}.

(** ** Light: the colour mirror *)

(** Colour, duration and connectivity flag are the same. *)
Definition same_colour (s s' : Light.t) : Prop :=
  Light.color s' = Light.color s /\ Light.duration s' = Light.duration s
  /\ Light.connected s' = Light.connected s.

(** ** Light: SET_HSBKD and WAVEFORM *)

(** The colour a [SET_HSBKD] command carries, when all four fields are
    there. *)
Definition hsbk_of (command : command) : option (list Z) :=
  match query command "H.uom56", query command "S.uom56",
        query command "B.uom56", query command "K.uom26" with
  | Some h, Some s, Some b, Some k => Some [h; s; b; k]
  | _, _, _, _ => None
  end.

(** A [WAVEFORM] command on red at full brightness: period 1000, 5
    cycles, duty cycle 0, form [f]. *)
Definition waveform_command (f : Z) : command :=
  {| cmd := "WAVEFORM"; value := None;
     query := fun k =>
       if String.eqb k "H.uom56" then Some 62978
       else if String.eqb k "S.uom56" then Some 65535
       else if String.eqb k "B.uom56" then Some 65535
       else if String.eqb k "K.uom26" then Some 3500
       else if String.eqb k "PE.uom42" then Some 1000
       else if String.eqb k "CY.uom56" then Some 5
       else if String.eqb k "DC.uom56" then Some 0
       else if String.eqb k "WF.uom25" then Some f
       else None |}.

(** ** The policy flags *)

(** The policy after a sequence of parameter updates. *)
Definition parameter_updates (updates : list (string -> option string)) (pol : policy)
  : policy :=
  fold_left (fun pol params => Controller.parameter_handler params pol) updates pol.

(** The power the device reports, when its power read returns. *)
Definition device_power (dev : device) : option bool :=
  match read_power dev with
  | inr p => Some (p =? 65535)
  | inl _ => None
  end.

(** Does the poll of a bulb get as far as the power read?  It does when
    the colour read returned, with the four components that the driver
    loop indexes. *)
Definition Light_reaches_power (dev : device) : bool :=
  match read_color dev with
  | inr c => (4 <=? length c)%nat
  | inl _ => false
  end.

(** Does the poll of a strip get as far as the power read?  It does when
    the zone block is skipped, when the zone read raised, and when the
    cursor zone of the array read has the four components that the
    driver loop indexes. *)
Definition MultiZone_reaches_power (dev : device) (s : MultiZone.t) : bool :=
  MultiZone.pending s ||
  match read_zones dev with
  | inl _ => true
  | inr zones =>
      match getitem zones (MultiZone.zone_of (MultiZone.current_zone s)) with
      | inr c => (4 <=? length c)%nat
      | inl _ => false
      end
  end.

(** The notification a power value read calls for, given the mirror. *)
Definition power_report (mirror now : bool) : list string :=
  if Bool.eqb mirror now then [] else [if now then "DON" else "DOF"].

(** Following the spec's words: zone index 0 stands for the whole device
    (whose colour is taken from the first zone), and a zone index z > 0
    for the zone with internal index z - 1. *)
Definition spec_zone_index (z : Z) : Z := if z =? 0 then 0 else z - 1.

Definition spec_zone_call (z : Z) (c : list Z) (d : Z) : dev_call :=
  if z =? 0 then set_color c d else set_zone_color (z - 1) (z - 1) c d.

Definition spec_zone_array_call (z : Z) (arr : list (list Z)) (d : Z) : dev_call :=
  if z =? 0 then set_color_array arr d else set_zone_color_array (z - 1) (z - 1) arr d.

(** The driver updates of a trace, in order. *)
Definition driver_updates (tr : list event) : list (string * drv) :=
  omap (fun e => match e with SetDriver d v => Some (d, v) | _ => None end) tr.

(** The first call of a run that changes the device. *)
Definition first_write {S A} (o : outcome S A) : option dev_call :=
  head (writes (trace o)).

(** The zone array [setHSBKDZ] edits: the pending one, or a copy of the
    mirror when no batch is open. *)
Definition batch_array (bt : MultiZone.batch) : option (list (list Z)) :=
  if MultiZone.pending (MultiZone.node bt) then MultiZone.new_color bt
  else Some (MultiZone.color (MultiZone.node bt)).

(** A strip with a cursor on zone 3, and a [SET_HSBKDZ] command for that
    zone. *)
Definition zone3_strip : MultiZone.t :=
  {| MultiZone.power := true; MultiZone.connected := 1;
     MultiZone.color := [[0; 0; 100; 3500]; [0; 0; 200; 3500];
                         [0; 0; 300; 3500]; [0; 0; 400; 3500]];
     MultiZone.duration := 0; MultiZone.num_zones := 4;
     MultiZone.current_zone := 3; MultiZone.pending := false |}.

(** Every character of the string is ASCII.  On such strings [lower] and
    [prefix] are Python's [str.lower()] and [s[:n]]. *)
Definition is_ascii (s : string) : Prop :=
  Forall (fun a => (nat_of_ascii a < 128)%nat) (list_ascii_of_string s).

(** The MAC address and the group label of every device are ASCII. *)
Definition ascii_labels (devices : list Controller.net_device) : Prop :=
  Forall (fun d => is_ascii (Controller.mac_addr d)
                   /\ forall g, Controller.group_label d = inr g -> is_ascii g) devices.

(** The level of the command, scaled to 0..65535, is within the range of
    a float, so that Python's [val * 65535 / 255] does not raise
    [OverflowError]. *)
Definition level_in_float_range (command : command) : Prop :=
  forall v, value command = Some v -> Z.abs (257 * v) < 2 ^ 1023.

(** ** The command dictionary *)

(** The command as the hub hands it over: the ['query'] key may be
    missing, and [command.get('query')] is then [None]. *)
Record request := {
  r_cmd : string;
  r_value : option Z;
  r_query : option (string -> option Z)
}.

Definition command_of (r : request) (q : string -> option Z) : command :=
  {| cmd := r_cmd r; value := r_value r; query := q |}.

(** [Light.setHSBKD] on the dictionary: [query = command.get('query')],
    then the first [query.get(..)], which on [None] raises
    [AttributeError]; [except TypeError] does not catch it. *)
Definition setHSBKD_request (pol : policy) (dev : device) (r : request) : M Light.t unit :=
  match r_query r with
  | Some q => Light.setHSBKD pol dev (command_of r q)
  | None => raise AttributeError
  end.

(** A device that answers the zone read with the zones of [zone3_strip],
    and a [SET_HSBKDZ] command for zone [z]. *)
Definition strip_device : device :=
  {| read_color := inl WorkflowException;
     read_power := inr 65535;
     read_zones := inr (MultiZone.color zone3_strip);
     read_tile_effect := inl WorkflowException;
     read_tilechain := inl WorkflowException;
     write := fun _ => None |}.

Definition hsbkdz_command (z : Z) : command :=
  {| cmd := "SET_HSBKDZ"; value := None;
     query := fun k =>
       if String.eqb k "Z.uom56" then Some z
       else if String.eqb k "H.uom56" then Some 62978
       else if String.eqb k "S.uom56" then Some 65535
       else if String.eqb k "B.uom56" then Some 65535
       else if String.eqb k "K.uom26" then Some 3500
       else None |}.

(** * Proofs *)

(** ** Evaluating handlers *)

Ltac monad_unfold :=
  cbv [bind ret get modify emit raise lift try_ try_else after log setDriver
       reportCmd dev_read dev_write int any_exception zoom for_each report_color] in *.

Ltac light_unfold :=
  cbv [Light.update Light._power_on_change Light.setOn Light.setOn_target Light.setOff
       Light.dim Light.brighten Light.turn_on_at_minimum Light.fade_up Light.fade_down
       Light.fade_stop Light.setColor Light.setManual Light.setManual_field Light.setHSBKD
       Light.set_ir_brightness Light.set_wf Light.color_at Light.set_color_at
       Light.report_st Light.preset] in *.

Ltac mz_unfold :=
  cbv [MultiZone.update MultiZone.refresh_zones MultiZone.refresh_power MultiZone._set_st MultiZone.setOn MultiZone.setOn_target
       MultiZone.dim MultiZone.brighten MultiZone.turn_on_at_minimum MultiZone.fade_up
       MultiZone.fade_down MultiZone.fade_stop MultiZone.setColor MultiZone.setManual
       MultiZone.setManual_edit MultiZone.setManual_field MultiZone.zone_color
       MultiZone.zone_color_at Light.preset] in *.

(** One case split on whatever blocks the evaluation: a device answer, a
    list access, a test. *)
Ltac crush_step :=
  match goal with
  | |- context [write ?d ?c] => destruct (write d c) as [?|] eqn:?
  | |- context [match getitem ?l ?i with _ => _ end] => destruct (getitem l i) eqn:?
  | |- context [match setitem ?l ?i ?x with _ => _ end] => destruct (setitem l i x) eqn:?
  | |- context [if ?b then _ else _] => destruct b eqn:?
  | |- context [match ?x with Some _ => _ | None => _ end] => destruct x eqn:?
  | |- context [match ?x with inl _ => _ | inr _ => _ end] => destruct x eqn:?
  end; simpl in *.

(** ** Concrete runs *)

Example don_128_on_dark_bulb :
  calls (trace (Light.setOn default_policy quiet_device (value_command "DON" 128) dark_bulb))
  = [set_color [0; 0; 32896; 3500] 0; set_power true].
Proof. reflexivity. Qed.

Example don_1_is_clamped :
  calls (trace (Light.setOn default_policy quiet_device (value_command "DON" 1) dark_bulb))
  = [set_color [0; 0; 1310; 3500] 0; set_power true].
Proof. reflexivity. Qed.

Example dim_half_bulb :
  trace (Light.dim quiet_device half_bulb)
  = [Call (set_color [0; 0; 30148; 3500] 400);
     SetDriver "ST" (DPercent 30148); SetDriver "GV3" (DInt 30148)].
Proof. reflexivity. Qed.

Example update_dark_bulb_sees_power :
  reports (trace (Light.update (lit_device 65535) dark_bulb)) = ["DON"]
  /\ Light.power (final (Light.update (lit_device 65535) dark_bulb)) = true.
Proof. split; reflexivity. Qed.

Example update_unreachable_bulb :
  trace (Light.update quiet_device connected_bulb)
  = [Call get_color; Log ERROR "Connection Error on getting bulb color";
     SetDriver "GV5" (DInt 0)]
  /\ Light.connected (final (Light.update quiet_device connected_bulb)) = 0.
Proof. split; reflexivity. Qed.

Example setz_3_on_strip :
  calls (trace (MultiZone.setManual quiet_device (value_command "SETZ" 3) four_zone_strip))
  = [set_zone_color 2 2 [0; 0; 300; 3500] 0].
Proof. reflexivity. Qed.

Example negative_index : getitem [10; 20; 30] (-1) = inr 30.
Proof. reflexivity. Qed.

Example index_out_of_range : getitem [10; 20; 30] 3 = inl IndexError.
Proof. reflexivity. Qed.

(** ** Python indexing *)

Lemma py_index_lt len i n : py_index len i = Some n -> (n < len)%nat.
Proof.
  unfold py_index. intros H.
  destruct (0 <=? i) eqn:E1.
  - destruct (i <? Z.of_nat len) eqn:E2; inversion H; subst. lia.
  - destruct (0 <=? Z.of_nat len + i) eqn:E2; inversion H; subst. lia.
Qed.

Lemma py_index_nonneg len i :
  0 <= i < Z.of_nat len -> py_index len i = Some (Z.to_nat i).
Proof.
  intros [H1 H2]. unfold py_index.
  destruct (Z.leb_spec 0 i); [|lia]. destruct (Z.ltb_spec i (Z.of_nat len)); [reflexivity|lia].
Qed.

Lemma setitem_length {A} (l l' : list A) i x :
  setitem l i x = inr l' -> length l' = length l.
Proof.
  unfold setitem. destruct (py_index (length l) i); intros H; inversion H.
  apply length_insert.
Qed.

Lemma getitem_setitem_eq {A} (l l' : list A) i x :
  setitem l i x = inr l' -> getitem l' i = inr x.
Proof.
  intros H. unfold getitem. rewrite (setitem_length _ _ _ _ H).
  unfold setitem in H. destruct (py_index (length l) i) as [n|] eqn:E; inversion H; subst.
  rewrite list_lookup_insert_eq; [reflexivity | eauto using py_index_lt].
Qed.

Lemma setitem_defined {A} (l : list A) i x y :
  getitem l i = inr y -> exists l', setitem l i x = inr l'.
Proof.
  unfold getitem, setitem. destruct (py_index (length l) i); [eauto | discriminate].
Qed.

Lemma setitem_same {A} (l : list A) i x :
  getitem l i = inr x -> setitem l i x = inr l.
Proof.
  unfold getitem, setitem. destruct (py_index (length l) i) as [n|]; [|discriminate].
  destruct (l !! n) eqn:E; [|discriminate]. intros H; inversion H; subst.
  f_equal. by apply list_insert_id.
Qed.

Lemma setitem_setitem {A} (l l1 l2 : list A) i x y :
  setitem l i x = inr l1 -> setitem l1 i y = inr l2 -> setitem l i y = inr l2.
Proof.
  intros H1 H2. unfold setitem in H2. rewrite (setitem_length _ _ _ _ H1) in H2.
  unfold setitem in *. destruct (py_index (length l) i) as [n|]; [|discriminate].
  inversion H1; subst. inversion H2; subst. by rewrite list_insert_insert_eq.
Qed.

Lemma getitem_nonneg {A} (l : list A) i x :
  0 <= i -> l !! Z.to_nat i = Some x -> getitem l i = inr x.
Proof.
  intros Hi Hl. unfold getitem.
  rewrite py_index_nonneg; [by rewrite Hl|].
  apply lookup_lt_Some in Hl. lia.
Qed.

Lemma setitem_nonneg {A} (l : list A) i x :
  0 <= i < Z.of_nat (length l) -> setitem l i x = inr (<[Z.to_nat i := x]> l).
Proof. intros Hi. unfold setitem. by rewrite py_index_nonneg. Qed.

(** The brightness slot of a colour with at least three components. *)
Lemma getitem_brightness (h sa b : Z) rest : getitem (h :: sa :: b :: rest) 2 = inr b.
Proof. by apply getitem_nonneg. Qed.

Lemma setitem_brightness (h sa b x : Z) rest :
  setitem (h :: sa :: b :: rest) 2 x = inr (h :: sa :: x :: rest).
Proof. rewrite setitem_nonneg; [reflexivity | simpl; lia]. Qed.

(** ** MultiZone: the zone cursor *)

Lemma zone_of_spec z : MultiZone.zone_of z = if z =? 0 then 0 else z - 1.
Proof. unfold MultiZone.zone_of. destruct (Z.eqb_spec z 0); simpl; congruence. Qed.

(** A connected strip runs the field edit and then exactly one guarded
    device call, chosen by the cursor. *)
Lemma setManual_SETB_writes dev s v c newc :
  MultiZone.connected s <> 0 ->
  getitem (MultiZone.color s) (MultiZone.zone_of (MultiZone.current_zone s)) = inr c ->
  setitem c 2 v = inr newc ->
  writes (trace (MultiZone.setManual dev (value_command "SETB" v) s)) =
    [MultiZone.zone_call (MultiZone.current_zone s)
       (MultiZone.zone_of (MultiZone.current_zone s)) newc (MultiZone.duration s)].
Proof.
  intros Hc Hg Hs. destruct s as [pw conn col dur nz cz pend]. simpl in *.
  destruct (setitem_defined col _ newc _ Hg) as [col' Hcol'].
  mz_unfold. monad_unfold. simpl.
  destruct (Z.eqb_spec conn 0); [contradiction|]. simpl.
  rewrite Hg. simpl. rewrite Hs. simpl. rewrite Hcol'. simpl.
  unfold MultiZone.zone_call.
  destruct (cz =? 0); repeat crush_step; reflexivity.
Qed.


Lemma setManual_SETZ_final dev s v c :
  MultiZone.connected s <> 0 -> 0 < v <= MultiZone.num_zones s ->
  getitem (MultiZone.color s) (v - 1) = inr c ->
  final (MultiZone.setManual dev (value_command "SETZ" v) s) = MultiZone.with_current_zone v s.
Proof.
  intros Hc Hv Hg. destruct s as [pw conn col dur nz cz pend]. simpl in *.
  mz_unfold. monad_unfold. simpl.
  destruct (Z.eqb_spec conn 0); [contradiction|]. simpl.
  destruct (Z.ltb_spec nz v); [lia|]. simpl.
  rewrite zone_of_spec. destruct (Z.eqb_spec v 0); [lia|].
  rewrite Hg. simpl. rewrite (setitem_same _ _ _ Hg). simpl.
  repeat crush_step; reflexivity.
Qed.

Lemma setManual_SETB_color dev s v c newc col' :
  MultiZone.connected s <> 0 ->
  getitem (MultiZone.color s) (MultiZone.zone_of (MultiZone.current_zone s)) = inr c ->
  setitem c 2 v = inr newc ->
  setitem (MultiZone.color s) (MultiZone.zone_of (MultiZone.current_zone s)) newc = inr col' ->
  MultiZone.color (final (MultiZone.setManual dev (value_command "SETB" v) s)) = col'.
Proof.
  intros Hc Hg Hs Hcol'. destruct s as [pw conn col dur nz cz pend]. simpl in *.
  mz_unfold. monad_unfold. simpl.
  destruct (Z.eqb_spec conn 0); [contradiction|]. simpl.
  rewrite Hg. simpl. rewrite Hs. simpl. rewrite Hcol'. simpl.
  repeat crush_step; reflexivity.
Qed.

(** C5. On a connected strip with 4 zones, SETZ=3 followed by SETB=40000
    issues one single-zone write on internal index 2 and replaces only
    that entry of the zone array: zones 0, 1 and 3 keep their colours.
    This holds whatever the device answers to either command. *)
Theorem setz3_setb_rewrites_zone2
    (pw pend : bool) (conn dur cz h sa b : Z) (c0 c1 rest c3 : list Z)
    (dev1 dev2 : device) (Hconn : conn <> 0) :
  let s := {| MultiZone.power := pw; MultiZone.connected := conn;
              MultiZone.color := [c0; c1; h :: sa :: b :: rest; c3];
              MultiZone.duration := dur; MultiZone.num_zones := 4;
              MultiZone.current_zone := cz; MultiZone.pending := pend |} in
  let o1 := MultiZone.setManual dev1 (value_command "SETZ" 3) s in
  let o2 := MultiZone.setManual dev2 (value_command "SETB" 40000) (final o1) in
  MultiZone.current_zone (final o1) = 3
  /\ MultiZone.color (final o1) = MultiZone.color s
  /\ writes (trace o2) = [set_zone_color 2 2 (h :: sa :: 40000 :: rest) dur]
  /\ MultiZone.color (final o2) = [c0; c1; h :: sa :: 40000 :: rest; c3]
  /\ MultiZone.color (final o2) !! 0%nat = MultiZone.color s !! 0%nat
  /\ MultiZone.color (final o2) !! 1%nat = MultiZone.color s !! 1%nat
  /\ MultiZone.color (final o2) !! 3%nat = MultiZone.color s !! 3%nat.
Proof.
  intros s o1 o2.
  assert (E1 : final o1 = MultiZone.with_current_zone 3 s).
  { apply (setManual_SETZ_final dev1 s 3 (h :: sa :: b :: rest)); simpl; [assumption | lia | reflexivity]. }
  assert (E2 : writes (trace o2) = [set_zone_color 2 2 (h :: sa :: 40000 :: rest) dur]).
  { unfold o2. rewrite E1.
    rewrite (setManual_SETB_writes dev2 _ 40000 (h :: sa :: b :: rest)
               (h :: sa :: 40000 :: rest)); simpl;
      [reflexivity | assumption | reflexivity | apply setitem_brightness]. }
  assert (E3 : MultiZone.color (final o2) = [c0; c1; h :: sa :: 40000 :: rest; c3]).
  { unfold o2. rewrite E1.
    apply (setManual_SETB_color dev2 _ 40000 (h :: sa :: b :: rest) (h :: sa :: 40000 :: rest));
      simpl; [assumption | reflexivity | apply setitem_brightness | reflexivity]. }
  rewrite E1, E3. repeat split; try reflexivity. exact E2.
Qed.

Lemma setz3_setb_rewrites_zone2_witness :
  let s := {| MultiZone.power := true; MultiZone.connected := 1;
              MultiZone.color := [[0; 0; 100; 3500]; [0; 0; 200; 3500];
                                  [0; 0; 300; 3500]; [0; 0; 400; 3500]];
              MultiZone.duration := 0; MultiZone.num_zones := 4;
              MultiZone.current_zone := 0; MultiZone.pending := false |} in
  let o1 := MultiZone.setManual quiet_device (value_command "SETZ" 3) s in
  let o2 := MultiZone.setManual quiet_device (value_command "SETB" 40000) (final o1) in
  1 <> 0 /\
  MultiZone.color (final o2) =
    [[0; 0; 100; 3500]; [0; 0; 200; 3500]; [0; 0; 40000; 3500]; [0; 0; 400; 3500]].
Proof.
  assert (H : 1 <> 0) by lia.
  split; [exact H|].
  apply (setz3_setb_rewrites_zone2 true false 1 0 0 0 0 300
           [0; 0; 100; 3500] [0; 0; 200; 3500] [3500] [0; 0; 400; 3500]
           quiet_device quiet_device H).
Defined.

(** *** The cursor after SETZ *)

Lemma setManual_num_zones dev command s :
  MultiZone.num_zones (final (MultiZone.setManual dev command s)) = MultiZone.num_zones s.
Proof.
  destruct s as [pw conn col dur nz cz pend]. mz_unfold. monad_unfold. simpl.
  repeat crush_step; reflexivity.
Qed.

Lemma setManual_cursor_other dev command s :
  cmd command <> "SETZ" ->
  MultiZone.current_zone (final (MultiZone.setManual dev command s)) = MultiZone.current_zone s.
Proof.
  intros Hne. destruct s as [pw conn col dur nz cz pend]. mz_unfold. monad_unfold. simpl.
  destruct (String.eqb_spec (cmd command) "SETZ"); [contradiction|].
  repeat crush_step; reflexivity.
Qed.

Lemma setManual_cursor_SETZ dev command s v :
  MultiZone.connected s <> 0 -> cmd command = "SETZ" -> value command = Some v ->
  MultiZone.current_zone (final (MultiZone.setManual dev command s)) =
    if MultiZone.num_zones s <? v then 0 else v.
Proof.
  intros Hc Hcmd Hv. destruct s as [pw conn col dur nz cz pend]. simpl in *.
  mz_unfold. monad_unfold. simpl. rewrite Hcmd, Hv. simpl.
  destruct (Z.eqb_spec conn 0); [contradiction|]. simpl.
  destruct (nz <? v); simpl; repeat crush_step; reflexivity.
Qed.

(** SETZ above the zone count on a strip whose zone array is not empty:
    the command completes (the device call is on the whole device). *)
Lemma setManual_SETZ_reset_returns dev s v c0 rest :
  MultiZone.connected s <> 0 -> MultiZone.num_zones s < v ->
  MultiZone.color s = c0 :: rest ->
  (forall e, write dev (set_color c0 (MultiZone.duration s)) = Some e ->
             e = WorkflowException \/ e = TypeError) ->
  let o := MultiZone.setManual dev (value_command "SETZ" v) s in
  result o = inr tt /\ MultiZone.current_zone (final o) = 0
  /\ calls (trace o) = [set_color c0 (MultiZone.duration s)].
Proof.
  intros Hc Hv Hcol Hw. destruct s as [pw conn col dur nz cz pend]. simpl in *. subst col.
  mz_unfold. monad_unfold. simpl.
  destruct (Z.eqb_spec conn 0); [contradiction|]. simpl.
  destruct (Z.ltb_spec nz v); [|lia]. simpl.
  cbv [MultiZone.zone_call MultiZone.zone_of]. simpl.
  destruct (write dev (set_color c0 dur)) as [e|]; simpl.
  - destruct (Hw e eq_refl) as [-> | ->]; simpl; repeat split; reflexivity.
  - repeat split; reflexivity.
Qed.

Lemma setManual_cursor_disconnected dev command s :
  MultiZone.connected s = 0 ->
  final (MultiZone.setManual dev command s) = s.
Proof.
  intros Hc. destruct s as [pw conn col dur nz cz pend]. simpl in *. subst conn.
  mz_unfold. monad_unfold. reflexivity.
Qed.

Lemma setManual_no_value dev command s :
  value command = None ->
  final (MultiZone.setManual dev command s) = s.
Proof.
  intros Hv. destruct s as [pw conn col dur nz cz pend].
  mz_unfold. monad_unfold. simpl. rewrite Hv.
  destruct (negb (conn =? 0)); reflexivity.
Qed.

(** C10, the claim as stated fails: a negative SETZ value is stored. *)
Lemma setz_negative_is_stored :
  let o := MultiZone.setManual quiet_device (value_command "SETZ" (-1)) four_zone_strip in
  MultiZone.current_zone (final o) = -1
  /\ ~ (0 <= MultiZone.current_zone (final o) <= MultiZone.num_zones (final o)).
Proof.
  intros o.
  assert (E : MultiZone.current_zone (final o) = -1) by reflexivity.
  assert (N : MultiZone.num_zones (final o) = 4) by reflexivity.
  rewrite E, N. split; [reflexivity | lia].
Qed.

(** A cursor restored by [start] from the persisted GV4 driver while the
    strip does not answer is above the (still unknown) zone count, and a
    later setManual command leaves it there. *)
Lemma stale_cursor_survives :
  let s := final (MultiZone.start (Some 0) (Some 3) quiet_device MultiZone.init) in
  let o := MultiZone.setManual quiet_device (value_command "RR" 5) s in
  MultiZone.current_zone (final o) = 3 /\ MultiZone.num_zones (final o) = 0.
Proof. split; reflexivity. Qed.

(** C10, amended. SETZ=v on a connected strip stores v when v is at most
    the zone count and 0 when it is above; every other setManual command,
    and a refused or valueless one, leaves the cursor as it was; the zone
    count is never changed.  So the cursor stays in [0, num_zones] when it
    was there before and a SETZ value is not negative.  A reset to 0 on a
    strip with a non-empty zone array completes without raising (given a
    device call that succeeds or fails with a caught exception). *)
Theorem setManual_cursor_range (dev : device) (command : command) (s : MultiZone.t)
    (Hin : 0 <= MultiZone.current_zone s <= MultiZone.num_zones s)
    (Hval : forall v, cmd command = "SETZ" -> value command = Some v -> 0 <= v) :
  let o := MultiZone.setManual dev command s in
  0 <= MultiZone.current_zone (final o) <= MultiZone.num_zones (final o)
  /\ MultiZone.num_zones (final o) = MultiZone.num_zones s
  /\ (forall v, MultiZone.connected s <> 0 -> cmd command = "SETZ" ->
        value command = Some v ->
        MultiZone.current_zone (final o) = if MultiZone.num_zones s <? v then 0 else v)
  /\ (cmd command <> "SETZ" -> MultiZone.current_zone (final o) = MultiZone.current_zone s)
  /\ (forall v c0 rest,
        MultiZone.connected s <> 0 -> command = value_command "SETZ" v ->
        MultiZone.num_zones s < v -> MultiZone.color s = c0 :: rest ->
        (forall e, write dev (set_color c0 (MultiZone.duration s)) = Some e ->
                   e = WorkflowException \/ e = TypeError) ->
        result o = inr tt /\ MultiZone.current_zone (final o) = 0).
Proof.
  intros o. subst o.
  split; [|split; [|split; [|split]]].
  - rewrite setManual_num_zones.
    destruct (String.eqb_spec (cmd command) "SETZ") as [Hz|Hz].
    + destruct (value command) as [v|] eqn:Hv.
      * destruct (Z.eq_dec (MultiZone.connected s) 0) as [Hc|Hc].
        -- rewrite setManual_cursor_disconnected; assumption.
        -- rewrite (setManual_cursor_SETZ dev command s v Hc Hz Hv).
           specialize (Hval v Hz eq_refl).
           destruct (Z.ltb_spec (MultiZone.num_zones s) v); lia.
      * rewrite setManual_no_value; assumption.
    + rewrite setManual_cursor_other; assumption.
  - apply setManual_num_zones.
  - intros v Hc Hz Hv. apply setManual_cursor_SETZ; assumption.
  - apply setManual_cursor_other.
  - intros v c0 rest Hc -> Hlt Hcol Hw.
    destruct (setManual_SETZ_reset_returns dev s v c0 rest Hc Hlt Hcol Hw) as (R & Z0 & _).
    split; assumption.
Qed.

Lemma setManual_cursor_range_witness :
  let o := MultiZone.setManual quiet_device (value_command "SETZ" 9) four_zone_strip in
  0 <= MultiZone.current_zone four_zone_strip <= MultiZone.num_zones four_zone_strip
  /\ 0 <= 9
  /\ 0 <= MultiZone.current_zone (final o) <= MultiZone.num_zones (final o).
Proof.
  assert (H1 : 0 <= MultiZone.current_zone four_zone_strip
               <= MultiZone.num_zones four_zone_strip) by (simpl; lia).
  assert (H2 : forall v, cmd (value_command "SETZ" 9) = "SETZ" ->
                 value (value_command "SETZ" 9) = Some v -> 0 <= v).
  { intros v _ E. simpl in E. inversion E. lia. }
  split; [exact H1|]. split; [lia|].
  apply (setManual_cursor_range quiet_device (value_command "SETZ" 9) four_zone_strip H1 H2).
Defined.

(** ** The connectivity guard *)

Lemma Light_setColor_refuses pol dev command s :
  Light.connected s = 0 -> refused s (Light.setColor pol dev command s).
Proof.
  intros H. light_unfold. monad_unfold. rewrite H. simpl.
  repeat split; eauto.
Qed.

Lemma Light_setManual_refuses pol dev command s :
  Light.connected s = 0 -> refused s (Light.setManual pol dev command s).
Proof.
  intros H. light_unfold. monad_unfold. rewrite H. simpl.
  repeat split; eauto.
Qed.

Lemma MultiZone_setColor_refuses dev command s :
  MultiZone.connected s = 0 -> refused s (MultiZone.setColor dev command s).
Proof.
  intros H. mz_unfold. monad_unfold. rewrite H. simpl.
  repeat split; eauto.
Qed.

Lemma MultiZone_setManual_refuses dev command s :
  MultiZone.connected s = 0 -> refused s (MultiZone.setManual dev command s).
Proof.
  intros H. mz_unfold. monad_unfold. rewrite H. simpl.
  repeat split; eauto.
Qed.

Ltac blind :=
  intros s c; destruct s; light_unfold; monad_unfold; simpl;
  repeat crush_step; try reflexivity; try congruence.

Lemma setOn_ignores_connected pol dev command :
  ignores_connected (Light.setOn pol dev command).
Proof. blind. Qed.

Lemma setOff_ignores_connected dev : ignores_connected (Light.setOff dev).
Proof. blind. Qed.

Lemma dim_ignores_connected dev : ignores_connected (Light.dim dev).
Proof. blind. Qed.

Lemma brighten_ignores_connected dev : ignores_connected (Light.brighten dev).
Proof. blind. Qed.

Lemma fade_up_ignores_connected dev : ignores_connected (Light.fade_up dev).
Proof. blind. Qed.

Lemma fade_down_ignores_connected dev : ignores_connected (Light.fade_down dev).
Proof. blind. Qed.

Lemma fade_stop_ignores_connected dev : ignores_connected (Light.fade_stop dev).
Proof. blind. Qed.

Lemma setHSBKD_ignores_connected pol dev command :
  ignores_connected (Light.setHSBKD pol dev command).
Proof. blind. Qed.

Lemma set_wf_ignores_connected dev command : ignores_connected (Light.set_wf dev command).
Proof. blind. Qed.

(** C2, the claim as stated fails: DOF on a disconnected bulb calls the
    device and clears the power mirror. *)
Lemma setOff_acts_when_disconnected :
  let o := Light.setOff quiet_device disconnected_bulb in
  Light.connected disconnected_bulb = 0
  /\ calls (trace o) = [set_power false]
  /\ Light.power disconnected_bulb = true /\ Light.power (final o) = false
  /\ ~ refused disconnected_bulb o.
Proof.
  intros o. repeat split.
  intros (_ & _ & l & msg & H). discriminate H.
Qed.

(** C2, amended. The guard is in SET_COLOR and in the single-field
    setters (SETH, SETS, SETB, CLITEMP, RR, and SETZ on a strip): with the
    connectivity flag at 0 they make no device call, change no attribute
    and only log.  setOn (DON, DFON), setOff (DOF, DFOF), dim, brighten,
    fade_up, fade_down, fade_stop, setHSBKD and the waveform handler never
    read the flag. *)
Theorem connectivity_guard (pol : policy) (dev : device) (command : command) :
  (forall s, Light.connected s = 0 ->
     refused s (Light.setColor pol dev command s)
     /\ refused s (Light.setManual pol dev command s))
  /\ (forall s, MultiZone.connected s = 0 ->
     refused s (MultiZone.setColor dev command s)
     /\ refused s (MultiZone.setManual dev command s))
  /\ ignores_connected (Light.setOn pol dev command)
  /\ ignores_connected (Light.setOff dev)
  /\ ignores_connected (Light.dim dev)
  /\ ignores_connected (Light.brighten dev)
  /\ ignores_connected (Light.fade_up dev)
  /\ ignores_connected (Light.fade_down dev)
  /\ ignores_connected (Light.fade_stop dev)
  /\ ignores_connected (Light.setHSBKD pol dev command)
  /\ ignores_connected (Light.set_wf dev command).
Proof.
  split; [|split].
  - intros s H. split; [apply Light_setColor_refuses | apply Light_setManual_refuses]; exact H.
  - intros s H. split; [apply MultiZone_setColor_refuses | apply MultiZone_setManual_refuses]; exact H.
  - repeat split.
    + apply setOn_ignores_connected.
    + apply setOff_ignores_connected.
    + apply dim_ignores_connected.
    + apply brighten_ignores_connected.
    + apply fade_up_ignores_connected.
    + apply fade_down_ignores_connected.
    + apply fade_stop_ignores_connected.
    + apply setHSBKD_ignores_connected.
    + apply set_wf_ignores_connected.
Qed.

Lemma connectivity_guard_witness :
  Light.connected disconnected_bulb = 0
  /\ refused disconnected_bulb
       (Light.setManual default_policy quiet_device (value_command "SETB" 0) disconnected_bulb).
Proof.
  split; [reflexivity|].
  destruct (connectivity_guard default_policy quiet_device (value_command "SETB" 0)) as [H _].
  apply (H disconnected_bulb eq_refl).
Defined.

(** ** Brightness written to the device *)

Lemma clamp_range x : BR_MIN <= clamp x <= BR_MAX.
Proof.
  unfold clamp, BR_MIN, BR_MAX.
  destruct (Z.ltb_spec 65535 x); [lia|]. destruct (Z.ltb_spec x 1310); lia.
Qed.

(** Explicit DON targets: 65535 / 255 = 257 exactly, so no rounding
    takes place. *)
Lemma round_div_scale val : round_div (val * 65535) 255 = val * 257.
Proof.
  unfold round_div.
  replace (val * 65535) with (val * 257 * 255) by lia.
  rewrite Z.div_mul by lia. rewrite Z.mod_mul by lia. reflexivity.
Qed.

Ltac range_goal :=
  repeat constructor; simpl;
  try (eexists; split;
       [ eapply getitem_setitem_eq; eassumption
       | first [ apply clamp_range
               | unfold BR_MIN, BR_MAX, BR_INCREMENT in *;
                 repeat match goal with
                        | |- context [?a <? ?b] => destruct (Z.ltb_spec a b)
                        end; lia ] ]).

Ltac range_light :=
  light_unfold; monad_unfold; simpl; repeat crush_step; range_goal.

Lemma Light_setOn_range pol dev command s :
  Forall brightness_in_range (calls (trace (Light.setOn pol dev command s))).
Proof. destruct s. range_light. Qed.

Lemma Light_fade_up_range dev s :
  Forall brightness_in_range (calls (trace (Light.fade_up dev s))).
Proof. destruct s. range_light. Qed.

Lemma Light_fade_down_range dev s :
  Forall brightness_in_range (calls (trace (Light.fade_down dev s))).
Proof. destruct s. range_light. Qed.

Lemma Light_dim_range dev s :
  (forall b, getitem (Light.color s) 2 = inr b -> b <= BR_MAX) ->
  Forall brightness_in_range (calls (trace (Light.dim dev s))).
Proof.
  destruct s. simpl. intros H. range_light.
  all: specialize (H _ eq_refl); range_goal.
Qed.

Lemma Light_brighten_range dev s :
  (forall b, getitem (Light.color s) 2 = inr b -> 0 <= b) ->
  Forall brightness_in_range (calls (trace (Light.brighten dev s))).
Proof.
  destruct s. simpl. intros H. range_light.
  all: specialize (H _ eq_refl); range_goal.
Qed.

Ltac range_mz :=
  mz_unfold; monad_unfold; cbv [MultiZone.zone_call]; simpl; repeat crush_step; range_goal.

Lemma MultiZone_setOn_range dev command s :
  Forall brightness_in_range (calls (trace (MultiZone.setOn dev command s))).
Proof. destruct s. range_mz. Qed.

Lemma MultiZone_fade_up_range dev s :
  Forall brightness_in_range (calls (trace (MultiZone.fade_up dev s))).
Proof. destruct s. range_mz. Qed.

Lemma MultiZone_fade_down_range dev s :
  Forall brightness_in_range (calls (trace (MultiZone.fade_down dev s))).
Proof. destruct s. range_mz. Qed.

Lemma MultiZone_dim_range dev s :
  (forall c b, getitem (MultiZone.color s) (MultiZone.zone_of (MultiZone.current_zone s)) = inr c ->
               getitem c 2 = inr b -> b <= BR_MAX) ->
  Forall brightness_in_range (calls (trace (MultiZone.dim dev s))).
Proof.
  destruct s. simpl. intros H. range_mz.
  all: simplify_eq.
  all: match goal with
       | E : getitem ?c 2 = inr ?b |- _ => specialize (H c b eq_refl E)
       end; range_goal.
Qed.

Lemma MultiZone_brighten_range dev s :
  (forall c b, getitem (MultiZone.color s) (MultiZone.zone_of (MultiZone.current_zone s)) = inr c ->
               getitem c 2 = inr b -> 0 <= b) ->
  Forall brightness_in_range (calls (trace (MultiZone.brighten dev s))).
Proof.
  destruct s. simpl. intros H. range_mz.
  all: simplify_eq.
  all: match goal with
       | E : getitem ?c 2 = inr ?b |- _ => specialize (H c b eq_refl E)
       end; range_goal.
Qed.

Lemma Light_SETB_written pol dev s v c' :
  Light.connected s <> 0 -> setitem (Light.color s) 2 v = inr c' ->
  In (set_color c' (Light.duration s))
     (calls (trace (Light.setManual pol dev (value_command "SETB" v) s))).
Proof.
  intros Hc Hs. destruct s as [pw conn col dur ir]. simpl in *.
  light_unfold. monad_unfold. simpl.
  destruct (Z.eqb_spec conn 0); [contradiction|]. simpl. rewrite Hs. simpl.
  repeat crush_step; try (left; reflexivity).
Qed.

(** C3, the claim as stated fails: SETB=0 writes brightness 0. *)
Lemma setb_zero_is_written :
  let o := Light.setManual default_policy quiet_device (value_command "SETB" 0) connected_bulb in
  calls (trace o) = [set_color [0; 0; 0; 3500] 0]
  /\ ~ Forall brightness_in_range (calls (trace o)).
Proof.
  intros o.
  assert (E : calls (trace o) = [set_color [0; 0; 0; 3500] 0]) by reflexivity.
  rewrite E. split; [reflexivity|].
  intros H. inversion H as [|? ? Hx _]; subst.
  simpl in Hx. destruct Hx as (b & Hb & Hr).
  assert (b = 0) by (vm_compute in Hb; congruence). subst b.
  unfold BR_MIN in Hr. lia.
Qed.

(** C3, amended. Every colour write of setOn (explicit DON target, DFON,
    plain DON), fade_up and fade_down, on a bulb or on a strip, carries a
    brightness in [BR_MIN, BR_MAX].  dim clamps from below only and
    brighten from above only: their writes are in range when the mirrored
    brightness is at most BR_MAX, respectively at least 0.  The SETB
    single-field setter writes the value it is given, unclamped. *)
Theorem brightness_writes_in_range (pol : policy) (dev : device) (command : command) :
  (forall s, Forall brightness_in_range (calls (trace (Light.setOn pol dev command s))))
  /\ (forall s, Forall brightness_in_range (calls (trace (Light.fade_up dev s))))
  /\ (forall s, Forall brightness_in_range (calls (trace (Light.fade_down dev s))))
  /\ (forall s, (forall b, getitem (Light.color s) 2 = inr b -> b <= BR_MAX) ->
        Forall brightness_in_range (calls (trace (Light.dim dev s))))
  /\ (forall s, (forall b, getitem (Light.color s) 2 = inr b -> 0 <= b) ->
        Forall brightness_in_range (calls (trace (Light.brighten dev s))))
  /\ (forall s, Forall brightness_in_range (calls (trace (MultiZone.setOn dev command s))))
  /\ (forall s, Forall brightness_in_range (calls (trace (MultiZone.fade_up dev s))))
  /\ (forall s, Forall brightness_in_range (calls (trace (MultiZone.fade_down dev s))))
  /\ (forall s,
        (forall c b, getitem (MultiZone.color s) (MultiZone.zone_of (MultiZone.current_zone s)) = inr c ->
                     getitem c 2 = inr b -> b <= BR_MAX) ->
        Forall brightness_in_range (calls (trace (MultiZone.dim dev s))))
  /\ (forall s,
        (forall c b, getitem (MultiZone.color s) (MultiZone.zone_of (MultiZone.current_zone s)) = inr c ->
                     getitem c 2 = inr b -> 0 <= b) ->
        Forall brightness_in_range (calls (trace (MultiZone.brighten dev s))))
  /\ (forall s v c', Light.connected s <> 0 -> setitem (Light.color s) 2 v = inr c' ->
        In (set_color c' (Light.duration s))
           (calls (trace (Light.setManual pol dev (value_command "SETB" v) s)))).
Proof.
  repeat split.
  - apply Light_setOn_range.
  - apply Light_fade_up_range.
  - apply Light_fade_down_range.
  - apply Light_dim_range.
  - apply Light_brighten_range.
  - apply MultiZone_setOn_range.
  - apply MultiZone_fade_up_range.
  - apply MultiZone_fade_down_range.
  - apply MultiZone_dim_range.
  - apply MultiZone_brighten_range.
  - apply Light_SETB_written.
Qed.

Lemma brightness_writes_in_range_witness :
  (forall b, getitem (Light.color connected_bulb) 2 = inr b -> b <= BR_MAX)
  /\ Forall brightness_in_range (calls (trace (Light.dim quiet_device connected_bulb))).
Proof.
  assert (H : forall b, getitem (Light.color connected_bulb) 2 = inr b -> b <= BR_MAX).
  { intros b E. vm_compute in E. inversion E. unfold BR_MAX. lia. }
  split; [exact H|].
  destruct (brightness_writes_in_range default_policy quiet_device (plain_command "DIM"))
    as (_ & _ & _ & Hdim & _).
  apply (Hdim connected_bulb H).
Defined.

(** ** Fades *)

Lemma fade_down_refuses_off dev s :
  Light.power s = false -> refused s (Light.fade_down dev s).
Proof.
  intros H. destruct s as [pw conn col dur ir]. simpl in *. subst pw.
  light_unfold. monad_unfold. simpl. repeat split; eauto.
Qed.

Lemma fade_down_refuses_minimum dev s b :
  Light.power s = true -> getitem (Light.color s) 2 = inr b -> b <= BR_MIN ->
  refused s (Light.fade_down dev s).
Proof.
  intros H Hg Hb. destruct s as [pw conn col dur ir]. simpl in *. subst pw.
  light_unfold. monad_unfold. simpl. rewrite Hg. simpl.
  destruct (Z.leb_spec b BR_MIN); [|lia]. simpl. repeat split; eauto.
Qed.

Lemma fade_up_refuses_maximum dev s :
  Light.power s = true -> getitem (Light.color s) 2 = inr BR_MAX ->
  refused s (Light.fade_up dev s).
Proof.
  intros H Hg. destruct s as [pw conn col dur ir]. simpl in *. subst pw.
  light_unfold. monad_unfold. simpl. rewrite Hg. simpl.
  repeat split; eauto.
Qed.

Lemma fade_stop_refuses_off dev s :
  Light.power s = false -> refused s (Light.fade_stop dev s).
Proof.
  intros H. destruct s as [pw conn col dur ir]. simpl in *. subst pw.
  light_unfold. monad_unfold. simpl. repeat split; eauto.
Qed.

Lemma fade_stop_at_limit dev s b :
  Light.power s = true -> getitem (reread_color dev s) 2 = inr b ->
  b = BR_MIN \/ b = BR_MAX ->
  let o := Light.fade_stop dev s in
  writes (trace o) = [] /\ calls (trace o) = [get_color]
  /\ final o = Light.with_color (reread_color dev s) s.
Proof.
  intros H Hg Hb. destruct s as [pw conn col dur ir]. unfold reread_color in *. simpl in *.
  subst pw. light_unfold. monad_unfold. simpl.
  assert (Hlim : (b =? BR_MIN) || (b =? BR_MAX) = true).
  { destruct Hb as [-> | ->]; reflexivity. }
  destruct (read_color dev) as [e|c]; simpl.
  - rewrite Hg. simpl. rewrite Hlim. simpl. repeat split; reflexivity.
  - repeat crush_step; simplify_eq; try (repeat split; reflexivity).
    all: rewrite Hlim in *; discriminate.
Qed.

(** C7, the claim as stated fails: FDUP on a bulb that is off with its
    mirror at BR_MAX turns the bulb on at BR_MIN and starts the fade. *)
Lemma fade_up_acts_when_off_at_maximum :
  let o := Light.fade_up quiet_device dark_bulb in
  getitem (Light.color dark_bulb) 2 = inr BR_MAX
  /\ calls (trace o) = [set_color [0; 0; 1310; 3500] 0; set_power true;
                        set_color [0; 0; 65535; 3500] 5000]
  /\ ~ refused dark_bulb o.
Proof.
  intros o. split; [reflexivity|]. split; [reflexivity|].
  intros (_ & _ & l & msg & H). discriminate H.
Qed.

(** C7, amended. fade_down refuses (one log line, no device call, no
    attribute changed) when the power mirror is off or the brightness is at
    or below BR_MIN.  fade_up refuses when the bulb is on and its brightness
    is BR_MAX.  fade_stop refuses when the power mirror is off; when it is
    on and the brightness after the re-read is BR_MIN or BR_MAX, it issues
    no device write: its only device call is the colour read, whose answer
    replaces the mirror. *)
Theorem fade_refusals (dev : device) (s : Light.t) :
  (Light.power s = false -> refused s (Light.fade_down dev s))
  /\ (forall b, Light.power s = true -> getitem (Light.color s) 2 = inr b ->
        b <= BR_MIN -> refused s (Light.fade_down dev s))
  /\ (Light.power s = true -> getitem (Light.color s) 2 = inr BR_MAX ->
        refused s (Light.fade_up dev s))
  /\ (Light.power s = false -> refused s (Light.fade_stop dev s))
  /\ (forall b, Light.power s = true -> getitem (reread_color dev s) 2 = inr b ->
        b = BR_MIN \/ b = BR_MAX ->
        let o := Light.fade_stop dev s in
        writes (trace o) = [] /\ calls (trace o) = [get_color]
        /\ final o = Light.with_color (reread_color dev s) s).
Proof.
  split; [|split; [|split; [|split]]].
  - apply fade_down_refuses_off.
  - intros b. apply fade_down_refuses_minimum.
  - apply fade_up_refuses_maximum.
  - apply fade_stop_refuses_off.
  - intros b. apply fade_stop_at_limit.
Qed.

Lemma fade_refusals_witness :
  Light.power connected_bulb = true
  /\ getitem (Light.color connected_bulb) 2 = inr BR_MAX
  /\ refused connected_bulb (Light.fade_up quiet_device connected_bulb).
Proof.
  assert (H1 : Light.power connected_bulb = true) by reflexivity.
  assert (H2 : getitem (Light.color connected_bulb) 2 = inr BR_MAX) by reflexivity.
  split; [exact H1|]. split; [exact H2|].
  destruct (fade_refusals quiet_device connected_bulb) as (_ & _ & H & _).
  exact (H H1 H2).
Defined.

(** ** Dim, then brighten *)

Lemma dim_final dev s b c1 :
  getitem (Light.color s) 2 = inr b -> BR_MIN <= b - BR_INCREMENT ->
  setitem (Light.color s) 2 (b - BR_INCREMENT) = inr c1 ->
  final (Light.dim dev s) = Light.with_color c1 s.
Proof.
  intros Hg Hb Hs. destruct s as [pw conn col dur ir]. simpl in *.
  light_unfold. monad_unfold.
  destruct pw; simpl; rewrite Hg; simpl;
    (destruct (Z.ltb_spec (b - BR_INCREMENT) BR_MIN); [lia|]);
    rewrite Hs; simpl; repeat crush_step; reflexivity.
Qed.

Lemma brighten_final dev s b c1 :
  Light.power s = true ->
  getitem (Light.color s) 2 = inr b -> b + BR_INCREMENT <= BR_MAX ->
  setitem (Light.color s) 2 (b + BR_INCREMENT) = inr c1 ->
  final (Light.brighten dev s) = Light.with_color c1 s.
Proof.
  intros Hp Hg Hb Hs. destruct s as [pw conn col dur ir]. simpl in *. subst pw.
  light_unfold. monad_unfold. simpl. rewrite Hg.
  destruct (Z.ltb_spec BR_MAX (b + BR_INCREMENT)); [lia|].
  simpl. rewrite Hs. simpl. repeat crush_step; reflexivity.
Qed.

Lemma dim_returns dev s b c1 :
  getitem (Light.color s) 2 = inr b -> BR_MIN <= b - BR_INCREMENT ->
  setitem (Light.color s) 2 (b - BR_INCREMENT) = inr c1 ->
  write dev (set_color c1 BRTDIM_INTERVAL) = None ->
  result (Light.dim dev s) = inr tt
  /\ calls (trace (Light.dim dev s)) = [set_color c1 BRTDIM_INTERVAL].
Proof.
  intros Hg Hb Hs Hw. destruct s as [pw conn col dur ir]. simpl in *.
  light_unfold. monad_unfold.
  destruct pw; simpl; rewrite Hg; simpl;
    (destruct (Z.ltb_spec (b - BR_INCREMENT) BR_MIN); [lia|]);
    rewrite Hs; simpl; rewrite Hw; simpl;
    repeat (rewrite (getitem_setitem_eq _ _ _ _ Hs); simpl); split; reflexivity.
Qed.

Lemma brighten_returns dev s b c1 :
  Light.power s = true ->
  getitem (Light.color s) 2 = inr b -> b + BR_INCREMENT <= BR_MAX ->
  setitem (Light.color s) 2 (b + BR_INCREMENT) = inr c1 ->
  write dev (set_color c1 BRTDIM_INTERVAL) = None ->
  result (Light.brighten dev s) = inr tt
  /\ calls (trace (Light.brighten dev s)) = [set_color c1 BRTDIM_INTERVAL].
Proof.
  intros Hp Hg Hb Hs Hw. destruct s as [pw conn col dur ir]. simpl in *. subst pw.
  light_unfold. monad_unfold. simpl. rewrite Hg.
  destruct (Z.ltb_spec BR_MAX (b + BR_INCREMENT)); [lia|].
  simpl; rewrite Hs; simpl; rewrite Hw; simpl;
    repeat (rewrite (getitem_setitem_eq _ _ _ _ Hs); simpl); split; reflexivity.
Qed.

(** C8. On a bulb that is on, with brightness b such that
    b - BR_INCREMENT >= BR_MIN and (after the first step)
    (b - BR_INCREMENT) + BR_INCREMENT <= BR_MAX, dim then brighten leaves
    every attribute, the mirrored brightness included, as it was before;
    when the two device writes succeed both commands return normally, the
    first writing brightness b - BR_INCREMENT and the second b. *)
Theorem dim_then_brighten_restores (dev1 dev2 : device) (s : Light.t) (b : Z)
    (Hon : Light.power s = true)
    (Hb : getitem (Light.color s) 2 = inr b)
    (Hlow : BR_MIN <= b - BR_INCREMENT)
    (Hhigh : (b - BR_INCREMENT) + BR_INCREMENT <= BR_MAX) :
  let o1 := Light.dim dev1 s in
  let o2 := Light.brighten dev2 (final o1) in
  getitem (Light.color (final o1)) 2 = inr (b - BR_INCREMENT)
  /\ getitem (Light.color (final o2)) 2 = inr b
  /\ final o2 = s
  /\ ((forall c, write dev1 c = None) -> (forall c, write dev2 c = None) ->
      exists c1, setitem (Light.color s) 2 (b - BR_INCREMENT) = inr c1
        /\ result o1 = inr tt /\ calls (trace o1) = [set_color c1 BRTDIM_INTERVAL]
        /\ result o2 = inr tt
        /\ calls (trace o2) = [set_color (Light.color s) BRTDIM_INTERVAL]).
Proof.
  intros o1 o2.
  destruct (setitem_defined _ _ (b - BR_INCREMENT) _ Hb) as [c1 Hc1].
  pose proof (getitem_setitem_eq _ _ _ _ Hc1) as Hg1.
  pose proof (setitem_same _ _ _ Hb) as Hsame.
  assert (Hc2 : setitem c1 2 (b - BR_INCREMENT + BR_INCREMENT) = inr (Light.color s)).
  { replace (b - BR_INCREMENT + BR_INCREMENT) with b by lia.
    destruct (setitem_defined _ _ b _ Hg1) as [c2 Hc2].
    pose proof (setitem_setitem _ _ _ _ _ _ Hc1 Hc2) as E.
    rewrite Hsame in E. inversion E; subst. exact Hc2. }
  assert (E1 : final o1 = Light.with_color c1 s).
  { apply (dim_final dev1 s b c1 Hb Hlow Hc1). }
  assert (E2 : final o2 = s).
  { unfold o2. rewrite E1.
    rewrite (brighten_final dev2 (Light.with_color c1 s) (b - BR_INCREMENT) (Light.color s));
      try assumption.
    destruct s; reflexivity. }
  rewrite E2, E1. simpl.
  split; [exact Hg1|]. split; [exact Hb|]. split; [reflexivity|].
  intros W1 W2. exists c1. split; [exact Hc1|].
  destruct (dim_returns dev1 s b c1 Hb Hlow Hc1 (W1 _)) as [R1 T1].
  split; [exact R1|]. split; [exact T1|].
  unfold o2. rewrite E1.
  apply (brighten_returns dev2 (Light.with_color c1 s) (b - BR_INCREMENT) (Light.color s));
    try assumption. apply W2.
Qed.

Lemma dim_then_brighten_restores_witness :
  let o1 := Light.dim quiet_device half_bulb in
  let o2 := Light.brighten quiet_device (final o1) in
  Light.power half_bulb = true
  /\ getitem (Light.color half_bulb) 2 = inr 32768
  /\ BR_MIN <= 32768 - BR_INCREMENT
  /\ (32768 - BR_INCREMENT) + BR_INCREMENT <= BR_MAX
  /\ final o2 = half_bulb.
Proof.
  assert (H1 : Light.power half_bulb = true) by reflexivity.
  assert (H2 : getitem (Light.color half_bulb) 2 = inr 32768) by reflexivity.
  assert (H3 : BR_MIN <= 32768 - BR_INCREMENT) by (unfold BR_MIN, BR_INCREMENT; lia).
  assert (H4 : (32768 - BR_INCREMENT) + BR_INCREMENT <= BR_MAX)
    by (unfold BR_MAX, BR_INCREMENT; lia).
  split; [exact H1|]. split; [exact H2|]. split; [exact H3|]. split; [exact H4|].
  apply (dim_then_brighten_restores quiet_device quiet_device half_bulb 32768 H1 H2 H3 H4).
Defined.

(** ** Power notifications during refresh *)

Lemma notifications_length mirror obs :
  length (notifications mirror obs) = transitions mirror obs.
Proof.
  revert mirror. induction obs as [|[v|] obs IH]; intros mirror; simpl.
  - reflexivity.
  - rewrite length_app, IH. destruct (Bool.eqb mirror v); reflexivity.
  - apply IH.
Qed.

Lemma transitions_stable mirror v obs :
  Forall (fun o => o = None \/ o = Some v) obs ->
  (transitions mirror obs <= 1)%nat /\ (mirror = v -> transitions mirror obs = 0%nat).
Proof.
  intros H. revert mirror. induction H as [|o obs [-> | ->] _ IH]; intros mirror; simpl.
  - split; [lia | reflexivity].
  - apply IH.
  - destruct (IH v) as [_ IH0]. rewrite (IH0 eq_refl).
    destruct (Bool.eqb mirror v) eqn:E; split; try lia.
    intros ->. rewrite Bool.eqb_reflx in E. discriminate.
Qed.

Lemma Light_update_power dev s :
  let o := Light.update dev s in
  reports (trace o) = notifications (Light.power s) [observed_power (dev, o)]
  /\ Light.power (final o) = default (Light.power s) (observed_power (dev, o)).
Proof.
  destruct s as [pw conn col dur ir]. unfold observed_power.
  light_unfold. monad_unfold. cbn [fst snd].
  destruct (read_power dev) as [e|v];
    [|destruct (v =? 65535), pw]; simpl;
    repeat crush_step; try discriminate; split; reflexivity.
Qed.

Lemma reports_app a b : reports (a ++ b) = (reports a ++ reports b)%list.
Proof. unfold reports. apply omap_app. Qed.

Lemma reads_power_app a b : reads_power (a ++ b) = reads_power a || reads_power b.
Proof. unfold reads_power. apply existsb_app. Qed.

Lemma refresh_zones_quiet dev zone s :
  let o := MultiZone.refresh_zones dev zone s in
  reports (trace o) = [] /\ reads_power (trace o) = false
  /\ MultiZone.power (final o) = MultiZone.power s.
Proof.
  destruct s as [pw conn col dur nz cz pend].
  cbv [MultiZone.refresh_zones MultiZone.zone_color_at MultiZone.zone_color].
  monad_unfold. simpl.
  repeat crush_step; simplify_eq/=; repeat split; reflexivity.
Qed.

Lemma refresh_power_notifies dev s :
  let o := MultiZone.refresh_power dev s in
  let obs := match read_power dev with
             | inr v => Some (v =? 65535)
             | inl _ => None
             end in
  reports (trace o) = notifications (MultiZone.power s) [obs]
  /\ reads_power (trace o) = true
  /\ MultiZone.power (final o) = default (MultiZone.power s) obs.
Proof.
  destruct s as [pw conn col dur nz cz pend].
  cbv [MultiZone.refresh_power MultiZone._set_st]. monad_unfold.
  destruct (read_power dev) as [e|v]; [simpl; repeat split; reflexivity|].
  destruct (v =? 65535), pw; simpl;
    repeat crush_step; try discriminate; repeat split; reflexivity.
Qed.

Lemma MultiZone_update_power dev s :
  let o := MultiZone.update dev s in
  reports (trace o) = notifications (MultiZone.power s) [observed_power (dev, o)]
  /\ MultiZone.power (final o) = default (MultiZone.power s) (observed_power (dev, o)).
Proof.
  unfold observed_power, MultiZone.update.
  cbv [bind modify get after setDriver emit]. simpl.
  pose proof (refresh_zones_quiet dev (MultiZone.zone_of (MultiZone.current_zone s))
                (MultiZone.with_connected 0 s)) as Hz.
  cbv zeta in Hz.
  destruct (MultiZone.refresh_zones _ _ _) as [[e|[]] s1 t1]; simpl in *;
    destruct Hz as (R1 & P1 & W1).
  - rewrite R1, P1, W1. destruct s; split; reflexivity.
  - pose proof (refresh_power_notifies dev s1) as Hp. cbv zeta in Hp.
    destruct (MultiZone.refresh_power dev s1) as [[e|[]] s2 t2]; simpl in *;
      destruct Hp as (R2 & P2 & W2).
    + rewrite reports_app, reads_power_app, R1, R2, P2, W2, W1, orb_true_r.
      destruct s; split; reflexivity.
    + rewrite !reports_app, !reads_power_app, R1, R2, P2, W2, W1. simpl.
      rewrite orb_true_r, app_nil_r.
      destruct s; split; reflexivity.
Qed.

(** Over a run of polls the notifications are those called for by the
    values observed, starting from the mirror. *)
Section Polls.
Context {S : Type} (update : device -> M S unit) (power : S -> bool).
Hypothesis update_power : forall dev s,
  let o := update dev s in
  reports (trace o) = notifications (power s) [observed_power (dev, o)]
  /\ power (final o) = default (power s) (observed_power (dev, o)).

Lemma polls_reports devs s :
  poll_reports (polls update devs s)
  = notifications (power s) (map observed_power (polls update devs s)).
Proof.
  revert s. induction devs as [|dev devs IH]; intros s; [reflexivity|].
  unfold poll_reports in *. simpl.
  destruct (update_power dev s) as [R P]. simpl in R, P.
  rewrite R, IH, P.
  destruct (observed_power (dev, update dev s)) as [v|]; simpl.
  - rewrite app_nil_r. reflexivity.
  - reflexivity.
Qed.
End Polls.

Lemma polls_observe_device {S} (update : device -> M S unit) devs s v :
  (forall dev p, In dev devs -> read_power dev = inr p -> (p =? 65535) = v) ->
  Forall (fun o => o = None \/ o = Some v) (map observed_power (polls update devs s)).
Proof.
  revert s. induction devs as [|dev devs IH]; intros s H; simpl; constructor.
  - unfold observed_power. simpl.
    destruct (reads_power _); [|by left].
    destruct (read_power dev) as [e|p] eqn:E; [by left|].
    right. f_equal. apply (H dev p); [by left | exact E].
  - apply IH. intros d p Hd. apply H. by right.
Qed.

Lemma notifications_single mirror o :
  notifications mirror [o] <> [] <-> exists v, o = Some v /\ v <> mirror.
Proof.
  destruct o as [v|]; simpl.
  - destruct (Bool.eqb mirror v) eqn:E; simpl.
    + apply Bool.eqb_prop in E. subst. split; [congruence|].
      intros (v' & Hv & Hne). inversion Hv; subst. congruence.
    + split; [|discriminate]. intros _. exists v. split; [reflexivity|].
      intros ->. rewrite Bool.eqb_reflx in E. discriminate.
  - split; [congruence|]. intros (v & Hv & _). discriminate.
Qed.

Lemma polls_stable {S} (update : device -> M S unit) (power : S -> bool) devs s v :
  (forall dev s,
    reports (trace (update dev s)) = notifications (power s) [observed_power (dev, update dev s)]
    /\ power (final (update dev s)) = default (power s) (observed_power (dev, update dev s))) ->
  (forall dev p, In dev devs -> read_power dev = inr p -> (p =? 65535) = v) ->
  (length (poll_reports (polls update devs s)) <= 1)%nat
  /\ (power s = v -> poll_reports (polls update devs s) = []).
Proof.
  intros Hu Hv.
  rewrite (polls_reports update power Hu), notifications_length.
  pose proof (transitions_stable (power s) v _ (polls_observe_device update devs s v Hv))
    as [H1 H2].
  split; [exact H1|]. intros E. apply length_zero_iff_nil.
  rewrite notifications_length. exact (H2 E).
Qed.

Lemma getitem_at {A} (l : list A) (i : Z) x :
  0 <= i -> l !! Z.to_nat i = Some x -> getitem l i = inr x.
Proof.
  intros Hi H. unfold getitem, py_index.
  pose proof (lookup_lt_Some _ _ _ H) as Hlt.
  destruct (Z.leb_spec 0 i); [|lia].
  destruct (Z.ltb_spec i (Z.of_nat (length l))); [|lia].
  rewrite H. reflexivity.
Qed.

Lemma getitem_beyond {A} (l : list A) (i : Z) :
  0 <= i -> (length l <= Z.to_nat i)%nat -> getitem l i = inl IndexError.
Proof.
  intros Hi H. unfold getitem, py_index.
  destruct (Z.leb_spec 0 i); [|lia].
  destruct (Z.ltb_spec i (Z.of_nat (length l))); [lia|]. reflexivity.
Qed.

Lemma getitem_hsbk {A} (h sa b k : A) rest :
  getitem (h :: sa :: b :: k :: rest) 0 = inr h
  /\ getitem (h :: sa :: b :: k :: rest) 1 = inr sa
  /\ getitem (h :: sa :: b :: k :: rest) 2 = inr b
  /\ getitem (h :: sa :: b :: k :: rest) 3 = inr k.
Proof. repeat split; apply getitem_at; first [lia | reflexivity]. Qed.

Lemma reads_power_calls tr : reads_power tr = true -> In get_power (calls tr).
Proof.
  unfold reads_power, calls. induction tr as [|e tr IH]; cbn; [discriminate|].
  destruct e as [c| | | |]; cbn; try exact IH.
  destruct c; cbn; try (intros H; right; exact (IH H)). intros _. left. reflexivity.
Qed.

Lemma Light_update_observes dev s :
  observed_power (dev, Light.update dev s)
  = if Light_reaches_power dev then device_power dev else None.
Proof.
  destruct s as [pw conn col dur ir].
  unfold observed_power, Light_reaches_power, device_power.
  light_unfold. monad_unfold. cbn [fst snd].
  destruct (read_color dev) as [e|c]; [reflexivity|].
  destruct c as [|h [|sa [|b [|k rest]]]]; simpl; try reflexivity.
  destruct (getitem_hsbk h sa b k rest) as (G0 & G1 & G2 & G3).
  rewrite ?G0, ?G1, ?G2, ?G3. simpl.
  destruct (read_power dev) as [e|v]; simpl; [reflexivity|].
  destruct (v =? 65535), pw; simpl; rewrite ?G2; simpl; reflexivity.
Qed.

Lemma getitem_raises {A} (l : list A) i e : getitem l i = inl e -> e = IndexError.
Proof.
  unfold getitem. destruct (py_index _ _) as [n|]; [destruct (l !! n)|]; congruence.
Qed.

Lemma refresh_zones_returns dev zone s :
  returned (result (MultiZone.refresh_zones dev zone s))
  = (MultiZone.pending s ||
     match read_zones dev with
     | inl _ => true
     | inr zones =>
         match getitem zones zone with
         | inr c => (4 <=? length c)%nat
         | inl _ => false
         end
     end).
Proof.
  destruct s as [pw conn col dur nz cz pend].
  cbv [MultiZone.refresh_zones MultiZone.zone_color_at MultiZone.zone_color].
  monad_unfold. simpl.
  destruct pend; simpl; [reflexivity|].
  destruct (read_zones dev) as [e|zones]; simpl; [reflexivity|].
  cbv [MultiZone.with_color MultiZone.with_connected MultiZone.with_num_zones
       MultiZone.color MultiZone.power MultiZone.connected MultiZone.duration
       MultiZone.num_zones MultiZone.current_zone MultiZone.pending].
  destruct (getitem zones zone) as [e|c] eqn:Hg; simpl;
    [apply getitem_raises in Hg; subst e; reflexivity|].
  destruct c as [|h [|sa [|b [|k rest]]]].
  1-4: repeat (first
         [ rewrite Hg
         | match goal with
           | |- context [getitem (@nil ?A) ?i] =>
               change (getitem (@nil A) i) with (@inl exn A IndexError)
           | |- context [getitem (?x :: ?l) ?i] =>
               let r := eval vm_compute in (getitem (x :: l) i) in
               change (getitem (x :: l) i) with r
           end ]; simpl); reflexivity.
  destruct (getitem_hsbk h sa b k rest) as (G0 & G1 & G2 & G3).
  repeat (first [rewrite Hg | rewrite G0 | rewrite G1 | rewrite G2 | rewrite G3]; simpl).
  reflexivity.
Qed.

Lemma MultiZone_update_observes dev s :
  observed_power (dev, MultiZone.update dev s)
  = if MultiZone_reaches_power dev s then device_power dev else None.
Proof.
  unfold observed_power, MultiZone_reaches_power, device_power, MultiZone.update.
  cbv [bind modify get after setDriver emit]. cbn [fst snd result final trace].
  pose proof (refresh_zones_quiet dev (MultiZone.zone_of (MultiZone.current_zone s))
                (MultiZone.with_connected 0 s)) as Hq.
  pose proof (refresh_zones_returns dev (MultiZone.zone_of (MultiZone.current_zone s))
                (MultiZone.with_connected 0 s)) as Hr.
  cbv zeta in Hq. destruct Hq as (_ & Hq & _).
  change (MultiZone.pending (MultiZone.with_connected 0 s)) with (MultiZone.pending s) in Hr.
  change (MultiZone.current_zone (MultiZone.with_connected 0 s))
    with (MultiZone.current_zone s).
  rewrite <- Hr. clear Hr.
  destruct (MultiZone.refresh_zones _ _ _) as [[e|[]] s1 t1];
    cbn [result final trace returned] in *.
  - cbn [app]. rewrite Hq. reflexivity.
  - pose proof (refresh_power_notifies dev s1) as Hp. cbv zeta in Hp.
    destruct Hp as (_ & Hp & _).
    destruct (MultiZone.refresh_power dev s1) as [[e|[]] s2 t2];
      cbn [result final trace app] in *;
      rewrite ?reads_power_app, Hp, ?orb_true_r; reflexivity.
Qed.

Lemma refresh_zones_cursor dev zone s :
  let o := MultiZone.refresh_zones dev zone s in
  MultiZone.pending (final o) = MultiZone.pending s
  /\ MultiZone.current_zone (final o) = MultiZone.current_zone s.
Proof.
  destruct s as [pw conn col dur nz cz pend].
  cbv [MultiZone.refresh_zones MultiZone.zone_color_at MultiZone.zone_color].
  monad_unfold. simpl.
  repeat crush_step; simplify_eq/=; split; reflexivity.
Qed.

Lemma refresh_power_cursor dev s :
  let o := MultiZone.refresh_power dev s in
  MultiZone.pending (final o) = MultiZone.pending s
  /\ MultiZone.current_zone (final o) = MultiZone.current_zone s.
Proof.
  destruct s as [pw conn col dur nz cz pend].
  cbv [MultiZone.refresh_power MultiZone._set_st]. monad_unfold.
  destruct (read_power dev) as [e|v]; [simpl; split; reflexivity|].
  destruct (v =? 65535), pw; simpl;
    repeat crush_step; try discriminate; split; reflexivity.
Qed.

Lemma MultiZone_update_cursor dev s :
  let o := MultiZone.update dev s in
  MultiZone.pending (final o) = MultiZone.pending s
  /\ MultiZone.current_zone (final o) = MultiZone.current_zone s.
Proof.
  unfold MultiZone.update.
  cbv [bind modify get after setDriver emit]. cbn [result final trace].
  pose proof (refresh_zones_cursor dev (MultiZone.zone_of (MultiZone.current_zone s))
                (MultiZone.with_connected 0 s)) as Hz.
  cbv zeta in Hz.
  change (MultiZone.current_zone (MultiZone.with_connected 0 s))
    with (MultiZone.current_zone s) in *.
  change (MultiZone.pending (MultiZone.with_connected 0 s))
    with (MultiZone.pending s) in *.
  destruct (MultiZone.refresh_zones _ _ _) as [[e|[]] s1 t1];
    cbn [result final trace] in *; [exact Hz|].
  pose proof (refresh_power_cursor dev s1) as Hp. cbv zeta in Hp.
  destruct (MultiZone.refresh_power dev s1) as [[e|[]] s2 t2];
    cbn [result final trace] in *; destruct Hz, Hp; split; congruence.
Qed.

Lemma MultiZone_reaches_power_stable dev dev' s :
  MultiZone_reaches_power dev (final (MultiZone.update dev' s))
  = MultiZone_reaches_power dev s.
Proof.
  unfold MultiZone_reaches_power.
  destruct (MultiZone_update_cursor dev' s) as [-> ->]. reflexivity.
Qed.

Lemma Light_polls_observe devs s :
  Forall (fun dev => Light_reaches_power dev = true) devs ->
  map observed_power (polls Light.update devs s) = map device_power devs.
Proof.
  intros H. revert s. induction H as [|dev devs Hd _ IH]; intros s; [reflexivity|].
  cbn [polls map]. rewrite Light_update_observes, Hd, IH. reflexivity.
Qed.

Lemma MultiZone_polls_observe devs s :
  Forall (fun dev => MultiZone_reaches_power dev s = true) devs ->
  map observed_power (polls MultiZone.update devs s) = map device_power devs.
Proof.
  revert s. induction devs as [|dev devs IH]; intros s H; [reflexivity|].
  inversion H as [|? ? Hd Hrest]; subst.
  cbn [polls map]. rewrite MultiZone_update_observes, Hd, IH; [reflexivity|].
  eapply Forall_impl; [exact Hrest|]. intros d Hd'. cbn beta in *.
  rewrite MultiZone_reaches_power_stable. exact Hd'.
Qed.

(** C6. A refresh reads the power whenever it gets that far: for a bulb,
    when the colour read returned its four components; for a strip,
    unless the zone block raised.  When the read returns value p the
    refresh calls [get_power], emits DON or DOF exactly when
    (p = 65535) differs from the mirror, and the mirror then holds the
    value read; when the power is not read, or its read raises, nothing
    is emitted and the mirror is unchanged.  Over any run of polls the
    notifications are one per change of the value the devices report; if
    every value read is the same there is at most one notification, and
    none when the mirror already held that value.  This holds for bulbs
    and for strips. *)
Theorem power_notification_edge_triggered :
  (forall dev s, let o := Light.update dev s in
     (reports (trace o) <> [] <->
        exists v, observed_power (dev, o) = Some v /\ v <> Light.power s)
     /\ reports (trace o) = notifications (Light.power s) [observed_power (dev, o)]
     /\ Light.power (final o) = default (Light.power s) (observed_power (dev, o)))
  /\ (forall dev s, let o := MultiZone.update dev s in
     (reports (trace o) <> [] <->
        exists v, observed_power (dev, o) = Some v /\ v <> MultiZone.power s)
     /\ reports (trace o) = notifications (MultiZone.power s) [observed_power (dev, o)]
     /\ MultiZone.power (final o) = default (MultiZone.power s) (observed_power (dev, o)))
  /\ (forall devs s,
     poll_reports (polls Light.update devs s)
     = notifications (Light.power s) (map observed_power (polls Light.update devs s)))
  /\ (forall devs s,
     poll_reports (polls MultiZone.update devs s)
     = notifications (MultiZone.power s) (map observed_power (polls MultiZone.update devs s)))
  /\ (forall devs s v,
     (forall dev p, In dev devs -> read_power dev = inr p -> (p =? 65535) = v) ->
     (length (poll_reports (polls Light.update devs s)) <= 1)%nat
     /\ (Light.power s = v -> poll_reports (polls Light.update devs s) = []))
  /\ (forall devs s v,
     (forall dev p, In dev devs -> read_power dev = inr p -> (p =? 65535) = v) ->
     (length (poll_reports (polls MultiZone.update devs s)) <= 1)%nat
     /\ (MultiZone.power s = v -> poll_reports (polls MultiZone.update devs s) = []))
  /\ (forall dev s,
     observed_power (dev, Light.update dev s)
     = if Light_reaches_power dev then device_power dev else None)
  /\ (forall dev s,
     observed_power (dev, MultiZone.update dev s)
     = if MultiZone_reaches_power dev s then device_power dev else None)
  /\ (forall dev s p, let o := Light.update dev s in
     Light_reaches_power dev = true -> read_power dev = inr p ->
     In get_power (calls (trace o))
     /\ reports (trace o) = power_report (Light.power s) (p =? 65535)
     /\ Light.power (final o) = (p =? 65535))
  /\ (forall dev s p, let o := MultiZone.update dev s in
     MultiZone_reaches_power dev s = true -> read_power dev = inr p ->
     In get_power (calls (trace o))
     /\ reports (trace o) = power_report (MultiZone.power s) (p =? 65535)
     /\ MultiZone.power (final o) = (p =? 65535))
  /\ (forall dev s, let o := Light.update dev s in
     Light_reaches_power dev = false \/ device_power dev = None ->
     reports (trace o) = [] /\ Light.power (final o) = Light.power s)
  /\ (forall dev s, let o := MultiZone.update dev s in
     MultiZone_reaches_power dev s = false \/ device_power dev = None ->
     reports (trace o) = [] /\ MultiZone.power (final o) = MultiZone.power s)
  /\ (forall devs s,
     Forall (fun dev => Light_reaches_power dev = true) devs ->
     poll_reports (polls Light.update devs s)
     = notifications (Light.power s) (map device_power devs)
     /\ length (poll_reports (polls Light.update devs s))
        = transitions (Light.power s) (map device_power devs))
  /\ (forall devs s,
     Forall (fun dev => MultiZone_reaches_power dev s = true) devs ->
     poll_reports (polls MultiZone.update devs s)
     = notifications (MultiZone.power s) (map device_power devs)
     /\ length (poll_reports (polls MultiZone.update devs s))
        = transitions (MultiZone.power s) (map device_power devs)).
Proof.
  assert (Hread : forall S (o : outcome S unit) dev v,
            observed_power (dev, o) = Some v -> In get_power (calls (trace o))).
  { intros S o dev v H. unfold observed_power in H. cbn [fst snd] in H.
    destruct (reads_power (trace o)) eqn:E; [|discriminate].
    apply reads_power_calls. exact E. }
  repeat apply conj.
  - intros dev s o. destruct (Light_update_power dev s) as [R P].
    split; [|split; assumption]. fold o in R. rewrite R. apply notifications_single.
  - intros dev s o. destruct (MultiZone_update_power dev s) as [R P].
    split; [|split; assumption]. fold o in R. rewrite R. apply notifications_single.
  - intros devs s. apply (polls_reports Light.update Light.power Light_update_power).
  - intros devs s.
    apply (polls_reports MultiZone.update MultiZone.power MultiZone_update_power).
  - intros devs s v. apply (polls_stable Light.update Light.power).
    apply Light_update_power.
  - intros devs s v. apply (polls_stable MultiZone.update MultiZone.power).
    apply MultiZone_update_power.
  - apply Light_update_observes.
  - apply MultiZone_update_observes.
  - intros dev s p o Hreach Hp. destruct (Light_update_power dev s) as [R P].
    pose proof (Light_update_observes dev s) as Ho.
    unfold device_power in Ho. rewrite Hreach, Hp in Ho. fold o in R, P, Ho.
    rewrite Ho in R, P. cbn in R, P. rewrite app_nil_r in R.
    split; [eapply Hread; exact Ho|]. split; [exact R | exact P].
  - intros dev s p o Hreach Hp. destruct (MultiZone_update_power dev s) as [R P].
    pose proof (MultiZone_update_observes dev s) as Ho.
    unfold device_power in Ho. rewrite Hreach, Hp in Ho. fold o in R, P, Ho.
    rewrite Ho in R, P. cbn in R, P. rewrite app_nil_r in R.
    split; [eapply Hread; exact Ho|]. split; [exact R | exact P].
  - intros dev s o Hnot. destruct (Light_update_power dev s) as [R P].
    pose proof (Light_update_observes dev s) as Ho. fold o in R, P, Ho.
    assert (observed_power (dev, o) = None) as Hn.
    { rewrite Ho. destruct Hnot as [-> | ->]; [reflexivity|].
      destruct (Light_reaches_power dev); reflexivity. }
    rewrite Hn in R, P. split; assumption.
  - intros dev s o Hnot. destruct (MultiZone_update_power dev s) as [R P].
    pose proof (MultiZone_update_observes dev s) as Ho. fold o in R, P, Ho.
    assert (observed_power (dev, o) = None) as Hn.
    { rewrite Ho. destruct Hnot as [-> | ->]; [reflexivity|].
      destruct (MultiZone_reaches_power dev s); reflexivity. }
    rewrite Hn in R, P. split; assumption.
  - intros devs s H.
    rewrite (polls_reports Light.update Light.power Light_update_power),
      (Light_polls_observe devs s H).
    split; [reflexivity | apply notifications_length].
  - intros devs s H.
    rewrite (polls_reports MultiZone.update MultiZone.power MultiZone_update_power),
      (MultiZone_polls_observe devs s H).
    split; [reflexivity | apply notifications_length].
Qed.

Lemma power_notification_edge_triggered_witness :
  let devs := [lit_device 65535; lit_device 65535; lit_device 65535] in
  let run := [lit_device 65535; lit_device 0; lit_device 0; lit_device 65535] in
  (forall dev p, In dev devs -> read_power dev = inr p -> (p =? 65535) = true)
  /\ (length (poll_reports (polls Light.update devs dark_bulb)) <= 1)%nat
  /\ poll_reports (polls Light.update devs connected_bulb) = []
  /\ Forall (fun dev => Light_reaches_power dev = true) run
  /\ poll_reports (polls Light.update run dark_bulb) = ["DON"; "DOF"; "DON"].
Proof.
  intros devs run.
  assert (H : forall dev p, In dev devs -> read_power dev = inr p -> (p =? 65535) = true).
  { intros dev p [<- | [<- | [<- | []]]] E; simpl in E; inversion E; reflexivity. }
  assert (Hrun : Forall (fun dev => Light_reaches_power dev = true) run)
    by (repeat constructor).
  split; [exact H|].
  destruct power_notification_edge_triggered
    as (_ & _ & _ & _ & HL & _ & _ & _ & _ & _ & _ & _ & HR & _).
  split; [apply (HL devs dark_bulb true H)|].
  split; [apply (HL devs connected_bulb true H); reflexivity|].
  split; [exact Hrun|].
  destruct (HR run dark_bulb Hrun) as [E _]. rewrite E. reflexivity.
Defined.

(** ** Tile: save and recall *)

Ltac tile_unfold :=
  cbv [Tile.save_state Tile.recall_state Tile.with_cust_data Tile.with_self
       Tile.with_effect dict_get] in *.

Lemma save_state_cust_data dev command w :
  Tile.cust_data (final (Tile.save_state dev command w)) =
    match read_tilechain dev with
    | inl _ => Tile.cust_data w
    | inr colors =>
        let saved := default ∅ (Tile.cust_data w !! "saved_tile_colors") in
        let slots := default ∅ (saved !! Tile.address (Tile.self w)) in
        <["saved_tile_colors" :=
            <[Tile.address (Tile.self w) := <[str (value command) := colors]> slots]> saved]>
          (Tile.cust_data w)
    end.
Proof.
  destruct w as [cd tile]. tile_unfold. monad_unfold. simpl.
  destruct (read_tilechain dev) as [e|colors]; simpl; [reflexivity|].
  destruct (cd !! "saved_tile_colors") as [saved|] eqn:E1; simpl.
  - rewrite E1. simpl.
    destruct (saved !! Tile.address tile) as [slots|] eqn:E2; simpl.
    + rewrite E1. simpl. rewrite E2. simpl. reflexivity.
    + rewrite lookup_insert_eq. simpl. rewrite lookup_insert_eq. simpl.
      rewrite !insert_insert_eq. reflexivity.
  - rewrite lookup_insert_eq. simpl. rewrite lookup_empty. simpl.
    rewrite lookup_insert_eq. simpl. rewrite lookup_insert_eq. simpl.
    rewrite !insert_insert_eq. reflexivity.
Qed.

Lemma save_state_stores dev command w colors :
  read_tilechain dev = inr colors ->
  saved_colors (Tile.cust_data (final (Tile.save_state dev command w)))
    (Tile.address (Tile.self w)) (str (value command)) = Some colors.
Proof.
  intros H. rewrite save_state_cust_data, H. unfold saved_colors. simpl.
  by rewrite !lookup_insert_eq.
Qed.

Lemma save_state_keeps_others dev command w a slot :
  (a, slot) <> (Tile.address (Tile.self w), str (value command)) ->
  saved_colors (Tile.cust_data (final (Tile.save_state dev command w))) a slot
  = saved_colors (Tile.cust_data w) a slot.
Proof.
  intros Hne. rewrite save_state_cust_data.
  destruct (read_tilechain dev) as [e|colors]; [reflexivity|].
  unfold saved_colors. simpl. rewrite lookup_insert_eq.
  destruct (Tile.cust_data w !! "saved_tile_colors") as [saved|] eqn:E1; simpl.
  - destruct (decide (a = Tile.address (Tile.self w))) as [->|Ha].
    + rewrite lookup_insert_eq.
      destruct (saved !! Tile.address (Tile.self w)) as [slots|] eqn:E2; simpl.
      * rewrite lookup_insert_ne; [reflexivity | congruence].
      * rewrite lookup_insert_ne; [apply lookup_empty | congruence].
    + rewrite lookup_insert_ne; [reflexivity | congruence].
  - destruct (decide (a = Tile.address (Tile.self w))) as [->|Ha].
    + rewrite lookup_insert_eq. rewrite lookup_insert_ne; [apply lookup_empty | congruence].
    + rewrite lookup_insert_ne; [by rewrite lookup_empty | congruence].
Qed.

Lemma saves_keep_others l cd a slot :
  Forall (fun p => (a, slot) <> (Tile.address (fst (fst p)), str (value (snd p)))) l ->
  saved_colors (saves l cd) a slot = saved_colors cd a slot.
Proof.
  intros H. revert cd. induction H as [|[[tile dev] command] l Hne _ IH]; intros cd.
  - reflexivity.
  - simpl. rewrite IH. apply (save_state_keeps_others dev command
                               {| Tile.cust_data := cd; Tile.self := tile |}).
    exact Hne.
Qed.

(** The device calls of [recall_state] before the lookup: the running
    effect, if any, is stopped. *)
Definition stop_effect_call (w : Tile.world) : list dev_call :=
  if 0 <? Tile.effect (Tile.self w) then [set_tile_effect 0 3000 0 []] else [].

Lemma recall_state_found dev command w colors :
  saved_colors (Tile.cust_data w) (Tile.address (Tile.self w)) (str (value command))
    = Some colors ->
  calls (trace (Tile.recall_state dev command w))
  = (stop_effect_call w
     ++ [set_tilechain_colors colors (Light.duration (Tile.base (Tile.self w)))])%list
  /\ result (Tile.recall_state dev command w) = inr tt.
Proof.
  destruct w as [cd [base addr n eff]]. unfold saved_colors, stop_effect_call. simpl.
  intros H.
  destruct (cd !! "saved_tile_colors") as [saved|] eqn:E1; [|discriminate].
  destruct (saved !! addr) as [slots|] eqn:E2; [|discriminate].
  tile_unfold. monad_unfold. simpl.
  destruct (0 <? eff); simpl;
    [destruct (write dev (set_tile_effect 0 3000 0 [])) as [e|]; simpl|];
    rewrite E1; simpl; rewrite E2; simpl; rewrite H; simpl;
    repeat crush_step; split; reflexivity.
Qed.

Lemma recall_state_missing dev command w :
  saved_colors (Tile.cust_data w) (Tile.address (Tile.self w)) (str (value command))
    = None ->
  calls (trace (Tile.recall_state dev command w)) = stop_effect_call w
  /\ last (trace (Tile.recall_state dev command w))
     = Some (Log ERROR "Failed to retrieve saved tile colors")
  /\ result (Tile.recall_state dev command w) = inr tt.
Proof.
  destruct w as [cd [base addr n eff]]. unfold saved_colors, stop_effect_call. simpl.
  intros H. tile_unfold. monad_unfold. simpl.
  destruct (0 <? eff); simpl;
    [destruct (write dev (set_tile_effect 0 3000 0 [])) as [e|]; simpl|];
    (destruct (cd !! "saved_tile_colors") as [saved|]; simpl;
     [destruct (saved !! addr) as [slots|]; simpl; [rewrite H; simpl|]|]);
    repeat split; reflexivity.
Qed.

Lemma save_state_returns dev command w :
  result (Tile.save_state dev command w) = inr tt.
Proof.
  destruct w as [cd tile]. tile_unfold. monad_unfold. simpl.
  destruct (read_tilechain dev) as [e|colors]; simpl; [reflexivity|].
  destruct (cd !! "saved_tile_colors") as [saved|] eqn:E1; simpl.
  - rewrite E1. simpl.
    destruct (saved !! Tile.address tile) as [slots|] eqn:E2; simpl.
    + rewrite E1. simpl. rewrite E2. simpl. reflexivity.
    + rewrite lookup_insert_eq. simpl. rewrite lookup_insert_eq. reflexivity.
  - rewrite lookup_insert_eq. simpl. rewrite lookup_empty. simpl.
    rewrite lookup_insert_eq. simpl. rewrite lookup_insert_eq. reflexivity.
Qed.

Lemma color_writes_recall w c d :
  filter (fun c => is_color_write c = true)
    (stop_effect_call w ++ [set_tilechain_colors c d])%list = [set_tilechain_colors c d].
Proof. unfold stop_effect_call. destruct (0 <? _); reflexivity. Qed.

Lemma color_writes_stop w :
  filter (fun c => is_color_write c = true) (stop_effect_call w) = [].
Proof. unfold stop_effect_call. destruct (0 <? _); reflexivity. Qed.

(** C9. After a successful TILESV of a slot, and any number of other saves
    none of which is to the same (address, slot), TILERT of that slot by
    the tile at that address writes back exactly the colour array read at
    save time, with the node's default duration, as its only colour write.
    TILERT of a slot with no saved entry logs the failure, returns, and
    makes no colour write. *)
Theorem save_then_recall
    (w : Tile.world) (dev dev' : device) (colors : tile_colors)
    (others : list (Tile.t * device * command)) (tile' : Tile.t)
    (command command' : command)
    (Hread : read_tilechain dev = inr colors)
    (Hothers : Forall (fun p =>
       (Tile.address (Tile.self w), str (value command))
       <> (Tile.address (fst (fst p)), str (value (snd p)))) others)
    (Haddr : Tile.address tile' = Tile.address (Tile.self w))
    (Hslot : str (value command') = str (value command)) :
  let w1 := final (Tile.save_state dev command w) in
  let w2 := {| Tile.cust_data := saves others (Tile.cust_data w1); Tile.self := tile' |} in
  result (Tile.save_state dev command w) = inr tt
  /\ color_writes (trace (Tile.recall_state dev' command' w2))
     = [set_tilechain_colors colors (Light.duration (Tile.base tile'))]
  /\ (forall w0 dev0 command0,
        saved_colors (Tile.cust_data w0) (Tile.address (Tile.self w0)) (str (value command0))
          = None ->
        color_writes (trace (Tile.recall_state dev0 command0 w0)) = []
        /\ last (trace (Tile.recall_state dev0 command0 w0))
           = Some (Log ERROR "Failed to retrieve saved tile colors")
        /\ result (Tile.recall_state dev0 command0 w0) = inr tt).
Proof.
  intros w1 w2. split; [apply save_state_returns|]. split.
  - assert (Hsaved : saved_colors (Tile.cust_data w2) (Tile.address (Tile.self w2))
                       (str (value command')) = Some colors).
    { unfold w2. simpl. rewrite Haddr, Hslot.
      rewrite (saves_keep_others others _ _ _ Hothers).
      apply save_state_stores. exact Hread. }
    destruct (recall_state_found dev' command' w2 colors Hsaved) as [C _].
    unfold color_writes. rewrite C. apply color_writes_recall.
  - intros w0 dev0 command0 Hnone.
    destruct (recall_state_missing dev0 command0 w0 Hnone) as (C & L & R).
    unfold color_writes. rewrite C. split; [apply color_writes_stop|]. split; assumption.
Qed.

Lemma save_then_recall_witness :
  let w := {| Tile.cust_data := ∅; Tile.self := sample_tile "d073d5000001" |} in
  let others := [(sample_tile "d073d5000002", tile_device, value_command "TILESV" 1);
                 (sample_tile "d073d5000001", quiet_device, value_command "TILESV" 2)] in
  let w1 := final (Tile.save_state tile_device (value_command "TILESV" 1) w) in
  let w2 := {| Tile.cust_data := saves others (Tile.cust_data w1);
               Tile.self := sample_tile "d073d5000001" |} in
  read_tilechain tile_device = inr sample_tiles
  /\ color_writes (trace (Tile.recall_state quiet_device (value_command "TILERT" 1) w2))
     = [set_tilechain_colors sample_tiles 0].
Proof.
  intros w others w1 w2.
  assert (H1 : read_tilechain tile_device = inr sample_tiles) by reflexivity.
  assert (H2 : Forall (fun p =>
       (Tile.address (Tile.self w), str (value (value_command "TILESV" 1)))
       <> (Tile.address (fst (fst p)), str (value (snd p)))) others).
  { repeat constructor; simpl; intros E; inversion E. }
  split; [exact H1|].
  apply (save_then_recall w tile_device quiet_device sample_tiles others
           (sample_tile "d073d5000001") (value_command "TILESV" 1)
           (value_command "TILERT" 1) H1 H2 eq_refl eq_refl).
Defined.

(** ** Discovery *)

(** C1, the claim as stated fails: with a device list that lacks the bulbs
    section, the same run goes on to enumerate the LAN and registers what
    it finds. *)
Lemma manual_failure_falls_back :
  let o := Controller._discovery_process (Some "devices.yaml") no_bulbs_file
             one_bulb_lan fresh_controller in
  In get_lights (lan_calls (trace o))
  /\ Controller.nodes fresh_controller !! "d073d5000001" = None
  /\ Controller.nodes (final o) !! "d073d5000001" = Some (Controller.LightNode "LIFX Lamp")
  /\ Controller.nodes (final o) <> Controller.nodes fresh_controller.
Proof.
  intros o.
  assert (E : Controller.nodes (final o) !! "d073d5000001"
              = Some (Controller.LightNode "LIFX Lamp")) by (vm_compute; reflexivity).
  split; [vm_compute; tauto|]. split; [reflexivity|]. split; [exact E|].
  intros H. rewrite H in E. discriminate E.
Qed.

(** C1, amended. When manual discovery returns failure (unparsable
    content, or a mapping without the bulbs section) the cycle logs
    "Manual discovery failed" and continues with automatic discovery in the
    same run: its result, final state and remaining trace are those of
    automatic discovery from the same state, which begins by calling
    get_lights on the client. *)
Theorem manual_failure_continues
    (devlist : option string) (file : Controller.devlist_file)
    (net : Controller.lan) (s : Controller.t)
    (Hdev : Controller.truthy devlist = true)
    (Hfail : manual_returns_false file) :
  let o := Controller._discovery_process devlist file net s in
  let a := Controller.automatic_discovery net s in
  result o = result a
  /\ final o = final a
  /\ (exists msg,
        trace o = ([Log INFO "Starting LiFX Discovery thread...";
                    Log INFO "Attempting manual discovery...";
                    Log ERROR msg;
                    Log ERROR "Manual discovery failed"] ++ trace a)%list)
  /\ lan_calls (trace o) = lan_calls (trace a)
  /\ head (lan_calls (trace o)) = Some get_lights.
Proof.
  intros o a.
  assert (Ha : head (lan_calls (trace a)) = Some get_lights).
  { subst a. cbv [Controller.automatic_discovery Controller.lan_read].
    cbv [bind ret get modify emit raise lift try_ try_else after log setDriver
         Controller.report_bulbs_found].
    destruct (Controller.lights net) as [e|devices].
    - destruct (only [WorkflowException; OSError; TypeError] e); simpl; [|reflexivity].
      destruct (Controller.GV0 _) as [old|]; simpl;
        try destruct (negb _); reflexivity.
    - destruct (for_each devices _ _) as [[e|[]] s1 t1];
        [destruct (only [WorkflowException; OSError; TypeError] e); simpl; [|reflexivity]
        |simpl].
      all: destruct (Controller.GV0 _) as [old|]; simpl;
        try destruct (negb _); reflexivity. }
  assert (Hrun : exists msg,
     o = after [Log INFO "Starting LiFX Discovery thread...";
                Log INFO "Attempting manual discovery...";
                Log ERROR msg;
                Log ERROR "Manual discovery failed"] a).
  { subst o a. unfold Controller._discovery_process. rewrite Hdev.
    destruct Hfail as [-> | [groups ->]];
      cbv [Controller._manual_discovery]; monad_unfold; simpl;
      destruct (Controller.automatic_discovery net s) as [r s' t];
      eexists; reflexivity. }
  destruct Hrun as [msg Hrun]. rewrite Hrun.
  destruct a as [r s' t]. simpl in *.
  repeat split; try reflexivity; [exists msg; reflexivity | exact Ha].
Qed.

Lemma manual_failure_continues_witness :
  Controller.truthy (Some "devices.yaml") = true
  /\ manual_returns_false no_bulbs_file
  /\ head (lan_calls (trace (Controller._discovery_process (Some "devices.yaml")
                               no_bulbs_file one_bulb_lan fresh_controller)))
     = Some get_lights.
Proof.
  assert (H1 : Controller.truthy (Some "devices.yaml") = true) by reflexivity.
  assert (H2 : manual_returns_false no_bulbs_file) by (right; exists None; reflexivity).
  split; [exact H1|]. split; [exact H2|].
  apply (manual_failure_continues (Some "devices.yaml") no_bulbs_file one_bulb_lan
           fresh_controller H1 H2).
Defined.

(** The third way manual discovery can fail is left out of the statement
    above: when the file cannot be opened, the handler's own log call
    raises (it reads [self.paramaters]), and the exception ends the run
    before any enumeration. *)
Lemma missing_file_raises devlist net s :
  Controller.truthy devlist = true ->
  let o := Controller._discovery_process devlist Controller.OpenFails net s in
  result o = inl AttributeError /\ final o = s /\ lan_calls (trace o) = [].
Proof.
  intros Hdev. unfold Controller._discovery_process. rewrite Hdev.
  cbv [Controller._manual_discovery]. monad_unfold. simpl.
  repeat split; reflexivity.
Qed.

(** ** MultiZone: every operation follows the zone index *)

(** Evaluate a handler on a strip whose cursor zone holds a known colour. *)
Ltac zone_step Hg Ez :=
  first
    [ rewrite Hg
    | rewrite Ez
    | match goal with
      | |- context [getitem (?x :: ?l) ?i] =>
          let r := eval vm_compute in (getitem (x :: l) i) in
          change (getitem (x :: l) i) with r
      | |- context [setitem (?x :: ?l) ?i ?v] =>
          let r := eval vm_compute in (setitem (x :: l) i v) in
          change (setitem (x :: l) i v) with r
      | |- context [setitem ?col ?i ?x] =>
          let col' := fresh "col" in
          let E := fresh "E" in
          destruct (setitem_defined col i x _ Hg) as [col' E]; rewrite E
      | |- context [write ?d ?c] => destruct (write d c) as [?e|]
      | |- context [bool_decide ?P] => destruct (bool_decide P)
      | |- context [if ?c then _ else _] => destruct c
      | |- context [match ?x with inl _ => _ | inr _ => _ end] => destruct x
      | |- context [match ?x with Some _ => _ | None => _ end] => destruct x
      end ]; simpl.

(** Split on the zone index, and evaluate. *)
Ltac zone_run z Hg :=
  unfold first_write, spec_zone_call, spec_zone_index in *;
  mz_unfold; monad_unfold; unfold MultiZone.zone_of, MultiZone.zone_call;
  let Ez := fresh "Ez" in
  destruct (Z.eqb_spec z 0) as [Ez|Ez];
    [subst z; pose proof (eq_refl : (0 =? 0) = true) as Ez
    |apply Z.eqb_neq in Ez];
    simpl in *; repeat zone_step Hg Ez; try reflexivity.

Lemma zone_dim dev s z h sa b k :
  MultiZone.current_zone s = z ->
  getitem (MultiZone.color s) (spec_zone_index z) = inr [h; sa; b; k] ->
  first_write (MultiZone.dim dev s)
  = Some (spec_zone_call z [h; sa; Z.max BR_MIN (b - BR_INCREMENT); k] BRTDIM_INTERVAL).
Proof.
  intros Hcz Hg. destruct s as [pw conn col dur nz cz pend]. cbn in Hcz, Hg. subst cz.
  replace (Z.max BR_MIN (b - BR_INCREMENT))
    with (if b - BR_INCREMENT <? BR_MIN then BR_MIN else b - BR_INCREMENT)
    by (destruct (Z.ltb_spec (b - BR_INCREMENT) BR_MIN); lia).
  destruct pw; zone_run z Hg.
Qed.

Lemma zone_brighten dev s z h sa b k :
  MultiZone.current_zone s = z ->
  getitem (MultiZone.color s) (spec_zone_index z) = inr [h; sa; b; k] ->
  first_write (MultiZone.brighten dev s)
  = Some (if MultiZone.power s
          then spec_zone_call z [h; sa; Z.min BR_MAX (b + BR_INCREMENT); k] BRTDIM_INTERVAL
          else spec_zone_call z [h; sa; BR_MIN; k] 0).
Proof.
  intros Hcz Hg. destruct s as [pw conn col dur nz cz pend]. cbn in Hcz, Hg. subst cz.
  replace (Z.min BR_MAX (b + BR_INCREMENT))
    with (if BR_MAX <? b + BR_INCREMENT then BR_MAX else b + BR_INCREMENT)
    by (destruct (Z.ltb_spec BR_MAX (b + BR_INCREMENT)); lia).
  destruct pw; zone_run z Hg.
Qed.

Lemma zone_fade_up dev s z h sa b k :
  MultiZone.current_zone s = z ->
  getitem (MultiZone.color s) (spec_zone_index z) = inr [h; sa; b; k] ->
  MultiZone.power s = true -> b <> BR_MAX ->
  first_write (MultiZone.fade_up dev s)
  = Some (spec_zone_call z [h; sa; BR_MAX; k] FADE_INTERVAL).
Proof.
  intros Hcz Hg Hp Hb. destruct s as [pw conn col dur nz cz pend].
  cbn in Hcz, Hg, Hp. subst cz pw. apply Z.eqb_neq in Hb.
  unfold first_write, spec_zone_call, spec_zone_index in *.
  mz_unfold. monad_unfold. unfold MultiZone.zone_of, MultiZone.zone_call.
  destruct (Z.eqb_spec z 0) as [Ez|Ez];
    [subst z; pose proof (eq_refl : (0 =? 0) = true) as Ez | apply Z.eqb_neq in Ez];
    simpl in *; repeat first [rewrite Hb; simpl | zone_step Hg Ez]; reflexivity.
Qed.

Lemma zone_fade_down dev s z h sa b k :
  MultiZone.current_zone s = z ->
  getitem (MultiZone.color s) (spec_zone_index z) = inr [h; sa; b; k] ->
  MultiZone.power s = true -> BR_MIN < b ->
  first_write (MultiZone.fade_down dev s)
  = Some (spec_zone_call z [h; sa; BR_MIN; k] FADE_INTERVAL).
Proof.
  intros Hcz Hg Hp Hb. destruct s as [pw conn col dur nz cz pend].
  cbn in Hcz, Hg, Hp. subst cz pw. apply Z.leb_gt in Hb.
  unfold first_write, spec_zone_call, spec_zone_index in *.
  mz_unfold. monad_unfold. unfold MultiZone.zone_of, MultiZone.zone_call.
  destruct (Z.eqb_spec z 0) as [Ez|Ez];
    [subst z; pose proof (eq_refl : (0 =? 0) = true) as Ez | apply Z.eqb_neq in Ez];
    simpl in *; repeat first [rewrite Hb; simpl | zone_step Hg Ez]; reflexivity.
Qed.

Lemma zone_setOn_level dev s z h sa b k v :
  MultiZone.current_zone s = z ->
  getitem (MultiZone.color s) (spec_zone_index z) = inr [h; sa; b; k] ->
  0 <= v <= 255 ->
  first_write (MultiZone.setOn dev (value_command "DON" v) s)
  = Some (spec_zone_call z [h; sa; Z.max BR_MIN (257 * v); k] (MultiZone.duration s)).
Proof.
  intros Hcz Hg Hv. destruct s as [pw conn col dur nz cz pend]. cbn in Hcz, Hg. subst cz.
  assert (Hclamp : clamp (round_div (v * 65535) 255) = Z.max BR_MIN (257 * v)).
  { rewrite round_div_scale. unfold clamp, BR_MAX, BR_MIN.
    destruct (Z.ltb_spec 65535 (v * 257)); [lia|].
    destruct (Z.ltb_spec (v * 257) 1310); lia. }
  unfold first_write, spec_zone_call, spec_zone_index in *.
  mz_unfold. monad_unfold. unfold MultiZone.zone_of, MultiZone.zone_call.
  destruct (Z.eqb_spec z 0) as [Ez|Ez];
    [subst z; pose proof (eq_refl : (0 =? 0) = true) as Ez | apply Z.eqb_neq in Ez];
    simpl in *; rewrite Hclamp; repeat zone_step Hg Ez; reflexivity.
Qed.

Lemma zone_setOn_full dev s z h sa b k :
  MultiZone.current_zone s = z ->
  getitem (MultiZone.color s) (spec_zone_index z) = inr [h; sa; b; k] ->
  b <> BR_MAX ->
  first_write (MultiZone.setOn dev (plain_command "DFON") s)
  = Some (spec_zone_call z [h; sa; BR_MAX; k] 0).
Proof.
  intros Hcz Hg Hb. destruct s as [pw conn col dur nz cz pend]. cbn in Hcz, Hg. subst cz.
  apply Z.eqb_neq in Hb.
  unfold first_write, spec_zone_call, spec_zone_index in *.
  mz_unfold. monad_unfold. unfold MultiZone.zone_of, MultiZone.zone_call.
  destruct (Z.eqb_spec z 0) as [Ez|Ez];
    [subst z; pose proof (eq_refl : (0 =? 0) = true) as Ez | apply Z.eqb_neq in Ez];
    simpl in *; repeat first [rewrite Hb; simpl | zone_step Hg Ez]; reflexivity.
Qed.

Lemma zone_setColor dev s z i name hsbk :
  MultiZone.current_zone s = z ->
  MultiZone.connected s <> 0 -> COLORS i = Some (name, hsbk) ->
  first_write (MultiZone.setColor dev (value_command "SET_COLOR" i) s)
  = Some (spec_zone_call z hsbk (MultiZone.duration s)).
Proof.
  intros Hcz Hc Hpre. destruct s as [pw conn col dur nz cz pend]. cbn in Hcz, Hc. subst cz.
  apply Z.eqb_neq in Hc.
  unfold first_write, spec_zone_call, spec_zone_index in *.
  mz_unfold. monad_unfold. unfold MultiZone.zone_of, MultiZone.zone_call.
  destruct (Z.eqb_spec z 0) as [Ez|Ez];
    [subst z; pose proof (eq_refl : (0 =? 0) = true) as Ez | apply Z.eqb_neq in Ez];
    simpl in *; rewrite Hc; simpl; rewrite !Hpre; simpl;
    repeat first [rewrite Hpre; simpl | zone_step Hpre Ez]; reflexivity.
Qed.

Lemma zone_setManual dev s z h sa b k v :
  MultiZone.current_zone s = z ->
  getitem (MultiZone.color s) (spec_zone_index z) = inr [h; sa; b; k] ->
  MultiZone.connected s <> 0 ->
  first_write (MultiZone.setManual dev (value_command "SETH" v) s)
    = Some (spec_zone_call z [v; sa; b; k] (MultiZone.duration s))
  /\ first_write (MultiZone.setManual dev (value_command "SETS" v) s)
    = Some (spec_zone_call z [h; v; b; k] (MultiZone.duration s))
  /\ first_write (MultiZone.setManual dev (value_command "SETB" v) s)
    = Some (spec_zone_call z [h; sa; v; k] (MultiZone.duration s))
  /\ first_write (MultiZone.setManual dev (value_command "CLITEMP" v) s)
    = Some (spec_zone_call z [h; sa; b; v] (MultiZone.duration s))
  /\ first_write (MultiZone.setManual dev (value_command "RR" v) s)
    = Some (spec_zone_call z [h; sa; b; k] v).
Proof.
  intros Hcz Hg Hc. destruct s as [pw conn col dur nz cz pend]. cbn in Hcz, Hg, Hc. subst cz.
  apply Z.eqb_neq in Hc.
  unfold first_write, spec_zone_call, spec_zone_index in *.
  mz_unfold. monad_unfold. unfold MultiZone.zone_of, MultiZone.zone_call.
  destruct (Z.eqb_spec z 0) as [Ez|Ez];
    [subst z; pose proof (eq_refl : (0 =? 0) = true) as Ez | apply Z.eqb_neq in Ez];
    simpl in *; rewrite Hc; simpl;
    repeat split; repeat zone_step Hg Ez; reflexivity.
Qed.

Lemma zone_fade_stop dev s z zones h sa b k :
  MultiZone.current_zone s = z ->
  read_zones dev = inr zones ->
  getitem zones (spec_zone_index z) = inr [h; sa; b; k] ->
  MultiZone.power s = true -> b <> BR_MIN -> b <> BR_MAX ->
  first_write (MultiZone.fade_stop dev s) = Some (spec_zone_call z [h; sa; b; k] 0).
Proof.
  intros Hcz Hr Hg Hp Hmin Hmax. destruct s as [pw conn col dur nz cz pend].
  cbn in Hcz, Hp. subst cz pw. apply Z.eqb_neq in Hmin, Hmax.
  unfold first_write, spec_zone_call, spec_zone_index in *.
  mz_unfold. monad_unfold. unfold MultiZone.zone_of, MultiZone.zone_call.
  rewrite Hr.
  destruct (Z.eqb_spec z 0) as [Ez|Ez];
    [subst z; pose proof (eq_refl : (0 =? 0) = true) as Ez | apply Z.eqb_neq in Ez];
    simpl in *;
    repeat first [rewrite Hmin; simpl | rewrite Hmax; simpl | zone_step Hg Ez];
    reflexivity.
Qed.

Lemma zone_update dev s z zones h sa b k :
  MultiZone.current_zone s = z ->
  read_zones dev = inr zones ->
  getitem zones (spec_zone_index z) = inr [h; sa; b; k] ->
  MultiZone.pending s = false ->
  exists rest,
    driver_updates (trace (MultiZone.update dev s))
    = ("GV1", DInt h) :: ("GV2", DInt sa) :: ("GV3", DInt b) :: ("CLITEMP", DInt k)
        :: ("GV4", DInt z) :: rest.
Proof.
  intros Hcz Hr Hg Hp. destruct s as [pw conn col dur nz cz pend].
  cbn in Hcz, Hp. subst cz pend.
  unfold spec_zone_index in *.
  mz_unfold. monad_unfold. unfold MultiZone.zone_of.
  rewrite Hr.
  destruct (Z.eqb_spec z 0) as [Ez|Ez];
    [subst z; pose proof (eq_refl : (0 =? 0) = true) as Ez | apply Z.eqb_neq in Ez];
    simpl in *; repeat zone_step Hg Ez; eexists; reflexivity.
Qed.

Lemma zone_setHSBKDZ dev command bt z arr0 arr hh ss bb kk :
  query command "Z.uom56" = Some z ->
  query command "H.uom56" = Some hh -> query command "S.uom56" = Some ss ->
  query command "B.uom56" = Some bb -> query command "K.uom26" = Some kk ->
  batch_array bt = Some arr0 ->
  setitem arr0 (spec_zone_index z) [hh; ss; bb; kk] = inr arr ->
  let o := MultiZone.setHSBKDZ dev command bt in
  MultiZone.new_color (final o) = Some arr
  /\ first_write o
     = Some (spec_zone_array_call z arr (default 0 (query command "D.uom42"))).
Proof.
  intros Hz Hh Hs Hb Hk Ha Hset. cbv zeta.
  destruct bt as [[pw conn col dur nz cz pend] nc].
  unfold batch_array in Ha. cbn in Ha.
  unfold first_write, spec_zone_array_call, spec_zone_index in *.
  unfold MultiZone.setHSBKDZ. rewrite Hz, Hh, Hs, Hb, Hk.
  monad_unfold. unfold MultiZone.zone_of.
  destruct (Z.eqb_spec z 0) as [Ez|Ez];
    [subst z; pose proof (eq_refl : (0 =? 0) = true) as Ez | apply Z.eqb_neq in Ez];
    destruct pend; simpl in *; simplify_eq; simpl;
    repeat first [rewrite Ez; simpl | rewrite Hset; simpl];
    destruct (query command "D.uom42") as [d|]; simpl;
    repeat zone_step Hset Ez; split; reflexivity.
Qed.

Lemma zone_setManual_SETZ dev s z c :
  0 <= z -> z <= MultiZone.num_zones s ->
  getitem (MultiZone.color s) (spec_zone_index z) = inr c ->
  MultiZone.connected s <> 0 ->
  let o := MultiZone.setManual dev (value_command "SETZ" z) s in
  MultiZone.current_zone (final o) = z
  /\ first_write o = Some (spec_zone_call z c (MultiZone.duration s)).
Proof.
  intros Hz Hn Hg Hc. cbv zeta. destruct s as [pw conn col dur nz cz pend].
  cbn in Hn, Hg, Hc. apply Z.eqb_neq in Hc.
  assert (Hlt : (nz <? z) = false) by (apply Z.ltb_ge; lia).
  unfold first_write, spec_zone_call, spec_zone_index in *.
  mz_unfold. monad_unfold. unfold MultiZone.zone_of, MultiZone.zone_call.
  destruct (Z.eqb_spec z 0) as [Ez|Ez];
    [subst z; pose proof (eq_refl : (0 =? 0) = true) as Ez | apply Z.eqb_neq in Ez];
    simpl in *; rewrite Hc; simpl; rewrite Hlt; simpl;
    repeat first [rewrite Hlt; simpl | zone_step Hg Ez]; split; reflexivity.
Qed.

(** C4. For a zone index z >= 0, z = 0 selects the whole-device call and
    z > 0 the single-zone call on internal index z - 1; the translation is
    injective on z > 0, with inverse "add one".  Every operation of a
    strip that uses a zone index follows it: with the cursor on z, the
    field edits, SET_COLOR, DON with a level, DFON, DIM, BRT, FDUP and
    FDDOWN take the colour of internal zone z - 1 (the first zone when
    z = 0) from the mirror and send their colour with the call so
    selected; SETZ = z moves the cursor to z and sends that zone's colour
    with the call so selected; FDSTOP and the poll take that zone from the array the
    device returns, FDSTOP sending it back with the call so selected and
    the poll reporting it through GV1, GV2, GV3 and CLITEMP, with z itself
    through GV4; and SET_HSBKDZ, whose zone comes with the command, stores
    its colour at that internal index of the pending array and sends the
    array with the call so selected. *)
Theorem zone_cursor_mapping (z : Z) (Hz : 0 <= z) :
  (z = 0 -> forall c d,
     MultiZone.zone_call z (MultiZone.zone_of z) c d = set_color c d)
  /\ (0 < z -> MultiZone.zone_of z = z - 1 /\ forall c d,
     MultiZone.zone_call z (MultiZone.zone_of z) c d = set_zone_color (z - 1) (z - 1) c d)
  /\ (forall z', 0 < z -> 0 < z' ->
     MultiZone.zone_of z = MultiZone.zone_of z' -> z = z')
  /\ (0 < z -> MultiZone.zone_of z + 1 = z)
  /\ (forall dev s v c newc,
     MultiZone.connected s <> 0 -> MultiZone.current_zone s = z ->
     getitem (MultiZone.color s) (MultiZone.zone_of z) = inr c ->
     setitem c 2 v = inr newc ->
     writes (trace (MultiZone.setManual dev (value_command "SETB" v) s)) =
       [if z =? 0 then set_color newc (MultiZone.duration s)
        else set_zone_color (z - 1) (z - 1) newc (MultiZone.duration s)])
  /\ (forall dev s h sa b k,
     MultiZone.current_zone s = z ->
     getitem (MultiZone.color s) (spec_zone_index z) = inr [h; sa; b; k] ->
     (forall v, MultiZone.connected s <> 0 ->
        first_write (MultiZone.setManual dev (value_command "SETH" v) s)
          = Some (spec_zone_call z [v; sa; b; k] (MultiZone.duration s))
        /\ first_write (MultiZone.setManual dev (value_command "SETS" v) s)
          = Some (spec_zone_call z [h; v; b; k] (MultiZone.duration s))
        /\ first_write (MultiZone.setManual dev (value_command "SETB" v) s)
          = Some (spec_zone_call z [h; sa; v; k] (MultiZone.duration s))
        /\ first_write (MultiZone.setManual dev (value_command "CLITEMP" v) s)
          = Some (spec_zone_call z [h; sa; b; v] (MultiZone.duration s))
        /\ first_write (MultiZone.setManual dev (value_command "RR" v) s)
          = Some (spec_zone_call z [h; sa; b; k] v))
     /\ (forall v, 0 <= v <= 255 ->
        first_write (MultiZone.setOn dev (value_command "DON" v) s)
          = Some (spec_zone_call z [h; sa; Z.max BR_MIN (257 * v); k]
                    (MultiZone.duration s)))
     /\ (b <> BR_MAX ->
        first_write (MultiZone.setOn dev (plain_command "DFON") s)
          = Some (spec_zone_call z [h; sa; BR_MAX; k] 0))
     /\ first_write (MultiZone.dim dev s)
        = Some (spec_zone_call z [h; sa; Z.max BR_MIN (b - BR_INCREMENT); k]
                  BRTDIM_INTERVAL)
     /\ first_write (MultiZone.brighten dev s)
        = Some (if MultiZone.power s
                then spec_zone_call z [h; sa; Z.min BR_MAX (b + BR_INCREMENT); k]
                       BRTDIM_INTERVAL
                else spec_zone_call z [h; sa; BR_MIN; k] 0)
     /\ (MultiZone.power s = true -> b <> BR_MAX ->
        first_write (MultiZone.fade_up dev s)
          = Some (spec_zone_call z [h; sa; BR_MAX; k] FADE_INTERVAL))
     /\ (MultiZone.power s = true -> BR_MIN < b ->
        first_write (MultiZone.fade_down dev s)
          = Some (spec_zone_call z [h; sa; BR_MIN; k] FADE_INTERVAL)))
  /\ (forall dev s c,
     z <= MultiZone.num_zones s ->
     getitem (MultiZone.color s) (spec_zone_index z) = inr c ->
     MultiZone.connected s <> 0 ->
     let o := MultiZone.setManual dev (value_command "SETZ" z) s in
     MultiZone.current_zone (final o) = z
     /\ first_write o = Some (spec_zone_call z c (MultiZone.duration s)))
  /\ (forall dev s i name hsbk,
     MultiZone.current_zone s = z ->
     MultiZone.connected s <> 0 -> COLORS i = Some (name, hsbk) ->
     first_write (MultiZone.setColor dev (value_command "SET_COLOR" i) s)
       = Some (spec_zone_call z hsbk (MultiZone.duration s)))
  /\ (forall dev s zones h sa b k,
     MultiZone.current_zone s = z ->
     read_zones dev = inr zones ->
     getitem zones (spec_zone_index z) = inr [h; sa; b; k] ->
     (MultiZone.power s = true -> b <> BR_MIN -> b <> BR_MAX ->
        first_write (MultiZone.fade_stop dev s)
          = Some (spec_zone_call z [h; sa; b; k] 0))
     /\ (MultiZone.pending s = false ->
        exists rest,
          driver_updates (trace (MultiZone.update dev s))
          = ("GV1", DInt h) :: ("GV2", DInt sa) :: ("GV3", DInt b)
              :: ("CLITEMP", DInt k) :: ("GV4", DInt z) :: rest))
  /\ (forall dev command bt arr0 arr h sa b k,
     query command "Z.uom56" = Some z ->
     query command "H.uom56" = Some h -> query command "S.uom56" = Some sa ->
     query command "B.uom56" = Some b -> query command "K.uom26" = Some k ->
     batch_array bt = Some arr0 ->
     setitem arr0 (spec_zone_index z) [h; sa; b; k] = inr arr ->
     let o := MultiZone.setHSBKDZ dev command bt in
     MultiZone.new_color (final o) = Some arr
     /\ first_write o
        = Some (spec_zone_array_call z arr (default 0 (query command "D.uom42")))).
Proof.
  repeat apply conj.
  - intros -> c d. reflexivity.
  - intros Hpos. split.
    + rewrite zone_of_spec. destruct (Z.eqb_spec z 0); lia.
    + intros c d. unfold MultiZone.zone_call. rewrite zone_of_spec.
      destruct (Z.eqb_spec z 0); [lia | reflexivity].
  - intros z' H1 H2. rewrite !zone_of_spec.
    destruct (Z.eqb_spec z 0), (Z.eqb_spec z' 0); lia.
  - intros Hpos. rewrite zone_of_spec. destruct (Z.eqb_spec z 0); lia.
  - intros dev s v c newc Hc Hcz Hg Hs. subst z.
    rewrite (setManual_SETB_writes dev s v c newc Hc Hg Hs).
    unfold MultiZone.zone_call. rewrite zone_of_spec.
    destruct (Z.eqb_spec (MultiZone.current_zone s) 0); reflexivity.
  - intros dev s h sa b k Hcz Hg. repeat apply conj.
    + intros v Hc. apply (zone_setManual dev s z h sa b k v Hcz Hg Hc).
    + intros v Hv. apply (zone_setOn_level dev s z h sa b k v Hcz Hg Hv).
    + intros Hb. apply (zone_setOn_full dev s z h sa b k Hcz Hg Hb).
    + apply (zone_dim dev s z h sa b k Hcz Hg).
    + apply (zone_brighten dev s z h sa b k Hcz Hg).
    + intros Hp Hb. apply (zone_fade_up dev s z h sa b k Hcz Hg Hp Hb).
    + intros Hp Hb. apply (zone_fade_down dev s z h sa b k Hcz Hg Hp Hb).
  - intros dev s c Hn Hg Hc.
    apply (zone_setManual_SETZ dev s z c Hz Hn Hg Hc).
  - intros dev s i name hsbk Hcz Hc Hpre.
    apply (zone_setColor dev s z i name hsbk Hcz Hc Hpre).
  - intros dev s zones h sa b k Hcz Hr Hg. split.
    + intros Hp Hmin Hmax.
      apply (zone_fade_stop dev s z zones h sa b k Hcz Hr Hg Hp Hmin Hmax).
    + intros Hp. apply (zone_update dev s z zones h sa b k Hcz Hr Hg Hp).
  - intros dev command bt arr0 arr h sa b k Hq Hh Hs Hb Hk Ha Hset.
    apply (zone_setHSBKDZ dev command bt z arr0 arr h sa b k Hq Hh Hs Hb Hk Ha Hset).
Qed.

Lemma zone_cursor_mapping_witness :
  0 <= 3 /\ MultiZone.zone_of 3 = 2 /\
  MultiZone.zone_call 3 (MultiZone.zone_of 3) [0; 0; 40000; 3500] 0
    = set_zone_color 2 2 [0; 0; 40000; 3500] 0 /\
  first_write (MultiZone.dim quiet_device zone3_strip)
    = Some (set_zone_color 2 2 [0; 0; Z.max BR_MIN (300 - BR_INCREMENT); 3500]
              BRTDIM_INTERVAL) /\
  (exists rest,
     driver_updates (trace (MultiZone.update strip_device zone3_strip))
     = ("GV1", DInt 0) :: ("GV2", DInt 0) :: ("GV3", DInt 300)
         :: ("CLITEMP", DInt 3500) :: ("GV4", DInt 3) :: rest) /\
  first_write (MultiZone.setHSBKDZ quiet_device (hsbkdz_command 3)
                 {| MultiZone.node := zone3_strip; MultiZone.new_color := None |})
    = Some (set_zone_color_array 2 2
              [[0; 0; 100; 3500]; [0; 0; 200; 3500];
               [62978; 65535; 65535; 3500]; [0; 0; 400; 3500]] 0).
Proof.
  assert (H : 0 <= 3) by lia.
  destruct (zone_cursor_mapping 3 H) as (_ & H2 & _ & _ & _ & H6 & _ & _ & H9 & H10).
  destruct (H2 ltac:(lia)) as [E1 E2].
  split; [exact H|]. split; [exact E1|]. split; [apply E2|].
  destruct (H6 quiet_device zone3_strip 0 0 300 3500 eq_refl eq_refl)
    as (_ & _ & _ & Hdim & _).
  split; [exact Hdim|].
  destruct (H9 strip_device zone3_strip (MultiZone.color zone3_strip) 0 0 300 3500
              eq_refl eq_refl eq_refl) as [_ Hupd].
  split; [exact (Hupd eq_refl)|].
  destruct (H10 quiet_device (hsbkdz_command 3)
              {| MultiZone.node := zone3_strip; MultiZone.new_color := None |}
              (MultiZone.color zone3_strip)
              [[0; 0; 100; 3500]; [0; 0; 200; 3500];
               [62978; 65535; 65535; 3500]; [0; 0; 400; 3500]]
              62978 65535 65535 3500 eq_refl eq_refl eq_refl eq_refl eq_refl
              eq_refl eq_refl) as [_ Hw].
  exact Hw.
Defined.

(** * Further properties *)

(** ** Composing computations *)

Section Keeps.
Context {S : Type} (R : S -> S -> Prop) `{!PreOrder R}.

Lemma keeps_ret {A} (a : A) : keeps R (ret a).
Proof. intros s. simpl. reflexivity. Qed.

Lemma keeps_raise {A} e : keeps R (@raise S A e).
Proof. intros s. simpl. reflexivity. Qed.

Lemma keeps_get : keeps R (@get S).
Proof. intros s. simpl. reflexivity. Qed.

Lemma keeps_emit e : keeps R (@emit S e).
Proof. intros s. simpl. reflexivity. Qed.

Lemma keeps_lift {A} (r : exn + A) : keeps R (@lift S A r).
Proof. destruct r; [apply keeps_raise | apply keeps_ret]. Qed.

Lemma keeps_modify f : (forall s, R s (f s)) -> keeps R (modify f).
Proof. intros H s. apply H. Qed.

Lemma keeps_bind {A B} (m : M S A) (k : A -> M S B) :
  keeps R m -> (forall a, keeps R (k a)) -> keeps R (bind m k).
Proof.
  intros Hm Hk s. unfold bind. specialize (Hm s).
  destruct (m s) as [[e|a] s' tr]; simpl in *; [exact Hm|].
  specialize (Hk a s'). destruct (k a s') as [r s'' tr']. simpl in *.
  etransitivity; eassumption.
Qed.

Lemma keeps_try_else {A B} (body : M S A) catches (handler : exn -> M S B) orelse :
  keeps R body -> (forall e, keeps R (handler e)) -> (forall a, keeps R (orelse a)) ->
  keeps R (try_else body catches handler orelse).
Proof.
  intros Hb Hh Ho s. unfold try_else. specialize (Hb s).
  destruct (body s) as [[e|a] s' tr]; simpl in *.
  - destruct (catches e); simpl; [|exact Hb].
    specialize (Hh e s'). destruct (handler e s') as [r s'' tr']. simpl in *.
    etransitivity; eassumption.
  - specialize (Ho a s'). destruct (orelse a s') as [r s'' tr']. simpl in *.
    etransitivity; eassumption.
Qed.

Lemma keeps_try {A} (body : M S A) catches handler :
  keeps R body -> (forall e, keeps R (handler e)) -> keeps R (try_ body catches handler).
Proof. intros Hb Hh. apply keeps_try_else; [assumption | assumption | apply keeps_ret]. Qed.

Lemma keeps_for_each {A} (l : list A) (body : A -> M S unit) :
  (forall x, In x l -> keeps R (body x)) -> keeps R (for_each l body).
Proof.
  induction l as [|x l IH]; intros H; simpl.
  - apply keeps_ret.
  - apply keeps_bind; [apply H; by left|]. intros _. apply IH.
    intros y Hy. apply H. by right.
Qed.
End Keeps.

Section Emits.
Context {S : Type} (P : event -> Prop).

Lemma emits_ret {A} (a : A) : emits P (@ret S A a).
Proof. intros s. constructor. Qed.

Lemma emits_raise {A} e : emits P (@raise S A e).
Proof. intros s. constructor. Qed.

Lemma emits_get : emits P (@get S).
Proof. intros s. constructor. Qed.

Lemma emits_modify f : emits P (@modify S f).
Proof. intros s. constructor. Qed.

Lemma emits_lift {A} (r : exn + A) : emits P (@lift S A r).
Proof. destruct r; [apply emits_raise | apply emits_ret]. Qed.

Lemma emits_emit e : P e -> emits P (@emit S e).
Proof. intros H s. simpl. by repeat constructor. Qed.

Lemma emits_bind {A B} (m : M S A) (k : A -> M S B) :
  emits P m -> (forall a, emits P (k a)) -> emits P (bind m k).
Proof.
  intros Hm Hk s. unfold bind. specialize (Hm s).
  destruct (m s) as [[e|a] s' tr]; simpl in *; [exact Hm|].
  specialize (Hk a s'). destruct (k a s') as [r s'' tr']. simpl in *.
  by apply Forall_app.
Qed.

Lemma emits_try_else {A B} (body : M S A) catches (handler : exn -> M S B) orelse :
  emits P body -> (forall e, emits P (handler e)) -> (forall a, emits P (orelse a)) ->
  emits P (try_else body catches handler orelse).
Proof.
  intros Hb Hh Ho s. unfold try_else. specialize (Hb s).
  destruct (body s) as [[e|a] s' tr]; simpl in *.
  - destruct (catches e); simpl; [|exact Hb].
    specialize (Hh e s'). destruct (handler e s') as [r s'' tr']. simpl in *.
    by apply Forall_app.
  - specialize (Ho a s'). destruct (orelse a s') as [r s'' tr']. simpl in *.
    by apply Forall_app.
Qed.

Lemma emits_try {A} (body : M S A) catches handler :
  emits P body -> (forall e, emits P (handler e)) -> emits P (try_ body catches handler).
Proof. intros Hb Hh. apply emits_try_else; [assumption | assumption | apply emits_ret]. Qed.

Lemma emits_for_each {A} (l : list A) (body : A -> M S unit) :
  (forall x, emits P (body x)) -> emits P (for_each l body).
Proof.
  intros H. induction l as [|x l IH]; simpl.
  - apply emits_ret.
  - apply emits_bind; [apply H | intros _; apply IH].
Qed.
End Emits.

(** ** Discovery: the registry only grows *)

#[local] Instance grows_preorder : PreOrder grows.
Proof.
  split.
  - intros s. split; [reflexivity | lia].
  - intros s1 s2 s3 [H1 H2] [H3 H4]. split; [etransitivity; eassumption | lia].
Qed.

Ltac ctl_unfold :=
  cbv [Controller.discover_device Controller.getNode Controller.addNode
       Controller.lan_read Controller.report_bulbs_found
       Controller.with_nodes Controller.with_bulbs_found Controller.with_GV0
       Controller.with_update_nodes] in *.

(** Entries are only inserted at addresses found absent. *)
Ltac grow_goal :=
  split; simpl;
  [ repeat first
      [ reflexivity
      | etransitivity;
        [| apply insert_subseteq; apply eq_None_not_Some; eassumption ] ]
  | lia ].

Ltac ctl_step :=
  first [ case_bool_decide; simpl in *
        | match goal with
          | |- context [match ?x with inl _ => _ | inr _ => _ end] => destruct x eqn:?
          | |- context [if ?b then _ else _] => destruct b eqn:?
          end; simpl in * ].

Lemma discover_device_grows net d : keeps grows (Controller.discover_device net d).
Proof.
  intros [nodes found gv0 upd]. ctl_unfold. monad_unfold. simpl.
  repeat ctl_step; grow_goal.
Qed.

Lemma report_bulbs_found_grows : keeps grows Controller.report_bulbs_found.
Proof. intros [nodes found gv0 upd]. ctl_unfold. monad_unfold. simpl. grow_goal. Qed.


(** Structural steps of a [keeps R] proof. *)
Ltac keeps_step R :=
  first
    [ apply (keeps_ret R) | apply (keeps_raise R) | apply (keeps_get R)
    | apply (keeps_emit R) | apply (keeps_lift R)
    | apply (keeps_bind R); [| intros ?]
    | apply (keeps_try_else R); [| intros ? | intros ?]
    | apply (keeps_for_each R); intros ? ?
    | match goal with
      | |- keeps _ (if ?b then _ else _) => destruct b
      | |- keeps _ (match ?x with Some _ => _ | None => _ end) => destruct x
      end ].

Lemma automatic_discovery_grows net : keeps grows (Controller.automatic_discovery net).
Proof.
  unfold Controller.automatic_discovery, Controller.lan_read, try_.
  repeat first [ apply discover_device_grows | apply report_bulbs_found_grows
               | keeps_step grows ].
Qed.

(** Sequencing from one given state. *)
Lemma rel_bind {S A B} (R : S -> S -> Prop) `{!PreOrder R}
    (m : M S A) (k : A -> M S B) s :
  R s (final (m s)) ->
  (forall a, result (m s) = inr a -> R (final (m s)) (final (k a (final (m s))))) ->
  R s (final (bind m k s)).
Proof.
  intros Hm Hk. unfold bind.
  destruct (m s) as [[e|a] s' tr]; simpl in *; [exact Hm|].
  specialize (Hk a eq_refl). destruct (k a s') as [r s'' tr']. simpl in *.
  etransitivity; eassumption.
Qed.

Lemma manual_bulbs_grows bulbs : keeps grows (Controller.manual_bulbs bulbs).
Proof.
  induction bulbs as [|b rest IH]; simpl; [apply (keeps_ret grows)|].
  intros s. apply (rel_bind grows); [reflexivity|].
  intros known Hknown. simpl in *. inversion Hknown as [Hk]; clear Hknown.
  apply (rel_bind grows).
  - destruct s as [nodes found gv0 upd]. ctl_unfold. monad_unfold. simpl in *.
    repeat ctl_step; grow_goal.
  - intros has_object _. apply (keeps_bind grows); [apply IH|].
    intros objs. apply (keeps_ret grows).
Qed.

Lemma resolve_members_grows objs grp_name members found :
  keeps grows (Controller.resolve_members objs grp_name members found).
Proof.
  revert found. induction members as [|m rest IH]; intros found; simpl.
  - apply (keeps_ret grows).
  - destruct (Controller.find_bulb objs m) as [[]|];
      repeat first [ apply IH | keeps_step grows ].
Qed.

Lemma manual_groups_grows objs groups : keeps grows (Controller.manual_groups objs groups).
Proof.
  unfold Controller.manual_groups. apply (keeps_for_each grows). intros grp _.
  apply (keeps_bind grows); [apply resolve_members_grows|]. intros members.
  apply (keeps_bind grows); [apply (keeps_emit grows)|]. intros _.
  destruct (0 <? members)%nat; [|apply (keeps_ret grows)].
  intros s. destruct s as [nodes found gv0 upd]. ctl_unfold. monad_unfold. simpl.
  repeat ctl_step; grow_goal.
Qed.

Lemma manual_discovery_grows file : keeps grows (Controller._manual_discovery file).
Proof.
  destruct file as [| |[|[bulbs|] groups]]; simpl;
    repeat first [ apply manual_bulbs_grows | apply report_bulbs_found_grows
                 | apply manual_groups_grows | keeps_step grows ].
Qed.

Lemma discovery_process_grows devlist file net :
  keeps grows (Controller._discovery_process devlist file net).
Proof.
  unfold Controller._discovery_process.
  repeat first [ apply manual_discovery_grows | apply automatic_discovery_grows
               | keeps_step grows ].
Qed.

(** X1. A discovery run never removes or replaces a registry entry and
    never lowers the bulb counter, whatever the device list and the network
    answer and whether or not the run raises. *)
Theorem discovery_only_adds devlist file net s :
  let s' := final (Controller._discovery_process devlist file net s) in
  (forall a n, Controller.nodes s !! a = Some n -> Controller.nodes s' !! a = Some n)
  /\ Controller.bulbs_found s <= Controller.bulbs_found s'.
Proof.
  destruct (discovery_process_grows devlist file net s) as [Hn Hb].
  split; [|exact Hb]. intros a n Ha.
  eapply lookup_weaken; eassumption.
Qed.

(** ** Discovery: a device list that is read keeps the run off the LAN *)

Ltac emits_step P :=
  first
    [ apply (emits_ret P) | apply (emits_raise P) | apply (emits_get P)
    | apply (emits_modify P) | apply (emits_lift P)
    | apply (emits_emit P); exact I
    | apply (emits_bind P); [| intros ?]
    | apply (emits_try_else P); [| intros ? | intros ?]
    | apply (emits_for_each P); intros ?
    | match goal with
      | |- emits _ (if ?b then _ else _) => destruct b
      | |- emits _ (match ?x with Some _ => _ | None => _ end) => destruct x
      end ].

Lemma manual_bulbs_local bulbs : emits not_lan (Controller.manual_bulbs bulbs).
Proof.
  induction bulbs as [|b rest IH]; simpl.
  - apply (emits_ret not_lan).
  - unfold Controller.getNode, Controller.addNode.
    repeat first [ apply IH | emits_step not_lan ].
Qed.

Lemma resolve_members_local objs grp_name members found :
  emits not_lan (Controller.resolve_members objs grp_name members found).
Proof.
  revert found. induction members as [|m rest IH]; intros found; simpl.
  - apply (emits_ret not_lan).
  - destruct (Controller.find_bulb objs m) as [[]|];
      repeat first [ apply IH | emits_step not_lan ].
Qed.

Lemma manual_discovery_local file : emits not_lan (Controller._manual_discovery file).
Proof.
  destruct file as [| |[|[bulbs|] groups]]; simpl;
    unfold Controller.manual_groups, Controller.report_bulbs_found,
      Controller.getNode, Controller.addNode;
    repeat first [ apply manual_bulbs_local | apply resolve_members_local
                 | emits_step not_lan ].
Qed.

Lemma not_lan_calls tr : Forall not_lan tr -> lan_calls tr = [].
Proof.
  induction 1 as [|e tr He _ IH]; [reflexivity|].
  destruct e; simpl in *; try contradiction; exact IH.
Qed.

(** With a bulbs section, manual discovery returns [True] or raises. *)
Lemma manual_discovery_with_bulbs bulbs groups s b :
  result (Controller._manual_discovery
            (Controller.Parsed (Controller.YMap (Some bulbs) groups)) s) = inr b ->
  b = true.
Proof.
  simpl. unfold bind.
  destruct (Controller.manual_bulbs bulbs s) as [[e|objs] s1 t1]; [discriminate|].
  unfold after.
  destruct (Controller.report_bulbs_found s1) as [[e|[]] s2 t2] eqn:E2; [discriminate|].
  destruct groups as [groups|]; simpl.
  - destruct (Controller.manual_groups objs groups s2) as [[e|[]] s3 t3]; simpl;
      [discriminate | congruence].
  - congruence.
Qed.

(** X2. When a device list is configured and its content has a bulbs
    section, the discovery run makes no call on the LAN client at all: it
    ends with the manual pass, or with the exception the manual pass
    raised. *)
Theorem listed_devices_keep_discovery_local devlist bulbs groups net s
    (Hdev : Controller.truthy devlist = true) :
  lan_calls (trace (Controller._discovery_process devlist
                      (Controller.Parsed (Controller.YMap (Some bulbs) groups)) net s))
  = [].
Proof.
  apply not_lan_calls.
  unfold Controller._discovery_process. rewrite Hdev.
  pose proof (manual_discovery_local
                (Controller.Parsed (Controller.YMap (Some bulbs) groups))) as Hl.
  pose proof (manual_discovery_with_bulbs bulbs groups) as Hb.
  set (md := Controller._manual_discovery _) in *.
  unfold bind, log, emit, after, ret. specialize (Hl s). specialize (Hb s).
  destruct (md s) as [[e|b] s1 t1]; simpl in *.
  - repeat (constructor; [exact I|]). exact Hl.
  - rewrite (Hb b eq_refl). simpl. do 2 (constructor; [exact I|]).
    rewrite app_nil_r. apply Forall_app. split; [exact Hl | repeat constructor].
Qed.

Lemma listed_devices_keep_discovery_local_witness :
  Controller.truthy (Some "devices.yaml") = true
  /\ lan_calls (trace (Controller._discovery_process (Some "devices.yaml")
                         (Controller.Parsed (Controller.YMap (Some one_bulb_list) None))
                         one_bulb_lan fresh_controller)) = [].
Proof.
  assert (H : Controller.truthy (Some "devices.yaml") = true) by reflexivity.
  split; [exact H|].
  apply (listed_devices_keep_discovery_local (Some "devices.yaml") one_bulb_list None
           one_bulb_lan fresh_controller H).
Defined.

(** ** Discovery: a known LAN is left alone *)

#[local] Instance same_registry_preorder : PreOrder same_registry.
Proof.
  split.
  - intros s. split; reflexivity.
  - intros s1 s2 s3 [H1 H2] [H3 H4]. split; congruence.
Qed.

Lemma all_known_same devices s s' :
  same_registry s s' -> all_known devices s -> all_known devices s'.
Proof. intros [Hn _] H. unfold all_known in *. rewrite Hn. exact H. Qed.

Lemma discover_known_device net d s :
  all_known [d] s -> same_registry s (final (Controller.discover_device net d s)).
Proof.
  intros H. inversion H as [|? ? [Hd Hg] _]; subst. clear H.
  unfold mac_address, group_address in *.
  destruct s as [nodes found gv0 upd]. simpl in *.
  ctl_unfold. monad_unfold. simpl.
  destruct (Controller.label d) as [e|lbl]; simpl; [split; reflexivity|].
  rewrite (bool_decide_eq_true_2 _ Hd). simpl.
  destruct (Controller.group_label d) as [e|g]; simpl; [split; reflexivity|].
  rewrite (bool_decide_eq_true_2 _ (Hg g eq_refl)). simpl. split; reflexivity.
Qed.

Lemma discover_known_devices net devices s :
  all_known devices s ->
  same_registry s (final (for_each devices (Controller.discover_device net) s)).
Proof.
  revert s. induction devices as [|d devices IH]; intros s H; simpl; [reflexivity|].
  inversion H as [|? ? Hd Hrest]; subst.
  apply (rel_bind same_registry).
  - apply discover_known_device. by constructor.
  - intros _ _. apply IH. eapply all_known_same; [|exact Hrest].
    apply discover_known_device. by constructor.
Qed.

Lemma rel_try_else {S A B} (R : S -> S -> Prop) `{!PreOrder R}
    (body : M S A) catches (handler : exn -> M S B) orelse s :
  R s (final (body s)) ->
  (forall e, keeps R (handler e)) -> (forall a, keeps R (orelse a)) ->
  R s (final (try_else body catches handler orelse s)).
Proof.
  intros Hb Hh Ho. unfold try_else.
  destruct (body s) as [[e|a] s' tr]; simpl in *.
  - destruct (catches e); simpl; [|exact Hb].
    specialize (Hh e s'). destruct (handler e s') as [r s'' tr']. simpl in *.
    etransitivity; eassumption.
  - specialize (Ho a s'). destruct (orelse a s') as [r s'' tr']. simpl in *.
    etransitivity; eassumption.
Qed.

Lemma lan_read_result {A} c (r : exn + A) s a :
  result (Controller.lan_read c r s) = inr a -> r = inr a.
Proof. unfold Controller.lan_read. destruct r; simpl; congruence. Qed.

Lemma lan_read_final {A} c (r : exn + A) s : final (Controller.lan_read c r s) = s.
Proof. unfold Controller.lan_read. destruct r; reflexivity. Qed.

Lemma report_bulbs_found_same : keeps same_registry Controller.report_bulbs_found.
Proof. intros [nodes found gv0 upd]. split; reflexivity. Qed.

Lemma known_lan_is_left_alone net s :
  (forall devices, Controller.lights net = inr devices -> all_known devices s) ->
  same_registry s (final (Controller.automatic_discovery net s)).
Proof.
  intros Hknown.
  unfold Controller.automatic_discovery.
  apply (rel_bind same_registry).
  - apply (rel_try_else same_registry);
      [| intros e; apply (keeps_emit same_registry)
       | intros a; apply (keeps_ret same_registry)].
    apply (rel_bind same_registry); [rewrite lan_read_final; reflexivity|].
    intros devices Hres. rewrite lan_read_final.
    apply lan_read_result in Hres.
    apply (rel_bind same_registry); [reflexivity|]. intros _ _. simpl.
    apply discover_known_devices. apply Hknown. exact Hres.
  - intros _ _.
    repeat first [ apply report_bulbs_found_same | keeps_step same_registry ].
Qed.

(** X3. Automatic discovery on a LAN whose MAC addresses and group
    labels are ASCII, and whose devices and groups all have their
    addresses in the registry, adds nothing and counts nothing: the
    registry and the bulb counter are what they were. *)
Theorem rediscovery_changes_nothing net s
    (Hascii : forall devices, Controller.lights net = inr devices -> ascii_labels devices)
    (Hknown : forall devices, Controller.lights net = inr devices -> all_known devices s) :
  same_registry s (final (Controller.automatic_discovery net s)).
Proof. apply known_lan_is_left_alone. exact Hknown. Qed.

#[local] Arguments prefix _ _ : simpl never.

Lemma all_known_grows devices s s' :
  grows s s' -> all_known devices s -> all_known devices s'.
Proof.
  intros [Hn _] H. unfold all_known in *.
  eapply Forall_impl; [exact H|]. intros d [Hd Hg]. split.
  - destruct Hd as [n Hd]. exists n. eapply lookup_weaken; eassumption.
  - intros g Hlabel. destruct (Hg g Hlabel) as [n Hgn]. exists n.
    eapply lookup_weaken; eassumption.
Qed.

(** A device whose discovery step returns is registered afterwards, and
    so is its group. *)
Lemma discover_device_registers net d s :
  result (Controller.discover_device net d s) = inr tt ->
  all_known [d] (final (Controller.discover_device net d s)).
Proof.
  destruct s as [nodes found gv0 upd]. unfold all_known, mac_address, group_address.
  ctl_unfold. monad_unfold. simpl.
  repeat ctl_step; intros Hres; try discriminate Hres;
    (apply List.Forall_cons; [|apply List.Forall_nil]);
    (split;
     [|intros g' Hg';
       match goal with
       | E : Controller.group_label d = inr ?x,
         E' : Controller.group_label d = inr ?y |- _ =>
           assert (x = y) by congruence; subst
       end]);
    rewrite ?lookup_insert_is_Some' in *; intuition eauto.
Qed.

Lemma discover_devices_register net devices s :
  result (for_each devices (Controller.discover_device net) s) = inr tt ->
  all_known devices (final (for_each devices (Controller.discover_device net) s)).
Proof.
  revert s. induction devices as [|d devices IH]; intros s; simpl; [constructor|].
  pose proof (discover_device_registers net d s) as Hd.
  unfold bind.
  destruct (Controller.discover_device net d s) as [[e|[]] s1 t1]; simpl in *;
    [discriminate|].
  specialize (Hd eq_refl). specialize (IH s1).
  pose proof (keeps_for_each grows devices (Controller.discover_device net)
                (fun d _ => discover_device_grows net d) s1) as Hg.
  destruct (for_each devices _ s1) as [r s2 t2]; simpl in *.
  intros Hr. constructor.
  - pose proof (all_known_grows [d] s1 s2 Hg Hd) as H. by inversion H.
  - apply IH. exact Hr.
Qed.

(** Automatic discovery from the enumeration on: the run returns without
    logging a discovery error only if the loop over the devices returned,
    and what follows the loop leaves the registry alone. *)
Lemma automatic_discovery_loop net s devices :
  Controller.lights net = inr devices ->
  let loop := for_each devices (Controller.discover_device net) s in
  let o := Controller.automatic_discovery net s in
  same_registry (final loop) (final o)
  /\ (result o = inr tt -> ~ In (Log ERROR "discovery Error") (trace o) ->
      result loop = inr tt).
Proof.
  intros Hl loop o. subst loop o.
  unfold Controller.automatic_discovery, Controller.lan_read. rewrite Hl.
  cbv [bind ret get modify emit raise lift try_ try_else after log setDriver
       Controller.report_bulbs_found].
  destruct (for_each devices (Controller.discover_device net) s) as [[e|[]] s' t'].
  - destruct (only [WorkflowException; OSError; TypeError] e).
    + cbn [result final trace]. split.
      * destruct (Controller.GV0 _) as [old|];
          [destruct (negb _)|]; cbn [result final trace]; split; reflexivity.
      * intros _ Hclean. exfalso. apply Hclean.
        destruct (Controller.GV0 _) as [old|];
          [destruct (negb _)|]; cbn [result final trace];
          apply list_elem_of_In; set_solver.
    + cbn [result final trace]. split; [reflexivity | discriminate].
  - cbn [result final trace]. split; [|reflexivity].
    destruct (Controller.GV0 _) as [old|];
      [destruct (negb _)|]; cbn [result final trace]; split; reflexivity.
Qed.

(** X4. Discovery is idempotent: after an automatic discovery that met
    no error, a second one on the same LAN leaves the registry and the
    bulb counter as the first one left them. *)
Theorem second_discovery_is_idle net s
    (Hret : result (Controller.automatic_discovery net s) = inr tt)
    (Hclean : ~ In (Log ERROR "discovery Error")
                 (trace (Controller.automatic_discovery net s))) :
  let s1 := final (Controller.automatic_discovery net s) in
  same_registry s1 (final (Controller.automatic_discovery net s1)).
Proof.
  intros s1. apply known_lan_is_left_alone. intros devices Hl.
  destruct (automatic_discovery_loop net s devices Hl) as [Hsame Hloop].
  eapply all_known_same; [exact Hsame|].
  apply discover_devices_register. apply Hloop; assumption.
Qed.

Lemma second_discovery_is_idle_witness :
  result (Controller.automatic_discovery one_bulb_lan fresh_controller) = inr tt
  /\ ~ In (Log ERROR "discovery Error")
         (trace (Controller.automatic_discovery one_bulb_lan fresh_controller))
  /\ same_registry seasoned_controller
       (final (Controller.automatic_discovery one_bulb_lan seasoned_controller)).
Proof.
  assert (H1 : result (Controller.automatic_discovery one_bulb_lan fresh_controller)
               = inr tt) by (vm_compute; reflexivity).
  assert (H2 : ~ In (Log ERROR "discovery Error")
                 (trace (Controller.automatic_discovery one_bulb_lan fresh_controller))).
  { vm_compute. intros H. repeat destruct H as [H|H]; try discriminate H. exact H. }
  split; [exact H1|]. split; [exact H2|].
  apply (second_discovery_is_idle one_bulb_lan fresh_controller H1 H2).
Defined.

Lemma rediscovery_changes_nothing_witness :
  (forall devices, Controller.lights one_bulb_lan = inr devices -> ascii_labels devices)
  /\ (forall devices, Controller.lights one_bulb_lan = inr devices ->
                      all_known devices seasoned_controller)
  /\ same_registry seasoned_controller
       (final (Controller.automatic_discovery one_bulb_lan seasoned_controller)).
Proof.
  assert (A : forall devices, Controller.lights one_bulb_lan = inr devices ->
                              ascii_labels devices).
  { intros devices E. inversion E; subst. constructor; [|constructor]. split.
    - unfold is_ascii. cbn. repeat constructor.
    - intros g Hg. inversion Hg; subst. unfold is_ascii. cbn. repeat constructor. }
  assert (H : forall devices, Controller.lights one_bulb_lan = inr devices ->
                              all_known devices seasoned_controller).
  { intros devices E. inversion E; subst. constructor; [|constructor]. split.
    - vm_compute. eauto.
    - intros g Hg. inversion Hg; subst. vm_compute. eauto. }
  split; [exact A|]. split; [exact H|].
  apply (rediscovery_changes_nothing one_bulb_lan seasoned_controller A H).
Defined.

(** ** Discovery: the count reported *)

#[local] Instance same_count_preorder : PreOrder same_count.
Proof.
  split.
  - intros s. split; reflexivity.
  - intros s1 s2 s3 [H1 H2] [H3 H4]. split; congruence.
Qed.

Lemma manual_groups_same_count objs groups :
  keeps same_count (Controller.manual_groups objs groups).
Proof.
  unfold Controller.manual_groups. apply (keeps_for_each same_count). intros grp _.
  apply (keeps_bind same_count).
  - generalize 0%nat. induction (Controller.g_members grp) as [|m rest IH]; intros n; simpl.
    + apply (keeps_ret same_count).
    + destruct (Controller.find_bulb objs m) as [[]|];
        repeat first [ apply IH | keeps_step same_count ].
  - intros members. unfold Controller.getNode, Controller.addNode.
    repeat keeps_step same_count.
Qed.

(** The driver GV0 holds the bulb counter and was sent that value. *)
Definition count_reported (o : outcome Controller.t unit) : Prop :=
  Controller.GV0 (final o) = Some (Controller.bulbs_found (final o))
  /\ In (SetDriver "GV0" (DInt (Controller.bulbs_found (final o)))) (trace o).

Ltac count_cases :=
  match goal with
  | |- context [match Controller.GV0 ?x with _ => _ end] =>
      destruct (Controller.GV0 x) as [?old|]
  end;
  try match goal with
  | |- context [if negb ?b then _ else _] => destruct (negb b)
  end;
  cbn [result final trace].

Lemma automatic_discovery_reports net s :
  result (Controller.automatic_discovery net s) = inr tt ->
  count_reported (Controller.automatic_discovery net s).
Proof.
  unfold count_reported, Controller.automatic_discovery, Controller.lan_read.
  cbv [bind ret get modify emit raise lift try_ try_else after log setDriver
       Controller.report_bulbs_found].
  destruct (Controller.lights net) as [e|devices].
  - destruct (only [WorkflowException; OSError; TypeError] e);
      [|cbn [result]; discriminate].
    cbn [result final trace]. intros _.
    count_cases; (split; [reflexivity | apply list_elem_of_In; set_solver]).
  - destruct (for_each devices (Controller.discover_device net) s) as [[e|[]] s' t'];
      [destruct (only [WorkflowException; OSError; TypeError] e);
       [|cbn [result]; discriminate]|];
      cbn [result final trace]; intros _;
      count_cases; (split; [reflexivity | apply list_elem_of_In; set_solver]).
Qed.

Lemma manual_discovery_reports bulbs groups s :
  let o := Controller._manual_discovery
             (Controller.Parsed (Controller.YMap (Some bulbs) groups)) s in
  result o = inr true ->
  Controller.GV0 (final o) = Some (Controller.bulbs_found (final o))
  /\ In (SetDriver "GV0" (DInt (Controller.bulbs_found (final o)))) (trace o).
Proof.
  cbv zeta. unfold Controller._manual_discovery, Controller.report_bulbs_found.
  cbv [bind ret get modify emit raise lift after log setDriver].
  destruct (Controller.manual_bulbs bulbs s) as [[e|objs] s1 t1];
    cbn [result final trace]; [discriminate|].
  destruct groups as [groups|]; cbn [result final trace].
  - pose proof (manual_groups_same_count objs groups
                  (Controller.with_GV0 (Some (Controller.bulbs_found s1)) s1)) as [Hg Hb].
    destruct (Controller.manual_groups objs groups _) as [[e|[]] s2 t2];
      cbn [result final trace] in *; [discriminate|].
    intros _. rewrite Hg, Hb. destruct s1; cbn.
    split; [reflexivity | apply list_elem_of_In; set_solver].
  - intros _. destruct s1; cbn.
    split; [reflexivity | apply list_elem_of_In; set_solver].
Qed.

(** X5. A discovery run that returns has reported its bulb counter: the
    GV0 driver holds the counter of the final state, and a setDriver event
    with that value was emitted, on the manual and the automatic path
    alike. *)
Theorem discovery_reports_bulb_count devlist file net s
    (Hret : result (Controller._discovery_process devlist file net s) = inr tt) :
  count_reported (Controller._discovery_process devlist file net s).
Proof.
  revert Hret. unfold count_reported, Controller._discovery_process.
  cbv [bind ret get emit raise after log].
  destruct (Controller.truthy devlist).
  - destruct (Controller._manual_discovery file s) as [[e|[]] s1 t1] eqn:Hm;
      cbn [result final trace]; [discriminate| |].
    + intros _.
      assert (exists bulbs groups,
                file = Controller.Parsed (Controller.YMap (Some bulbs) groups))
        as (bulbs & groups & ->).
      { destruct file as [| |[|[bulbs|] groups]]; try (cbv in Hm; discriminate).
        eauto. }
      pose proof (manual_discovery_reports bulbs groups s) as H.
      cbv zeta in H. rewrite Hm in H. cbn [result final trace] in H.
      destruct (H eq_refl) as [H1 H2]. split; [exact H1|].
      apply list_elem_of_In. apply list_elem_of_In in H2.
      rewrite ?elem_of_app. tauto.
    + pose proof (automatic_discovery_reports net s1) as H.
      unfold count_reported in H.
      destruct (Controller.automatic_discovery net s1) as [r s2 t2];
        cbn [result final trace] in *.
      intros ->. destruct (H eq_refl) as [H1 H2]. split; [exact H1|].
      apply list_elem_of_In. apply list_elem_of_In in H2.
      rewrite ?elem_of_app. tauto.
  - cbn [result final trace].
    pose proof (automatic_discovery_reports net s) as H.
    unfold count_reported in H.
    destruct (Controller.automatic_discovery net s) as [r s2 t2];
      cbn [result final trace] in *.
    intros ->. destruct (H eq_refl) as [H1 H2]. split; [exact H1|].
    apply list_elem_of_In. apply list_elem_of_In in H2.
      rewrite ?elem_of_app. tauto.
Qed.

Lemma discovery_reports_bulb_count_witness :
  count_reported
    (Controller._discovery_process None Controller.OpenFails one_bulb_lan fresh_controller).
Proof. apply discovery_reports_bulb_count. vm_compute. reflexivity. Defined.

(** ** Discovery: a device list read a second time *)

Lemma manual_bulbs_all_known bulbs s :
  all_listed_known bulbs s ->
  Controller.manual_bulbs bulbs s
  = Outcome (inr ((fun b => (Controller.b_name b, false)) <$> bulbs)) s [].
Proof.
  unfold all_listed_known. induction 1 as [|b bulbs Hb _ IH]; [reflexivity|].
  cbn [Controller.manual_bulbs]. unfold mac_address in Hb.
  cbv [bind Controller.getNode get ret after] in *.
  rewrite (bool_decide_eq_true_2 _ Hb). cbn. rewrite IH. reflexivity.
Qed.

Lemma find_bulb_without_object bulbs m :
  Controller.find_bulb ((fun b => (Controller.b_name b, false)) <$> bulbs) m
  = if decide (m ∈ (Controller.b_name <$> bulbs)) then Some false else None.
Proof.
  induction bulbs as [|b bulbs IH]; cbn.
  - destruct (decide _) as [H|H]; [inversion H | reflexivity].
  - destruct (String.eqb_spec (Controller.b_name b) m) as [->|Hne].
    + rewrite decide_True by (left). reflexivity.
    + rewrite IH. destruct (decide (m ∈ _)) as [H|H].
      * rewrite decide_True by (right; exact H). reflexivity.
      * rewrite decide_False; [reflexivity|].
        intros [E|H']%elem_of_cons; [congruence | contradiction].
Qed.

Lemma resolve_members_without_object bulbs name members found s :
  let objs := (fun b => (Controller.b_name b, false)) <$> bulbs in
  let o := Controller.resolve_members objs name members found s in
  final o = s
  /\ result o = if decide (Exists (fun m => m ∈ (Controller.b_name <$> bulbs)) members)
                then inl KeyError else inr found.
Proof.
  cbv zeta. induction members as [|m members IH]; cbn [Controller.resolve_members].
  - split; [reflexivity|]. rewrite decide_False; [reflexivity|]. intros H; inversion H.
  - rewrite find_bulb_without_object. destruct (decide (m ∈ _)) as [Hm|Hm].
    + split; [reflexivity|]. rewrite decide_True by (left; exact Hm). reflexivity.
    + cbv [bind log emit after]. destruct IH as [IHf IHr].
      destruct (Controller.resolve_members _ name members found s) as [r s' t'].
      cbn [result final trace] in *. split; [exact IHf|]. rewrite IHr.
      destruct (decide (Exists _ members)) as [H|H].
      * rewrite decide_True by (right; exact H). reflexivity.
      * rewrite decide_False; [reflexivity|].
        intros [H'|H']%Exists_cons; contradiction.
Qed.

Lemma manual_groups_without_object bulbs groups s :
  let objs := (fun b => (Controller.b_name b, false)) <$> bulbs in
  let o := Controller.manual_groups objs groups s in
  final o = s
  /\ result o = if decide (Exists (names_listed_bulb bulbs) groups)
                then inl KeyError else inr tt.
Proof.
  cbv zeta. unfold Controller.manual_groups.
  induction groups as [|grp groups IH]; cbn [for_each].
  - split; [reflexivity|]. rewrite decide_False; [reflexivity|]. intros H; inversion H.
  - cbv [bind after].
    destruct (resolve_members_without_object bulbs (Controller.g_name grp)
                (Controller.g_members grp) 0%nat s) as [Hf Hr]. cbv zeta in Hf, Hr.
    destruct (Controller.resolve_members _ _ _ _ s) as [r s' t'].
    cbn [result final trace] in *. subst s'. subst r.
    destruct (decide (Exists _ (Controller.g_members grp))) as [Hg|Hg].
    + split; [reflexivity|]. rewrite decide_True by (left; exact Hg). reflexivity.
    + cbn. destruct IH as [IHf IHr].
      destruct (for_each groups _ s) as [r2 s2 t2].
      cbn [result final trace] in *. split; [exact IHf|]. rewrite IHr.
      destruct (decide (Exists _ groups)) as [H|H].
      * rewrite decide_True by (right; exact H). reflexivity.
      * rewrite decide_False; [reflexivity|].
        intros [H'|H']%Exists_cons; [exact (Hg H') | exact (H H')].
Qed.

(** X6. A device list read again, when all its bulbs are already in the
    registry, leaves no [b['object']] for the group section to use: if
    some group names a listed bulb the run ends with [KeyError], and the
    registry and the bulb counter are what they were. *)
Theorem known_bulbs_break_groups devlist bulbs groups net s
    (Hdev : Controller.truthy devlist = true)
    (Hknown : all_listed_known bulbs s)
    (Hnamed : Exists (names_listed_bulb bulbs) groups) :
  let o := Controller._discovery_process devlist
             (Controller.Parsed (Controller.YMap (Some bulbs) (Some groups))) net s in
  result o = inl KeyError /\ same_registry s (final o).
Proof.
  cbv zeta. unfold Controller._discovery_process, Controller._manual_discovery.
  rewrite Hdev. cbv [bind log emit after Controller.report_bulbs_found get modify setDriver].
  rewrite (manual_bulbs_all_known bulbs s Hknown). cbn [result final trace].
  destruct (manual_groups_without_object bulbs groups
              (Controller.with_GV0 (Some (Controller.bulbs_found s)) s)) as [Hf Hr].
  cbv zeta in Hf, Hr. rewrite decide_True in Hr by exact Hnamed.
  destruct (Controller.manual_groups _ groups _) as [r s' t'].
  cbn [result final trace] in *. subst r s'. cbn [result final trace].
  split; [reflexivity|]. split; reflexivity.
Qed.

Lemma known_bulbs_break_groups_witness :
  let o := Controller._discovery_process (Some "devices.yaml")
             (Controller.Parsed (Controller.YMap (Some one_bulb_list) (Some one_group_list)))
             one_bulb_lan seasoned_controller in
  result o = inl KeyError /\ same_registry seasoned_controller (final o).
Proof.
  apply (known_bulbs_break_groups (Some "devices.yaml") one_bulb_list one_group_list).
  - reflexivity.
  - repeat constructor. vm_compute. eauto.
  - left. left. left.
Defined.

(** X7. A group of the device list none of whose members is a listed
    bulb name gets no node: the group loop returns and the controller
    state is unchanged. *)
Theorem unresolved_groups_are_skipped objs groups s
    (Hnone : Forall (fun grp => Forall (fun m => Controller.find_bulb objs m = None)
                                  (Controller.g_members grp)) groups) :
  let o := Controller.manual_groups objs groups s in
  result o = inr tt /\ final o = s.
Proof.
  cbv zeta. unfold Controller.manual_groups.
  induction Hnone as [|grp groups Hg _ IH]; [repeat split|].
  cbn [for_each]. cbv [bind after].
  assert (forall found,
            Controller.resolve_members objs (Controller.g_name grp)
              (Controller.g_members grp) found s
            = Outcome (inr found) s
                (trace (Controller.resolve_members objs (Controller.g_name grp)
                          (Controller.g_members grp) found s))) as Hres.
  { induction Hg as [|m members Hm _ IHm]; intros found; [reflexivity|].
    cbn [Controller.resolve_members]. rewrite Hm. cbv [bind log emit after].
    rewrite (IHm found). reflexivity. }
  rewrite (Hres 0%nat). cbv [log emit]. cbn.
  destruct IH as (IHr & IHf).
  destruct (for_each groups _ s) as [r s' t'].
  cbn [result final trace] in *. subst. split; reflexivity.
Qed.

Lemma unresolved_groups_are_skipped_witness :
  let o := Controller.manual_groups [("Lamp", true)]
             [{| Controller.g_name := "Hall"; Controller.g_address := "hall";
                 Controller.g_members := ["Spot"] |}] fresh_controller in
  result o = inr tt /\ final o = fresh_controller.
Proof.
  apply unresolved_groups_are_skipped. repeat constructor.
Defined.

(** ** Runs in sequence *)

Section Obeys.
Context {S : Type} (Q : S -> S -> list event -> Prop) `{!Sequential Q}.

Lemma obeys_ret {A} (a : A) : obeys Q (ret a).
Proof. intros s. apply seq_nil. Qed.

Lemma obeys_raise {A} e : obeys Q (@raise S A e).
Proof. intros s. apply seq_nil. Qed.

Lemma obeys_get : obeys Q (@get S).
Proof. intros s. apply seq_nil. Qed.

Lemma obeys_lift {A} (r : exn + A) : obeys Q (@lift S A r).
Proof. destruct r; [apply obeys_raise | apply obeys_ret]. Qed.

Lemma obeys_emit e : (forall s, Q s s [e]) -> obeys Q (@emit S e).
Proof. intros H s. apply H. Qed.

Lemma obeys_modify f : (forall s, Q s (f s) []) -> obeys Q (modify f).
Proof. intros H s. apply H. Qed.

Lemma obeys_bind {A B} (m : M S A) (k : A -> M S B) :
  obeys Q m -> (forall a, obeys Q (k a)) -> obeys Q (bind m k).
Proof.
  intros Hm Hk s. unfold bind. specialize (Hm s).
  destruct (m s) as [[e|a] s' tr]; cbn [result final trace] in *; [exact Hm|].
  specialize (Hk a s'). destruct (k a s') as [r s'' tr']. cbn [after result final trace] in *.
  eapply seq_app; eassumption.
Qed.

Lemma obeys_try_else {A B} (body : M S A) catches (handler : exn -> M S B) orelse :
  obeys Q body -> (forall e, obeys Q (handler e)) -> (forall a, obeys Q (orelse a)) ->
  obeys Q (try_else body catches handler orelse).
Proof.
  intros Hb Hh Ho s. unfold try_else. specialize (Hb s).
  destruct (body s) as [[e|a] s' tr]; cbn [result final trace] in *.
  - destruct (catches e); [|exact Hb].
    specialize (Hh e s'). destruct (handler e s') as [r s'' tr'].
    cbn [after result final trace] in *. eapply seq_app; eassumption.
  - specialize (Ho a s'). destruct (orelse a s') as [r s'' tr'].
    cbn [after result final trace] in *. eapply seq_app; eassumption.
Qed.

Lemma obeys_for_each {A} (l : list A) (body : A -> M S unit) :
  (forall x, obeys Q (body x)) -> obeys Q (for_each l body).
Proof.
  intros H. induction l as [|x l IH]; cbn [for_each].
  - apply obeys_ret.
  - apply obeys_bind; [apply H | intros _; apply IH].
Qed.
End Obeys.

(** One step through a computation; [leaf] settles the events and the
    state changes. *)
Ltac obeys_step Q leaf :=
  first
    [ apply (obeys_ret Q) | apply (obeys_raise Q) | apply (obeys_get Q)
    | apply (obeys_lift Q)
    | apply (obeys_emit Q); intros ?; leaf
    | apply (obeys_modify Q); intros ?; leaf
    | apply (obeys_bind Q); [| intros ?]
    | apply (obeys_try_else Q); [| intros ? | intros ?]
    | apply (obeys_for_each Q); intros ?
    | match goal with
      | |- obeys _ (match ?x with _ => _ end) => destruct x
      end ].

Ltac light_handlers_unfold :=
  unfold Light.setOn, Light.setOff, Light.setColor, Light.setManual, Light.setHSBKD,
    Light.brighten, Light.dim, Light.fade_up, Light.fade_down, Light.fade_stop,
    Light.set_ir_brightness, Light.set_wf, Light.setOn_target, Light.setManual_field,
    Light.turn_on_at_minimum, Light.report_st, Light.color_at, Light.set_color_at,
    Light.preset, report_color, int, try_, dev_read, log, setDriver, reportCmd.

(** ** Light: the power mirror follows the device *)

#[local] Instance power_followed_sequential dev : Sequential (power_followed dev).
Proof.
  split.
  - intros s. left. reflexivity.
  - intros s s1 s2 t1 t2 [H1|[H1 I1]] [H2|[H2 I2]].
    + left. congruence.
    + right. split; [exact H2|]. apply in_or_app. right. exact I2.
    + right. rewrite H2. split; [exact H1|]. apply in_or_app. left. exact I1.
    + right. split; [exact H2|]. apply in_or_app. right. exact I2.
Qed.

Lemma dev_write_power_followed dev c : obeys (power_followed dev) (dev_write dev c).
Proof. intros s. unfold dev_write, bind, emit. destruct (write dev c); left; reflexivity. Qed.

(** The two places a handler sets the power mirror: after a [set_power]
    that returned. *)
Lemma power_write_followed {A B} dev b (pre : M Light.t A) catches
    (handler : exn -> M Light.t B) (rest : M Light.t B) :
  obeys (fun s s' _ => Light.power s' = Light.power s) pre ->
  (forall e, obeys (power_followed dev) (handler e)) ->
  obeys (power_followed dev) rest ->
  obeys (power_followed dev)
    (try_else (pre ;; dev_write dev (set_power b)) catches handler
       (fun _ => modify (Light.with_power b) ;; rest)).
Proof.
  intros Hpre Hh Hrest s. cbv [try_else bind dev_write emit modify ret raise].
  specialize (Hpre s).
  destruct (pre s) as [[e|a] s1 t1]; cbn [after result final trace] in *.
  - destruct (catches e); [|left; exact Hpre].
    specialize (Hh e s1). destruct (handler e s1) as [r s2 t2].
    cbn [after result final trace] in *.
    destruct Hh as [H|[H I]]; [left; congruence|].
    right. split; [exact H|]. apply in_or_app. right. exact I.
  - destruct (write dev (set_power b)) as [e|] eqn:Hw; cbn [after result final trace].
    + destruct (catches e); [|left; exact Hpre].
      specialize (Hh e s1). destruct (handler e s1) as [r s2 t2].
      cbn [after result final trace] in *.
      destruct Hh as [H|[H I]]; [left; congruence|].
      right. split; [exact H|]. apply in_or_app. right. exact I.
    + specialize (Hrest (Light.with_power b s1)).
      destruct (rest (Light.with_power b s1)) as [r s2 t2].
      cbn [after result final trace] in *. right.
      destruct Hrest as [H|[H I]].
      * cbn in H. rewrite H. split; [exact Hw|].
        apply in_or_app. left. apply in_or_app. right. left. reflexivity.
      * split; [exact H|]. apply in_or_app. right. apply in_or_app. right. exact I.
Qed.

Lemma power_write_followed_alone {B} dev b catches
    (handler : exn -> M Light.t B) (rest : M Light.t B) :
  (forall e, obeys (power_followed dev) (handler e)) ->
  obeys (power_followed dev) rest ->
  obeys (power_followed dev)
    (try_else (dev_write dev (set_power b)) catches handler
       (fun _ => modify (Light.with_power b) ;; rest)).
Proof.
  intros Hh Hrest s.
  pose proof (power_write_followed dev b (ret tt) catches handler rest
                (fun s => eq_refl) Hh Hrest s) as H.
  unfold try_else, bind, ret in *. cbn [after] in H.
  destruct (dev_write dev (set_power b) s) as [[e|[]] s1 t1]; exact H.
Qed.

Ltac power_leaf := left; reflexivity.

Ltac power_step dev :=
  first
    [ apply dev_write_power_followed
    | apply power_write_followed_alone; [intros ?|]
    | apply power_write_followed;
        [intros ?; unfold dev_write, bind, emit;
         match goal with |- context [write ?d ?c] => destruct (write d c) end; reflexivity
        | intros ? |]
    | obeys_step (power_followed dev) power_leaf ].

Lemma power_on_change_followed pol dev :
  obeys (power_followed dev) (Light._power_on_change pol dev).
Proof. unfold Light._power_on_change. light_handlers_unfold. repeat power_step dev. Qed.

(** X8. No command handler of a bulb changes the power mirror on its own
    account: after any handler the mirror is what it was, or the handler
    sent [set_power] with the mirror's new value and the device took
    it. *)
Theorem power_mirror_follows_device pol dev command s :
  Forall (fun h => power_followed dev s (final (h s)) (trace (h s)))
    (Light_handlers pol dev command).
Proof.
  unfold Light_handlers.
  repeat (apply List.Forall_cons; [|]); [..|apply List.Forall_nil];
    match goal with |- power_followed _ _ (final (?h _)) _ =>
      revert s; change (obeys (power_followed dev) h) end;
    light_handlers_unfold;
    repeat first [ apply power_on_change_followed | power_step dev ].
Qed.

(** ** Light: colour commands and the power *)

#[local] Instance power_left_alone_sequential pol : Sequential (power_left_alone pol).
Proof.
  split.
  - intros s _. split; [reflexivity | constructor].
  - intros s s1 s2 t1 t2 H1 H2 Hc. destruct (H1 Hc) as [P1 F1].
    destruct H2 as [P2 F2].
    { destruct Hc as [Hc|Hc]; [left; exact Hc | right; congruence]. }
    split; [congruence | apply Forall_app; split; assumption].
Qed.

Lemma dev_write_leaves_power pol dev c :
  ~ is_power_call (Call c) -> obeys (power_left_alone pol) (dev_write dev c).
Proof.
  intros Hc s _. unfold dev_write, bind, emit.
  destruct (write dev c); cbn; (split; [reflexivity | repeat constructor; exact Hc]).
Qed.

Lemma power_on_change_leaves_power pol dev :
  obeys (power_left_alone pol) (Light._power_on_change pol dev).
Proof.
  intros s Hc. unfold Light._power_on_change, bind, get. cbn [result final trace].
  replace (negb (change_pon pol) || Light.power s) with true.
  - cbn. split; [reflexivity | constructor].
  - destruct Hc as [-> | ->]; [reflexivity | apply eq_sym, orb_true_r].
Qed.

Ltac alone_leaf :=
  intros _; split; [reflexivity | repeat constructor; intros []].

(** X9. [SET_COLOR], the single-field setters and [SET_HSBKD] touch the
    power only through [_power_on_change]: under a policy with
    [change_pon] off, or on a bulb whose mirror says on, they send no
    [set_power] and leave the power mirror as it was. *)
Theorem colour_commands_leave_power_alone pol dev command s
    (Hc : change_pon pol = false \/ Light.power s = true) :
  Forall (fun h => Light.power (final (h s)) = Light.power s
                   /\ Forall (fun e => ~ is_power_call e) (trace (h s)))
    [Light.setColor pol dev command; Light.setManual pol dev command;
     Light.setHSBKD pol dev command].
Proof.
  repeat (apply List.Forall_cons; [|]); [..|apply List.Forall_nil];
    match goal with |- _ (final (?h _)) = _ /\ _ =>
      revert s Hc; change (obeys (power_left_alone pol) h) end;
    light_handlers_unfold;
    repeat first
      [ apply power_on_change_leaves_power
      | apply dev_write_leaves_power; intros []
      | obeys_step (power_left_alone pol) alone_leaf ].
Qed.

Lemma colour_commands_leave_power_alone_witness :
  Forall (fun h => Light.power (final (h connected_bulb)) = Light.power connected_bulb
                   /\ Forall (fun e => ~ is_power_call e) (trace (h connected_bulb)))
    [Light.setColor default_policy quiet_device (value_command "SET_COLOR" 3);
     Light.setManual default_policy quiet_device (value_command "SET_COLOR" 3);
     Light.setHSBKD default_policy quiet_device (value_command "SET_COLOR" 3)].
Proof.
  apply (colour_commands_leave_power_alone default_policy quiet_device
           (value_command "SET_COLOR" 3) connected_bulb).
  right. reflexivity.
Defined.

(** ** Light: DIM and BRT in a row *)

Lemma dim_mirror dev s h sa b rest :
  Light.color s = h :: sa :: b :: rest ->
  final (Light.dim dev s)
  = Light.with_color (h :: sa :: Z.max BR_MIN (b - BR_INCREMENT) :: rest) s.
Proof.
  intros Hc. destruct s as [pw conn col dur ir]. cbn in Hc. subst col.
  replace (Z.max BR_MIN (b - BR_INCREMENT))
    with (if b - BR_INCREMENT <? BR_MIN then BR_MIN else b - BR_INCREMENT)
    by (destruct (Z.ltb_spec (b - BR_INCREMENT) BR_MIN); lia).
  light_unfold. monad_unfold.
  destruct pw; simpl; rewrite getitem_brightness; simpl;
    rewrite setitem_brightness; simpl;
    (destruct (write dev _) as [e|]; simpl;
     [destruct (bool_decide (WorkflowException = e))|]; simpl;
     cbv [Light.with_color Light.color Light.power Light.connected Light.duration
          Light.ir_support];
     rewrite ?getitem_brightness; reflexivity).
Qed.

Lemma brighten_mirror dev s h sa b rest :
  Light.power s = true ->
  Light.color s = h :: sa :: b :: rest ->
  final (Light.brighten dev s)
  = Light.with_color (h :: sa :: Z.min BR_MAX (b + BR_INCREMENT) :: rest) s.
Proof.
  intros Hp Hc. destruct s as [pw conn col dur ir]. cbn in Hp, Hc. subst pw col.
  replace (Z.min BR_MAX (b + BR_INCREMENT))
    with (if BR_MAX <? b + BR_INCREMENT then BR_MAX else b + BR_INCREMENT)
    by (destruct (Z.ltb_spec BR_MAX (b + BR_INCREMENT)); lia).
  light_unfold. monad_unfold.
  simpl; rewrite getitem_brightness; simpl;
    rewrite setitem_brightness; simpl;
    (destruct (write dev _) as [e|]; simpl;
     [destruct (bool_decide (WorkflowException = e))|]; simpl;
     cbv [Light.with_color Light.color Light.power Light.connected Light.duration
          Light.ir_support];
     rewrite ?getitem_brightness; reflexivity).
Qed.

(** X10. DIM lowers the mirrored brightness by BR_INCREMENT and stops at
    BR_MIN, whatever the device answers, a failed write included: after
    n >= 1 DIM commands the mirror holds max (BR_MIN, b - n * BR_INCREMENT)
    and is otherwise unchanged. *)
Theorem dim_presses_bottom_out devs s h sa b rest
    (Hc : Light.color s = h :: sa :: b :: rest)
    (Hn : devs <> []) :
  presses Light.dim devs s
  = Light.with_color
      (h :: sa :: Z.max BR_MIN (b - Z.of_nat (length devs) * BR_INCREMENT) :: rest) s.
Proof.
  destruct devs as [|dev devs]; [congruence|]. clear Hn.
  unfold presses. cbn [fold_left]. rewrite (dim_mirror dev s h sa b rest Hc).
  replace (Z.of_nat (length (dev :: devs))) with (1 + Z.of_nat (length devs))
    by (cbn [length]; lia).
  assert (Hge : BR_MIN <= Z.max BR_MIN (b - BR_INCREMENT)) by lia.
  replace (b - (1 + Z.of_nat (length devs)) * BR_INCREMENT)
    with (b - BR_INCREMENT - Z.of_nat (length devs) * BR_INCREMENT) by lia.
  assert (Hmax : Z.max BR_MIN (b - BR_INCREMENT - Z.of_nat (length devs) * BR_INCREMENT)
                 = Z.max BR_MIN (Z.max BR_MIN (b - BR_INCREMENT)
                                 - Z.of_nat (length devs) * BR_INCREMENT))
    by (unfold BR_MIN, BR_INCREMENT; lia).
  rewrite Hmax. clear Hmax.
  generalize dependent (Z.max BR_MIN (b - BR_INCREMENT)). clear b Hc.
  destruct s as [pw conn col dur ir]. unfold Light.with_color. cbn [Light.power
    Light.connected Light.duration Light.ir_support]. clear col.
  induction devs as [|d devs IH]; intros b Hb.
  - cbn. f_equal. f_equal. f_equal. f_equal. lia.
  - cbn [fold_left]. erewrite dim_mirror by reflexivity.
    unfold Light.with_color. cbn [Light.power Light.connected Light.duration Light.ir_support].
    rewrite IH by lia. f_equal. f_equal. f_equal. f_equal.
    cbn [length]. unfold BR_MIN, BR_INCREMENT in *. lia.
Qed.

Lemma dim_presses_bottom_out_witness :
  presses Light.dim [quiet_device; broken_device] half_bulb
  = Light.with_color [0; 0; Z.max BR_MIN (32768 - 2 * BR_INCREMENT); 3500] half_bulb.
Proof.
  apply (dim_presses_bottom_out [quiet_device; broken_device] half_bulb 0 0 32768 [3500]).
  - reflexivity.
  - discriminate.
Defined.

(** X11. On a bulb whose mirror says on, BRT raises the mirrored
    brightness by BR_INCREMENT and stops at BR_MAX, whatever the device
    answers: after n >= 1 BRT commands the mirror holds
    min (BR_MAX, b + n * BR_INCREMENT) and is otherwise unchanged. *)
Theorem brighten_presses_top_out devs s h sa b rest
    (Hon : Light.power s = true)
    (Hc : Light.color s = h :: sa :: b :: rest)
    (Hn : devs <> []) :
  presses Light.brighten devs s
  = Light.with_color
      (h :: sa :: Z.min BR_MAX (b + Z.of_nat (length devs) * BR_INCREMENT) :: rest) s.
Proof.
  destruct devs as [|dev devs]; [congruence|]. clear Hn.
  unfold presses. cbn [fold_left]. rewrite (brighten_mirror dev s h sa b rest Hon Hc).
  replace (Z.of_nat (length (dev :: devs))) with (1 + Z.of_nat (length devs))
    by (cbn [length]; lia).
  assert (Hmin : Z.min BR_MAX (b + (1 + Z.of_nat (length devs)) * BR_INCREMENT)
                 = Z.min BR_MAX (Z.min BR_MAX (b + BR_INCREMENT)
                                 + Z.of_nat (length devs) * BR_INCREMENT))
    by (unfold BR_MAX, BR_INCREMENT; lia).
  rewrite Hmin. clear Hmin.
  assert (Hle : Z.min BR_MAX (b + BR_INCREMENT) <= BR_MAX) by lia.
  generalize dependent (Z.min BR_MAX (b + BR_INCREMENT)). clear b Hc.
  destruct s as [pw conn col dur ir]. cbn in Hon. subst pw.
  unfold Light.with_color. cbn [Light.power
    Light.connected Light.duration Light.ir_support]. clear col.
  induction devs as [|d devs IH]; intros b Hb.
  - cbn. f_equal. f_equal. f_equal. f_equal. lia.
  - cbn [fold_left]. erewrite brighten_mirror by reflexivity.
    unfold Light.with_color. cbn [Light.power Light.connected Light.duration Light.ir_support].
    rewrite IH by lia. f_equal. f_equal. f_equal. f_equal.
    cbn [length]. unfold BR_MAX, BR_INCREMENT in *. lia.
Qed.

Lemma brighten_presses_top_out_witness :
  presses Light.brighten [quiet_device; broken_device] half_bulb
  = Light.with_color [0; 0; Z.min BR_MAX (32768 + 2 * BR_INCREMENT); 3500] half_bulb.
Proof.
  apply (brighten_presses_top_out [quiet_device; broken_device] half_bulb 0 0 32768 [3500]).
  - reflexivity.
  - reflexivity.
  - discriminate.
Defined.

(** ** MultiZone: the brightness commands work on a copy *)

Ltac stays_step R leaf :=
  lazymatch goal with
  | |- keeps _ (let _ := _ in _) => cbv zeta
  | |- keeps _ (ret _) => apply (keeps_ret R)
  | |- keeps _ (raise _) => apply (keeps_raise R)
  | |- keeps _ (@get _) => apply (keeps_get R)
  | |- keeps _ (emit _) => apply (keeps_emit R)
  | |- keeps _ (lift _) => apply (keeps_lift R)
  | |- keeps _ (modify _) => apply (keeps_modify R); intros ?; leaf
  | |- keeps _ (bind _ _) => apply (keeps_bind R); [| intros ?]
  | |- keeps _ (try_else _ _ _ _) => apply (keeps_try_else R); [| intros ? | intros ?]
  | |- keeps _ (for_each _ _) => apply (keeps_for_each R); intros ? ?
  | |- keeps _ (match ?x with _ => _ end) => destruct x
  end.

Ltac mz_handlers_unfold :=
  unfold MultiZone.setOn, MultiZone.setOn_target, MultiZone.dim, MultiZone.brighten,
    MultiZone.fade_up, MultiZone.fade_down, MultiZone.turn_on_at_minimum,
    MultiZone.setColor, MultiZone._set_st, MultiZone.zone_color_at, MultiZone.zone_color,
    Light.preset, report_color, int, try_, dev_read, dev_write, log, setDriver, reportCmd.

#[local] Instance only_power_preorder : PreOrder only_power.
Proof.
  split.
  - intros s. destruct s. reflexivity.
  - intros s1 s2 s3 H1 H2. unfold only_power in *. rewrite H2, H1.
    destruct s1. reflexivity.
Qed.

(** X12. The brightness commands of a MultiZone compute the colour they
    send on a copy of the cursor zone's colour and never store it: DIM,
    FDDOWN and SET_COLOR leave every attribute as it was, and DON, DFON,
    BRT and FDUP change at most the power mirror. *)
Theorem multizone_brightness_keeps_mirror dev command s :
  Forall (fun h => final (h s) = s)
    [MultiZone.dim dev; MultiZone.fade_down dev; MultiZone.setColor dev command]
  /\ Forall (fun h => only_power s (final (h s)))
       [MultiZone.setOn dev command; MultiZone.brighten dev; MultiZone.fade_up dev].
Proof.
  split.
  - repeat (apply List.Forall_cons; [|]); [..|apply List.Forall_nil];
      match goal with |- final (?h _) = _ =>
        symmetry; revert s; change (keeps eq h) end;
      mz_handlers_unfold; repeat stays_step (@eq MultiZone.t) fail.
  - repeat (apply List.Forall_cons; [|]); [..|apply List.Forall_nil];
      match goal with |- only_power _ (final (?h _)) =>
        revert s; change (keeps only_power h) end;
      mz_handlers_unfold; repeat stays_step only_power ltac:(destruct s; reflexivity).
Qed.

(** ** Polling: the connectivity flag *)

(** X13. The poll of a bulb sets the connectivity flag by the colour
    read alone: 1 when [get_color] returned, whatever the power read
    does afterwards, and 0 when it raised, in which case the poll returns
    there, without asking for the power and with colour and power mirrors
    as they were. *)
Theorem light_poll_connectivity dev s :
  let o := Light.update dev s in
  Light.connected (final o) = match read_color dev with inr _ => 1 | inl _ => 0 end
  /\ (forall e, read_color dev = inl e ->
        result o = inr tt /\ calls (trace o) = [get_color]
        /\ final o = Light.with_connected 0 s).
Proof.
  cbv zeta. destruct s as [pw conn col dur ir].
  light_unfold. monad_unfold. simpl.
  destruct (read_color dev) as [e|c]; simpl.
  - split; [reflexivity|]. intros e' _. repeat split.
  - split; [|intros e' H; discriminate].
    repeat crush_step; reflexivity.
Qed.

Lemma refresh_zones_final dev zone s :
  let o := MultiZone.refresh_zones dev zone s in
  final o = zones_refreshed dev s
  /\ (result o = inr tt \/ returned (read_zones dev) = true /\ MultiZone.pending s = false)
  /\ (MultiZone.pending s = true -> trace o = []).
Proof.
  cbv zeta. unfold zones_refreshed.
  destruct s as [pw conn col dur nz cz pend].
  cbv [MultiZone.refresh_zones MultiZone.zone_color_at MultiZone.zone_color].
  monad_unfold. simpl.
  destruct pend; simpl; [repeat split; auto|].
  destruct (read_zones dev) as [e|zones]; simpl; [repeat split; auto; discriminate|].
  repeat crush_step; simplify_eq/=; repeat split; auto; discriminate.
Qed.

Lemma refresh_power_final dev s :
  final (MultiZone.refresh_power dev s) = power_refreshed dev s.
Proof.
  unfold power_refreshed.
  destruct s as [pw conn col dur nz cz pend].
  cbv [MultiZone.refresh_power MultiZone._set_st]. monad_unfold.
  destruct (read_power dev) as [e|v]; [reflexivity|].
  destruct (v =? 65535), pw; simpl;
    repeat crush_step; try discriminate; reflexivity.
Qed.

(** X14. The poll of a MultiZone clears the connectivity flag and sets
    it again when either read returns: the zone read, which is skipped
    while a batch is pending, or the power read.  When the zone read
    returns, the mirror holds the zones read and [num_zones] their
    number; while a batch is pending the colour mirror and [num_zones]
    are not touched. *)
Theorem multizone_poll_connectivity dev s :
  let o := MultiZone.update dev s in
  MultiZone.connected (final o)
  = (if negb (MultiZone.pending s) && returned (read_zones dev) || returned (read_power dev)
     then 1 else 0)
  /\ (forall zones, MultiZone.pending s = false -> read_zones dev = inr zones ->
        MultiZone.color (final o) = zones
        /\ MultiZone.num_zones (final o) = Z.of_nat (length zones))
  /\ (MultiZone.pending s = true ->
        MultiZone.color (final o) = MultiZone.color s
        /\ MultiZone.num_zones (final o) = MultiZone.num_zones s
        /\ ~ In get_color_zones (calls (trace o))).
Proof.
  cbv zeta. unfold MultiZone.update.
  cbv [bind modify get after setDriver emit]. cbn [result final trace].
  pose proof (refresh_zones_final dev (MultiZone.zone_of (MultiZone.current_zone s))
                (MultiZone.with_connected 0 s)) as Hz.
  cbv zeta in Hz. destruct Hz as (Hzf & Hzr & Hzt).
  destruct (MultiZone.refresh_zones _ _ _) as [rz s1 t1]. cbn [result final trace] in *.
  subst s1.
  assert (Hcalls : forall t, MultiZone.pending s = true ->
            ~ In get_color_zones (calls (t1 ++ t)) <-> ~ In get_color_zones (calls t)).
  { intros t Hp. rewrite (Hzt Hp). reflexivity. }
  destruct rz as [e|[]]; cbn [result final trace].
  - destruct Hzr as [Hzr|[Hret Hpend]]; [discriminate|].
    cbn in Hpend. unfold zones_refreshed. cbn [MultiZone.pending MultiZone.with_connected].
    rewrite Hpend. destruct (read_zones dev) as [e'|zones]; [discriminate|].
    cbn. split; [reflexivity|]. split; [|intros Hp; congruence].
    intros zones' _ E. inversion E; subst. split; reflexivity.
  - pose proof (refresh_power_final dev (zones_refreshed dev (MultiZone.with_connected 0 s)))
      as Hp.
    destruct (MultiZone.refresh_power dev _) as [rp s2 t2] eqn:Erp.
    cbn [result final trace] in *. subst s2.
    assert (Hno : ~ In get_color_zones (calls t2)).
    { pose proof (f_equal trace Erp) as Ht. cbn in Ht. rewrite <- Ht.
      cbv [MultiZone.refresh_power MultiZone._set_st]. monad_unfold.
      destruct (zones_refreshed dev (MultiZone.with_connected 0 s))
        as [pw conn col dur nz cz pend].
      destruct (read_power dev) as [e|v]; simpl; [intros [H|[]]; discriminate|].
      destruct (v =? 65535), pw; simpl;
        repeat crush_step; simpl; intuition discriminate. }
    assert (Hstate :
      let s2 := power_refreshed dev (zones_refreshed dev (MultiZone.with_connected 0 s)) in
      MultiZone.connected s2
      = (if negb (MultiZone.pending s) && returned (read_zones dev)
            || returned (read_power dev) then 1 else 0)
      /\ (forall zones, MultiZone.pending s = false -> read_zones dev = inr zones ->
            MultiZone.color s2 = zones
            /\ MultiZone.num_zones s2 = Z.of_nat (length zones))
      /\ (MultiZone.pending s = true ->
            MultiZone.color s2 = MultiZone.color s
            /\ MultiZone.num_zones s2 = MultiZone.num_zones s)).
    { unfold power_refreshed, zones_refreshed. destruct s as [pw conn col dur nz cz pend].
      cbn [MultiZone.pending MultiZone.with_connected].
      destruct pend, (read_zones dev) as [e|zones], (read_power dev) as [e'|p]; cbn;
        (split; [reflexivity|]); (split; [intros zs H1 H2; simplify_eq; split; reflexivity|]);
        intros H; try discriminate; split; reflexivity. }
    cbv zeta in Hstate. destruct Hstate as (H1 & H2 & H3).
    destruct rp as [e|[]]; cbn [result final trace];
      (split; [exact H1|]); (split; [exact H2|]);
      intros Hpend; destruct (H3 Hpend) as [H4 H5];
      (split; [exact H4|]); (split; [exact H5|]);
      rewrite (Hzt Hpend); cbn [app]; [exact Hno|].
    unfold calls in *. rewrite omap_app. cbn. rewrite app_nil_r. exact Hno.
Qed.

(** ** Tile: effects *)

(** Find an event in a trace that is known up to its tail. *)
Ltac find_event := simpl; repeat first [left; reflexivity | right].

Lemma set_tile_effect_final dev command w :
  final (Tile.set_tile_effect dev command w) = w.
Proof.
  symmetry. revert w. change (keeps eq (Tile.set_tile_effect dev command)).
  unfold Tile.set_tile_effect, int, try_, dev_write, log, setDriver.
  repeat stays_step (@eq Tile.world) fail.
Qed.

Lemma tile_update_effect dev w ty :
  read_tile_effect dev = inr (Some ty) ->
  let o := Tile.update dev w in
  let e := if 0 <? ty then ty - 1 else 0 in
  Tile.effect (Tile.self (final o)) = e /\ In (SetDriver "GV9" (DInt e)) (trace o).
Proof.
  intros Hr. cbv zeta. unfold Tile.update, Tile.super, zoom.
  cbv [bind try_ try_else dev_read emit lift ret raise get modify after setDriver].
  rewrite Hr. cbn [result final trace any_exception].
  destruct (0 <? ty); cbn [result final trace];
    match goal with |- context [Light.update dev ?l] =>
      destruct (Light.update dev l) as [r l' t'] end;
    cbn [result final trace]; destruct r; cbn; (split; [reflexivity|]); auto.
Qed.

(** X15. An [EFFECT] command with a type in 0..2 and its fields present
    sends one [set_tile_effect], reports the requested type through GV9
    and leaves the node's attributes as they were; a poll on which the
    device answers with the effect type it was sent stores and reports
    the requested type again. *)
Theorem tile_effect_round_trip dev command w e speed d
    (He : query command "EF.uom25" = Some e)
    (Hrange : 0 <= e <= 2)
    (Hb : e = 1 -> is_Some (query command "B.uom56"))
    (Hs : query command "ES.uom42" = Some speed)
    (Hd : query command "ED.uom42" = Some d) :
  let o := Tile.set_tile_effect dev command w in
  final o = w
  /\ In (SetDriver "GV9" (DInt e)) (trace o)
  /\ exists ty palette,
       calls (trace o) = [set_tile_effect ty speed (d * 1000000) palette]
       /\ forall dev', read_tile_effect dev' = inr (Some ty) ->
            let o' := Tile.update dev' (final o) in
            Tile.effect (Tile.self (final o')) = e
            /\ In (SetDriver "GV9" (DInt e)) (trace o').
Proof.
  cbv zeta. split; [apply set_tile_effect_final|].
  assert (Hcalls : In (SetDriver "GV9" (DInt e)) (trace (Tile.set_tile_effect dev command w))
    /\ exists palette,
         calls (trace (Tile.set_tile_effect dev command w))
         = [set_tile_effect (if 0 <? e then e + 1 else e) speed (d * 1000000) palette]).
  { unfold Tile.set_tile_effect. rewrite He, Hs, Hd.
    cbv [int bind ret raise emit log setDriver after try_ try_else dev_write].
    cbn [result final trace].
    replace ((e <? 0) || (2 <? e)) with false
      by (destruct (Z.ltb_spec e 0), (Z.ltb_spec 2 e); try lia; reflexivity).
    cbn [result final trace].
    destruct ((if 0 <? e then e + 1 else e) =? 2) eqn:E2.
    - assert (e = 1) as He1
        by (destruct (Z.ltb_spec 0 e); apply Z.eqb_eq in E2; lia).
      destruct (Hb He1) as [br Hbr]. rewrite Hbr. cbn [result final trace].
      destruct (write dev _) as [ex|]; cbn [result final trace];
        [destruct (only [WorkflowException; TypeError] ex)|]; cbn [result final trace];
        (split; [find_event | eexists; reflexivity]).
    - cbn [result final trace].
      destruct (write dev _) as [ex|]; cbn [result final trace];
        [destruct (only [WorkflowException; TypeError] ex)|]; cbn [result final trace];
        (split; [find_event | eexists; reflexivity]). }
  destruct Hcalls as [Hgv [palette Hc]]. split; [exact Hgv|].
  exists (if 0 <? e then e + 1 else e), palette. split; [exact Hc|].
  intros dev' Hr. rewrite set_tile_effect_final.
  pose proof (tile_update_effect dev' w _ Hr) as Hu. cbv zeta in Hu.
  replace (if 0 <? (if 0 <? e then e + 1 else e)
           then (if 0 <? e then e + 1 else e) - 1 else 0) with e in Hu; [exact Hu|].
  destruct (Z.ltb_spec 0 e).
  - destruct (Z.ltb_spec 0 (e + 1)); lia.
  - destruct (Z.ltb_spec 0 e); lia.
Qed.

Lemma tile_effect_round_trip_witness :
  let o := Tile.set_tile_effect tile_device (effect_command 1)
             {| Tile.cust_data := ∅; Tile.self := sample_tile "d073d5000001" |} in
  final o = {| Tile.cust_data := ∅; Tile.self := sample_tile "d073d5000001" |}
  /\ In (SetDriver "GV9" (DInt 1)) (trace o)
  /\ exists ty palette,
       calls (trace o) = [set_tile_effect ty 3000 (0 * 1000000) palette]
       /\ forall dev', read_tile_effect dev' = inr (Some ty) ->
            let o' := Tile.update dev' (final o) in
            Tile.effect (Tile.self (final o')) = 1
            /\ In (SetDriver "GV9" (DInt 1)) (trace o').
Proof.
  apply (tile_effect_round_trip tile_device (effect_command 1)); try reflexivity.
  - lia.
  - intros _. eexists. reflexivity.
Defined.

Lemma recall_state_idle dev command w :
  Tile.effect (Tile.self w) <= 0 ->
  Forall (fun c => ~ is_effect_call c) (calls (trace (Tile.recall_state dev command w))).
Proof.
  intros Hidle. destruct w as [cd tile]. cbn in Hidle.
  tile_unfold. monad_unfold. simpl.
  destruct (Z.ltb_spec 0 (Tile.effect tile)); [lia|]. simpl.
  repeat crush_step; repeat constructor; intros [].
Qed.

(** X16. The [EFFECT] handler does not record the effect it starts: the
    effect attribute changes only on a poll.  So a [TILERT] that follows
    an [EFFECT] on a tile whose attribute says no effect sends no call to
    stop the effect. *)
Theorem recall_after_effect_sends_no_stop dev command dev2 command2 w
    (Hidle : Tile.effect (Tile.self w) <= 0) :
  let w1 := final (Tile.set_tile_effect dev command w) in
  Tile.effect (Tile.self w1) = Tile.effect (Tile.self w)
  /\ Forall (fun c => ~ is_effect_call c)
       (calls (trace (Tile.recall_state dev2 command2 w1))).
Proof.
  cbv zeta. rewrite set_tile_effect_final. split; [reflexivity|].
  apply recall_state_idle. exact Hidle.
Qed.

Lemma recall_after_effect_sends_no_stop_witness :
  let w := {| Tile.cust_data := ∅; Tile.self := sample_tile "d073d5000001" |} in
  let w1 := final (Tile.set_tile_effect tile_device (effect_command 2) w) in
  Tile.effect (Tile.self w1) = Tile.effect (Tile.self w)
  /\ Forall (fun c => ~ is_effect_call c)
       (calls (trace (Tile.recall_state tile_device (value_command "TILERT" 1) w1))).
Proof.
  apply (recall_after_effect_sends_no_stop tile_device (effect_command 2) tile_device
           (value_command "TILERT" 1)
           {| Tile.cust_data := ∅; Tile.self := sample_tile "d073d5000001" |}).
  cbn. lia.
Defined.

(** X17. [TILERT] on a tile whose attribute says an effect runs first
    sends the call that stops the effect, then clears the attribute and
    reports 0 through GV9 whether or not that call returned; the handler
    itself always returns. *)
Theorem recall_state_stops_effect dev command w
    (Hrun : 0 < Tile.effect (Tile.self w)) :
  let o := Tile.recall_state dev command w in
  result o = inr tt
  /\ Tile.effect (Tile.self (final o)) = 0
  /\ (exists rest, calls (trace o) = set_tile_effect 0 3000 0 [] :: rest)
  /\ In (SetDriver "GV9" (DInt 0)) (trace o).
Proof.
  cbv zeta. destruct w as [cd tile]. cbn in Hrun.
  tile_unfold. monad_unfold. simpl.
  destruct (Z.ltb_spec 0 (Tile.effect tile)); [|lia]. simpl.
  repeat crush_step; simpl;
    (split; [reflexivity|]); (split; [reflexivity|]);
    (split; [eexists; reflexivity|]); find_event.
Qed.

Lemma recall_state_stops_effect_witness :
  let o := Tile.recall_state broken_device (value_command "TILERT" 1) busy_tile in
  result o = inr tt
  /\ Tile.effect (Tile.self (final o)) = 0
  /\ (exists rest, calls (trace o) = set_tile_effect 0 3000 0 [] :: rest)
  /\ In (SetDriver "GV9" (DInt 0)) (trace o).
Proof.
  apply (recall_state_stops_effect broken_device (value_command "TILERT" 1) busy_tile).
  cbn. lia.
Defined.

(** ** Light: SET_COLOR and the colour mirror *)

#[local] Instance same_colour_preorder : PreOrder same_colour.
Proof.
  split.
  - intros s. repeat split.
  - intros s1 s2 s3 (A1 & B1 & C1) (A2 & B2 & C2). repeat split; congruence.
Qed.

Lemma setColor_same_colour pol dev command :
  keeps same_colour (Light.setColor pol dev command).
Proof.
  unfold Light.setColor, Light._power_on_change, Light.report_st, Light.color_at,
    Light.preset, report_color, int, try_, dev_write, log, setDriver.
  repeat stays_step same_colour ltac:(repeat split).
Qed.

Lemma setColor_first_call pol dev command s i name hsbk :
  Light.connected s <> 0 -> value command = Some i -> COLORS i = Some (name, hsbk) ->
  exists rest, calls (trace (Light.setColor pol dev command s))
               = set_color hsbk (Light.duration s) :: rest.
Proof.
  intros Hconn Hval Hpre. unfold Light.setColor.
  cbv [bind get after try_ try_else int ret Light.preset dev_write emit raise log].
  cbn [result final trace]. rewrite Hval, Hpre.
  destruct (Z.eqb_spec (Light.connected s) 0) as [E|_]; [contradiction|].
  cbn [negb result final trace fst snd].
  destruct (write dev _) as [e|]; cbn [result final trace];
    [destruct (only [WorkflowException] e); cbn [result final trace]|];
    try (eexists; reflexivity);
    repeat match goal with
    | |- context [report_color ?c ?x] =>
        destruct (report_color c x) as [[?e|[]] ?s1 ?t1]; cbn [after result final trace]
    | |- context [Light._power_on_change ?p ?d ?x] =>
        destruct (Light._power_on_change p d x) as [?r ?s1 ?t1]; cbn [after result final trace]
    end;
    eexists; reflexivity.
Qed.

Lemma dim_call dev s h sa b rest :
  Light.color s = h :: sa :: b :: rest ->
  calls (trace (Light.dim dev s))
  = [set_color (h :: sa :: Z.max BR_MIN (b - BR_INCREMENT) :: rest) BRTDIM_INTERVAL].
Proof.
  intros Hc. destruct s as [pw conn col dur ir]. cbn in Hc. subst col.
  replace (Z.max BR_MIN (b - BR_INCREMENT))
    with (if b - BR_INCREMENT <? BR_MIN then BR_MIN else b - BR_INCREMENT)
    by (destruct (Z.ltb_spec (b - BR_INCREMENT) BR_MIN); lia).
  light_unfold. monad_unfold.
  destruct pw; simpl; rewrite getitem_brightness; simpl;
    rewrite setitem_brightness; simpl;
    (destruct (write dev _) as [e|]; simpl;
     [destruct (bool_decide (WorkflowException = e))|]; simpl;
     cbv [Light.with_color Light.color Light.power Light.connected Light.duration
          Light.ir_support];
     rewrite ?getitem_brightness; reflexivity).
Qed.

(** X18. [SET_COLOR] sends the preset to the bulb and reports it through
    the drivers, but leaves the colour mirror as it was; the DIM that
    follows therefore sends the old hue, saturation and temperature, with
    the old brightness lowered. *)
Theorem preset_is_lost_on_dim pol dev dev2 command s i name hsbk h sa b rest
    (Hconn : Light.connected s <> 0)
    (Hval : value command = Some i)
    (Hpre : COLORS i = Some (name, hsbk))
    (Hc : Light.color s = h :: sa :: b :: rest) :
  let o1 := Light.setColor pol dev command s in
  let o2 := Light.dim dev2 (final o1) in
  (exists rest', calls (trace o1) = set_color hsbk (Light.duration s) :: rest')
  /\ Light.color (final o1) = Light.color s
  /\ calls (trace o2)
     = [set_color (h :: sa :: Z.max BR_MIN (b - BR_INCREMENT) :: rest) BRTDIM_INTERVAL].
Proof.
  cbv zeta. destruct (setColor_same_colour pol dev command s) as (Hcol & _ & _).
  split; [eapply setColor_first_call; eassumption|].
  split; [exact Hcol|].
  apply dim_call. rewrite Hcol. exact Hc.
Qed.

Lemma preset_is_lost_on_dim_witness :
  let o1 := Light.setColor default_policy quiet_device (value_command "SET_COLOR" 3)
              half_bulb in
  let o2 := Light.dim quiet_device (final o1) in
  (exists rest', calls (trace o1) = set_color [16173; 65535; 65535; 3500] 0 :: rest')
  /\ Light.color (final o1) = Light.color half_bulb
  /\ calls (trace o2)
     = [set_color [0; 0; Z.max BR_MIN (32768 - BR_INCREMENT); 3500] BRTDIM_INTERVAL].
Proof.
  apply (preset_is_lost_on_dim default_policy quiet_device quiet_device
           (value_command "SET_COLOR" 3) half_bulb 3 "GREEN"
           [16173; 65535; 65535; 3500] 0 0 32768 [3500]).
  - discriminate.
  - reflexivity.
  - reflexivity.
  - reflexivity.
Defined.

(** ** Light: SET_HSBKD with fields missing *)

Lemma setHSBKD_with_query pol dev command s :
  let o := Light.setHSBKD pol dev command s in
  let c := default (Light.color s) (hsbk_of command) in
  let d := match hsbk_of command, query command "D.uom42" with
           | Some _, Some d => d
           | _, _ => 0
           end in
  Light.color (final o) = c /\ Light.duration (final o) = d
  /\ exists rest, calls (trace o) = set_color c d :: rest.
Proof.
  cbv zeta. unfold hsbk_of. destruct s as [pw conn col dur ir].
  light_unfold. monad_unfold. simpl.
  destruct (query command "H.uom56") as [h|]; simpl;
    [destruct (query command "S.uom56") as [sa|]; simpl;
     [destruct (query command "B.uom56") as [b|]; simpl;
      [destruct (query command "K.uom26") as [k|]; simpl;
       [destruct (query command "D.uom42") as [d|]; simpl|]|]|]|];
    repeat crush_step; simpl;
    (split; [reflexivity|]); (split; [reflexivity|]); eexists; reflexivity.
Qed.

(** X19. [SET_HSBKD] on a command without a query raises
    [AttributeError] at once: nothing is sent and no attribute changes.
    On a command with a query it stores and sends the four colour fields
    only when all four are there, and the duration only when the colour
    and the duration are there; otherwise it sends the colour mirror as
    it was, with duration 0, and the mirrored duration is reset to 0 even
    if the command carried one.  With a query, the colour write is the
    handler's first device call in every case. *)
Theorem setHSBKD_missing_fields pol dev r s :
  let o := setHSBKD_request pol dev r s in
  match r_query r with
  | None => result o = inl AttributeError /\ final o = s /\ trace o = []
  | Some q =>
      let command := command_of r q in
      let c := default (Light.color s) (hsbk_of command) in
      let d := match hsbk_of command, query command "D.uom42" with
               | Some _, Some d => d
               | _, _ => 0
               end in
      Light.color (final o) = c /\ Light.duration (final o) = d
      /\ exists rest, calls (trace o) = set_color c d :: rest
  end.
Proof.
  cbv zeta. unfold setHSBKD_request. destruct (r_query r) as [q|].
  - apply (setHSBKD_with_query pol dev (command_of r q) s).
  - repeat split.
Qed.

(** ** Light: the waveform number *)

Lemma waveform_name_missing f : 5 <= f -> getitem WAVEFORM f = inl IndexError.
Proof.
  intros Hf. unfold getitem, py_index. change (Z.of_nat (length WAVEFORM)) with 5.
  destruct (Z.leb_spec 0 f); [|lia]. destruct (Z.ltb_spec f 5); [lia|]. reflexivity.
Qed.

(** X20. On a bulb that is on, a [WAVEFORM] command with all its fields
    and a form number f in 0..9 sends one [set_waveform] with transient
    flag f / 5 and form f mod 5; with f >= 10 the handler raises
    [IndexError] while formatting its log line and sends nothing.  The
    attributes are unchanged either way. *)
Theorem waveform_number_decoding dev command s h sa b k pe cy dc f
    (Hon : Light.power s = true)
    (Hh : query command "H.uom56" = Some h) (Hs : query command "S.uom56" = Some sa)
    (Hb : query command "B.uom56" = Some b) (Hk : query command "K.uom26" = Some k)
    (Hpe : query command "PE.uom42" = Some pe) (Hcy : query command "CY.uom56" = Some cy)
    (Hdc : query command "DC.uom56" = Some dc) (Hf : query command "WF.uom25" = Some f) :
  let o := Light.set_wf dev command s in
  final o = s
  /\ (0 <= f < 10 ->
        calls (trace o) = [set_waveform (f / 5) [h; sa; b; k] pe cy dc (f mod 5)])
  /\ (10 <= f -> result o = inl IndexError /\ calls (trace o) = []).
Proof.
  cbv zeta. destruct s as [pw conn col dur ir]. cbn in Hon. subst pw.
  unfold Light.set_wf. rewrite Hh, Hs, Hb, Hk, Hpe, Hcy, Hdc, Hf.
  cbv [bind get int ret after log emit try_ try_else dev_write raise].
  cbn [Light.power negb result final trace].
  destruct (Z.leb_spec 5 f) as [H5|H5].
  - destruct (Z.ltb_spec f 10) as [H10|H10].
    + assert (f = 5 \/ f = 6 \/ f = 7 \/ f = 8 \/ f = 9) as Hcase by lia.
      split; [|split; [intros _|intros; lia]];
        destruct Hcase as [->|[->|[->|[->| ->]]]]; cbn;
        destruct (write dev _) as [e|]; cbn;
        try destruct (bool_decide (WorkflowException = e)); reflexivity.
    + rewrite (waveform_name_missing (f - 5)) by lia. cbn.
      split; [reflexivity|]. split; [intros; lia|]. intros _. split; reflexivity.
  - destruct (Z.leb_spec 0 f) as [H0|H0].
    + assert (f = 0 \/ f = 1 \/ f = 2 \/ f = 3 \/ f = 4) as Hcase by lia.
      split; [|split; [intros _|intros; lia]];
        destruct Hcase as [->|[->|[->|[->| ->]]]]; cbn;
        destruct (write dev _) as [e|]; cbn;
        try destruct (bool_decide (WorkflowException = e)); reflexivity.
    + split; [|split; intros; lia].
      destruct (getitem WAVEFORM f) as [e|name]; cbn; [reflexivity|].
      destruct (write dev _) as [e|]; cbn;
        try destruct (bool_decide (WorkflowException = e)); reflexivity.
Qed.

Lemma waveform_number_decoding_witness :
  let o := Light.set_wf quiet_device (waveform_command 7) connected_bulb in
  final o = connected_bulb
  /\ (0 <= 7 < 10 ->
        calls (trace o)
        = [set_waveform (7 / 5) [62978; 65535; 65535; 3500] 1000 5 0 (7 mod 5)])
  /\ (10 <= 7 -> result o = inl IndexError /\ calls (trace o) = []).
Proof.
  apply (waveform_number_decoding quiet_device (waveform_command 7) connected_bulb);
    reflexivity.
Defined.

(** ** Light: a switch command and the poll after it *)

Lemma setOff_accepted dev s :
  write dev (set_power false) = None ->
  Light.power (final (Light.setOff dev s)) = false.
Proof.
  intros Hw. destruct s as [pw conn col dur ir].
  light_unfold. monad_unfold. simpl. rewrite Hw. reflexivity.
Qed.

Lemma setOn_accepted pol dev command s h sa b rest :
  (forall c, write dev c = None) ->
  Light.color s = h :: sa :: b :: rest ->
  Light.power (final (Light.setOn pol dev command s)) = true.
Proof.
  intros Hw Hc. destruct s as [pw conn col dur ir]. cbn in Hc. subst col.
  light_unfold. monad_unfold. simpl.
  destruct (String.eqb (cmd command) "DFON"); simpl;
    rewrite ?getitem_brightness; simpl;
    repeat first
      [ rewrite Hw; simpl
      | rewrite getitem_brightness; simpl
      | rewrite setitem_brightness; simpl
      | match goal with
        | |- context [if ?c then _ else _] => destruct c eqn:?; simpl
        | |- context [match value command with _ => _ end] =>
            destruct (value command); simpl
        end ];
    try reflexivity; rewrite ?andb_true_r in *; subst; try reflexivity;
    match goal with H : (?p && _)%bool = true |- _ =>
      apply andb_true_iff in H; destruct H; assumption end.
Qed.

Lemma poll_reports_change dev s c :
  In c (reports (trace (Light.update dev s))) ->
  c = if Light.power s then "DOF" else "DON".
Proof.
  destruct (Light_update_power dev s) as [Hr _]. rewrite Hr. clear Hr.
  cbn [notifications]. destruct (observed_power _) as [v|]; [|intros []].
  destruct (Light.power s), v; cbn; intuition.
Qed.

(** X21. A switch command that the device took is not reported back: after
    DON or DFON on a bulb whose writes return, the next poll sends no DON
    report, and after DOF or DFOF it sends no DOF report, whatever the
    device answers to the poll.  The level of a DON, if it has one, is
    taken within the range of a float: beyond it the handler raises
    [OverflowError] before it sends anything. *)
Theorem accepted_switch_is_not_echoed pol dev dev' command s h sa b rest
    (Hlevel : level_in_float_range command)
    (Hw : forall c, write dev c = None)
    (Hc : Light.color s = h :: sa :: b :: rest) :
  let on := final (Light.setOn pol dev command s) in
  let off := final (Light.setOff dev s) in
  (Light.power on = true /\ ~ In "DON" (reports (trace (Light.update dev' on))))
  /\ (Light.power off = false /\ ~ In "DOF" (reports (trace (Light.update dev' off)))).
Proof.
  cbv zeta.
  pose proof (setOn_accepted pol dev command s h sa b rest Hw Hc) as Hon.
  pose proof (setOff_accepted dev s (Hw _)) as Hoff.
  split; (split; [assumption|]); intros Hin; apply poll_reports_change in Hin.
  - rewrite Hon in Hin. discriminate.
  - rewrite Hoff in Hin. discriminate.
Qed.

Lemma accepted_switch_is_not_echoed_witness :
  let on := final (Light.setOn default_policy quiet_device (plain_command "DON") dark_bulb) in
  let off := final (Light.setOff quiet_device dark_bulb) in
  (Light.power on = true
   /\ ~ In "DON" (reports (trace (Light.update (lit_device 65535) on))))
  /\ (Light.power off = false
      /\ ~ In "DOF" (reports (trace (Light.update (lit_device 65535) off)))).
Proof.
  apply (accepted_switch_is_not_echoed default_policy quiet_device (lit_device 65535)
           (plain_command "DON") dark_bulb 0 0 65535 [3500]).
  - intros v Hv. discriminate.
  - reflexivity.
  - reflexivity.
Defined.

(** ** Light: DON with a level *)

(** X22. [DON] with a level v in 0..255 first writes the mirror's colour
    with brightness max (BR_MIN, 257 * v), over the mirrored duration,
    and stores that brightness in the mirror: the levels 0..255 are
    spread evenly over 0..65535, and levels below 6 give BR_MIN. *)
Theorem don_level_scaling pol dev s v h sa b rest
    (Hv : 0 <= v <= 255)
    (Hc : Light.color s = h :: sa :: b :: rest) :
  let o := Light.setOn pol dev (value_command "DON" v) s in
  let c := h :: sa :: Z.max BR_MIN (257 * v) :: rest in
  Light.color (final o) = c
  /\ exists rest', calls (trace o) = set_color c (Light.duration s) :: rest'.
Proof.
  cbv zeta. destruct s as [pw conn col dur ir]. cbn in Hc. subst col.
  assert (Hclamp : clamp (round_div (v * 65535) 255) = Z.max BR_MIN (257 * v)).
  { rewrite round_div_scale. unfold clamp, BR_MAX, BR_MIN.
    destruct (Z.ltb_spec 65535 (v * 257)); [lia|].
    destruct (Z.ltb_spec (v * 257) 1310); lia. }
  light_unfold. monad_unfold. simpl. rewrite Hclamp.
  rewrite setitem_brightness. simpl.
  repeat first
    [ rewrite getitem_brightness; simpl
    | match goal with
      | |- context [write ?d ?c] => destruct (write d c) as [?e|]; simpl
      | |- context [if ?c then _ else _] => destruct c; simpl
      end ];
    (split; [reflexivity | eexists; reflexivity]).
Qed.

Lemma don_level_scaling_witness :
  let o := Light.setOn default_policy quiet_device (value_command "DON" 128) dark_bulb in
  let c := [0; 0; Z.max BR_MIN (257 * 128); 3500] in
  Light.color (final o) = c
  /\ exists rest', calls (trace o) = set_color c (Light.duration dark_bulb) :: rest'.
Proof.
  apply (don_level_scaling default_policy quiet_device dark_bulb 128 0 0 65535 [3500]).
  - lia.
  - reflexivity.
Defined.

(** ** Light: FDSTOP *)

(** X23. [FDSTOP] on a bulb that is on reads the colour back and, unless
    the brightness read is BR_MIN or BR_MAX, writes that colour with
    duration 0: the fade stops where the device says it is.  When the
    read raises, the colour mirror is written instead. *)
Theorem fade_stop_freezes dev s h sa b k
    (Hon : Light.power s = true)
    (Hc : reread_color dev s = [h; sa; b; k])
    (Hb : b <> BR_MIN /\ b <> BR_MAX) :
  let o := Light.fade_stop dev s in
  Light.color (final o) = [h; sa; b; k]
  /\ calls (trace o) = [get_color; set_color [h; sa; b; k] 0].
Proof.
  cbv zeta. destruct s as [pw conn col dur ir]. cbn in Hon. subst pw.
  unfold reread_color in Hc. cbn [Light.color] in Hc.
  destruct Hb as [Hmin Hmax].
  apply Z.eqb_neq in Hmin, Hmax.
  light_unfold. monad_unfold. simpl.
  destruct (read_color dev) as [e|c]; simpl; subst; simpl;
    rewrite Hmin, Hmax; simpl;
    (destruct (write dev _) as [e'|]; simpl;
     [destruct (bool_decide (WorkflowException = e'))|]; simpl; split; reflexivity).
Qed.

Lemma fade_stop_freezes_witness :
  let o := Light.fade_stop quiet_device half_bulb in
  Light.color (final o) = [0; 0; 32768; 3500]
  /\ calls (trace o) = [get_color; set_color [0; 0; 32768; 3500] 0].
Proof.
  apply (fade_stop_freezes quiet_device half_bulb 0 0 32768 3500).
  - reflexivity.
  - reflexivity.
  - split; discriminate.
Defined.

(** ** The policy flags *)

(** X24. The parameter handler only ever switches [change_pon] off and
    [ignore_second_on] on: after any sequence of parameter updates a flag
    that was switched stays switched, also when the parameter that
    switched it has been removed. *)
Theorem policy_flags_are_sticky updates pol :
  let pol' := parameter_updates updates pol in
  (change_pon pol = false -> change_pon pol' = false)
  /\ (ignore_second_on pol = true -> ignore_second_on pol' = true).
Proof.
  cbv zeta. unfold parameter_updates. revert pol.
  induction updates as [|params updates IH]; intros pol; [split; auto|].
  cbn [fold_left]. destruct (IH (Controller.parameter_handler params pol)) as [IH1 IH2].
  split; intros H; [apply IH1 | apply IH2]; unfold Controller.parameter_handler;
    destruct (Controller.truthy (params "change_no_pon")),
             (Controller.truthy (params "ignore_second_on")); cbn; auto.
Qed.
